(** * cpuproc: CPU time sampling and busy-percentage derivation

    A shallow embedding of the Linux implementation of the [cpuproc]
    package (files [cpuproc_linux.go], [common_linux.go] and the
    percentage engine), followed by the properties established about it.

    Conventions of the embedding:
    - a Go [string] or [[]byte] is a [string] (a list of bytes);
    - a Go [float64] is a [spec_float] at precision 53 and maximal
      exponent 1024 (IEEE 754 binary64, round to nearest even);
    - a Go integer of width [w] is a [Z] with its wrap-around written out;
    - a Go function returning [(v, err)] returns an [outcome]: [Ok v],
      [Err e], or [Panic p] when the Go runtime would panic (index or
      slice bounds out of range);
    - the operating system (files below the proc root, the clock, the
      scheduler priority) is a [World]; package-level variables are a
      [State] threaded through the calls that touch them. *)

From Stdlib Require Import ZArith List String Ascii Bool Lia.
From Stdlib Require Import Floats.SpecFloat.
From Stdlib Require DecimalString.
Import ListNotations.

Local Open Scope string_scope.
Local Open Scope list_scope.
Local Open Scope Z_scope.

(** ** Outcomes of Go calls *)

Inductive errKind := ErrSyntax | ErrRange.

Inductive error :=
| NumError (fn : string) (num : string) (k : errKind)
| ErrStatNoCPUInfo
| ErrNotContainCPU
| ErrCPUCounts (n1 n2 : nat)
| ErrLastTimesNil
| ErrWrongBtimeFormat
| ErrNoBtime
| ErrWrongUptimeFormat
| ErrNotExist (path : list string)
| ErrPermission (path : list string)
| ErrSysinfo
| ErrContext.

Inductive panic :=
| IndexOutOfRange (i : Z) (len : nat)
| SliceOutOfRange (lo hi : Z) (len : nat).

Inductive outcome (A : Type) :=
| Ok (a : A)
| Err (e : error)
| Panic (p : panic).

Arguments Ok {A} a.
Arguments Err {A} e.
Arguments Panic {A} p.

Definition bind {A B} (x : outcome A) (f : A -> outcome B) : outcome B :=
  match x with
  | Ok a => f a
  | Err e => Err e
  | Panic p => Panic p
  end.

Declare Scope go_scope.
Delimit Scope go_scope with go.
Notation "x <- c1 ;; c2" := (bind c1 (fun x => c2))
  (at level 61, c1 at next level, right associativity) : go_scope.
Local Open Scope go_scope.

(** [fields[i]] : indexing panics outside [0 <= i < len]. *)
Definition index {A} (l : list A) (i : nat) : outcome A :=
  match nth_error l i with
  | Some a => Ok a
  | None => Panic (IndexOutOfRange (Z.of_nat i) (List.length l))
  end.

(** ** float64 *)

Module F64.

Definition prec : Z := 53.
Definition emax : Z := 1024.

Definition t := spec_float.

Definition add : t -> t -> t := SFadd prec emax.
Definition sub : t -> t -> t := SFsub prec emax.
Definition mul : t -> t -> t := SFmul prec emax.
Definition div : t -> t -> t := SFdiv prec emax.

(** Go's [==], [<], [<=], [>] on float64: false as soon as one side is NaN. *)
Definition eqb : t -> t -> bool := SFeqb.
Definition ltb : t -> t -> bool := SFltb.
Definition leb : t -> t -> bool := SFleb.
Definition gtb (x y : t) : bool := SFltb y x.

Definition zero : t := S754_zero false.
Definition pinf : t := S754_infinity false.
Definition ninf : t := S754_infinity true.
Definition nan : t := S754_nan.

Definition is_nan (x : t) : bool :=
  match x with S754_nan => true | _ => false end.

Definition is_inf (x : t) : bool :=
  match x with S754_infinity _ => true | _ => false end.

Definition is_zero (x : t) : bool :=
  match x with S754_zero _ => true | _ => false end.

Definition signbit (x : t) : bool :=
  match x with
  | S754_zero s | S754_infinity s | S754_finite s _ _ => s
  | S754_nan => false
  end.

(** [float64(n)] for an integer [n]: the nearest float, ties to even. *)
Definition of_Z (n : Z) : t := binary_normalize prec emax n 0 false.

(** The float nearest to [m * 10^e] (ties to even); an infinity on
    overflow.  This is the value of a decimal literal. *)
Definition of_decimal (neg : bool) (m : Z) (e : Z) : t :=
  match m with
  | Z0 => S754_zero neg
  | Zneg _ => S754_nan
  | Zpos p =>
      if 0 <=? e then
        binary_round prec emax neg (Z.to_pos (Zpos p * 10 ^ e)) 0
      else
        let '(q, e', l) :=
          SFdiv_core_binary prec emax (Zpos p) 0 (Z.pow 10 (- e)) 0 in
        binary_round_aux prec emax neg q e' l
  end.

(** The float nearest to [m * 2^e]. *)
Definition of_binary (neg : bool) (m : Z) (e : Z) : t :=
  match m with
  | Z0 => S754_zero neg
  | Zneg _ => S754_nan
  | Zpos p => binary_round prec emax neg p e
  end.

(** Integer part of a float, rounded toward zero; [None] for NaN and
    the infinities. *)
Definition trunc (x : t) : option Z :=
  match x with
  | S754_zero _ => Some 0
  | S754_finite s m e =>
      let a := match e with
               | Zneg k => Z.shiftr (Zpos m) (Zpos k)
               | _ => Z.shiftl (Zpos m) e
               end in
      Some (if s then - a else a)
  | _ => None
  end.

(** Go's [math.Max] and [math.Min] (package math, special cases first). *)
Definition Max (x y : t) : t :=
  if (match x with S754_infinity false => true | _ => false end)
     || (match y with S754_infinity false => true | _ => false end)
  then pinf
  else if is_nan x || is_nan y then nan
  else if eqb x zero && eqb x y then (if signbit x then y else x)
  else if gtb x y then x else y.

Definition Min (x y : t) : t :=
  if (match x with S754_infinity true => true | _ => false end)
     || (match y with S754_infinity true => true | _ => false end)
  then ninf
  else if is_nan x || is_nan y then nan
  else if eqb x zero && eqb x y then (if signbit x then x else y)
  else if ltb x y then x else y.

Definition hundred : t := Eval cbv in of_Z 100.

End F64.

(** ** Bytes and strings (packages strings and bytes) *)

Module Strings.

Definition code (c : ascii) : Z := Z.of_N (N_of_ascii c).

Definition len (s : string) : Z := Z.of_nat (String.length s).

Definition isEmpty (s : string) : bool :=
  match s with EmptyString => true | _ => false end.

Fixpoint rev (acc s : string) : string :=
  match s with
  | EmptyString => acc
  | String c r => rev (String c acc) r
  end.

(** [s[lo:hi]]: panics unless [0 <= lo <= hi <= len(s)]. *)
Definition slice (s : string) (lo hi : Z) : outcome string :=
  if (0 <=? lo) && (lo <=? hi) && (hi <=? len s)
  then Ok (substring (Z.to_nat lo) (Z.to_nat (hi - lo)) s)
  else Panic (SliceOutOfRange lo hi (String.length s)).

Fixpoint HasPrefix (s prefix : string) : bool :=
  match prefix, s with
  | EmptyString, _ => true
  | String p prefix', String c s' =>
      (code c =? code p) && HasPrefix s' prefix'
  | String _ _, EmptyString => false
  end.

(** [bytes.IndexByte]: index of the first [b], [-1] when absent. *)
Fixpoint indexFrom (i : Z) (s : string) (b : ascii) : Z :=
  match s with
  | EmptyString => -1
  | String c r => if code c =? code b then i else indexFrom (i + 1) r b
  end.

Definition IndexByte (s : string) (b : ascii) : Z := indexFrom 0 s b.

(** [bytes.LastIndexByte]: index of the last [b], [-1] when absent. *)
Fixpoint lastIndexFrom (i : Z) (found : Z) (s : string) (b : ascii) : Z :=
  match s with
  | EmptyString => found
  | String c r =>
      lastIndexFrom (i + 1) (if code c =? code b then i else found) r b
  end.

Definition LastIndexByte (s : string) (b : ascii) : Z :=
  lastIndexFrom 0 (-1) s b.

(** Width in bytes of the white-space rune (unicode.IsSpace) that starts
    [s] in UTF-8, [0] when [s] does not start with one.  The runes are
    U+0009..U+000D, U+0020, U+0085, U+00A0, U+1680, U+2000..U+200A,
    U+2028, U+2029, U+202F, U+205F and U+3000. *)
Definition spaceWidth (s : string) : nat :=
  match s with
  | EmptyString => 0%nat
  | String c r =>
      let n := code c in
      if ((9 <=? n) && (n <=? 13)) || (n =? 32) then 1%nat
      else if n =? 194 then
        match r with
        | String d _ =>
            if (code d =? 133) || (code d =? 160) then 2%nat else 0%nat
        | _ => 0%nat
        end
      else if n =? 225 then
        match r with
        | String d (String e _) =>
            if (code d =? 154) && (code e =? 128) then 3%nat else 0%nat
        | _ => 0%nat
        end
      else if n =? 226 then
        match r with
        | String d (String e _) =>
            let x := code e in
            if ((code d =? 128)
                && (((128 <=? x) && (x <=? 138))
                    || (x =? 168) || (x =? 169) || (x =? 175)))
               || ((code d =? 129) && (x =? 159))
            then 3%nat else 0%nat
        | _ => 0%nat
        end
      else if n =? 227 then
        match r with
        | String d (String e _) =>
            if (code d =? 128) && (code e =? 128) then 3%nat else 0%nat
        | _ => 0%nat
        end
      else 0%nat
  end.

Definition flush (cur : string) : list string :=
  if isEmpty cur then [] else [cur].

(** [strings.Fields]: the maximal runs of non-space runes.  [skip] counts
    the bytes of a multi-byte space still to be passed over, [cur] is the
    field being collected. *)
Fixpoint fieldsFrom (skip : nat) (cur : string) (s : string) : list string :=
  match s with
  | EmptyString => flush cur
  | String c r =>
      match skip with
      | S k => fieldsFrom k cur r
      | O =>
          match spaceWidth s with
          | O => fieldsFrom O (cur ++ String c EmptyString)%string r
          | S k => flush cur ++ fieldsFrom k EmptyString r
          end
      end
  end.

Definition Fields (s : string) : list string := fieldsFrom 0 EmptyString s.

(** Leading white space removed. *)
Fixpoint trimLeftSpace (skip : nat) (s : string) : string :=
  match s with
  | EmptyString => s
  | String _ r =>
      match skip with
      | S k => trimLeftSpace k r
      | O =>
          match spaceWidth s with
          | O => s
          | S k => trimLeftSpace k r
          end
      end
  end.

(** Width of the white-space rune that ends a string, read on the
    reversed string. *)
Definition spaceWidthRev (s : string) : nat :=
  match s with
  | String c r =>
      if (Nat.eqb (spaceWidth (String c EmptyString)) 1) then 1%nat
      else
        match r with
        | String d r' =>
            if Nat.eqb (spaceWidth (String d (String c EmptyString))) 2
            then 2%nat
            else
              match r' with
              | String e _ =>
                  if Nat.eqb
                       (spaceWidth
                          (String e (String d (String c EmptyString)))) 3
                  then 3%nat else 0%nat
              | _ => 0%nat
              end
        | _ => 0%nat
        end
  | _ => 0%nat
  end.

Fixpoint trimLeftSpaceRev (skip : nat) (s : string) : string :=
  match s with
  | EmptyString => s
  | String _ r =>
      match skip with
      | S k => trimLeftSpaceRev k r
      | O =>
          match spaceWidthRev s with
          | O => s
          | S k => trimLeftSpaceRev k r
          end
      end
  end.

(** [strings.TrimSpace] *)
Definition TrimSpace (s : string) : string :=
  rev EmptyString
    (trimLeftSpaceRev 0 (rev EmptyString (trimLeftSpace 0 s))).

Fixpoint trimLeftByte (b : ascii) (s : string) : string :=
  match s with
  | String c r => if code c =? code b then trimLeftByte b r else s
  | EmptyString => s
  end.

(** [strings.Trim(s, cutset)] for a one-byte cutset. *)
Definition TrimByte (s : string) (b : ascii) : string :=
  rev EmptyString
    (trimLeftByte b (rev EmptyString (trimLeftByte b s))).

End Strings.

(** ** Number conversions (package strconv) *)

Module Strconv.
Import Strings.

Definition isDigit (c : ascii) : bool :=
  (48 <=? code c) && (code c <=? 57).

(** [lower(c) = c | ('x' - 'X')] *)
Definition lower (c : ascii) : Z := Z.lor (code c) 32.

Definition syntaxError (fn s : string) : error := NumError fn s ErrSyntax.
Definition rangeError (fn s : string) : error := NumError fn s ErrRange.

(** [strconv.Itoa] *)
Definition Itoa (n : Z) : string :=
  DecimalString.NilZero.string_of_int (Z.to_int n).

(** The digit loop of [ParseUint(s, 10, bitSize)]. *)
Fixpoint parseUintLoop (s0 : string) (bitSize : Z) (n : Z) (s : string)
  : outcome Z :=
  match s with
  | EmptyString => Ok n
  | String c r =>
      if isDigit c then
        let d := code c - 48 in
        if n >=? (2 ^ 64 - 1) / 10 + 1 then Err (rangeError "ParseUint" s0)
        else
          let n10 := n * 10 in
          let n1 := (n10 + d) mod 2 ^ 64 in
          if (n1 <? n10) || (n1 >? 2 ^ bitSize - 1)
          then Err (rangeError "ParseUint" s0)
          else parseUintLoop s0 bitSize n1 r
      else Err (syntaxError "ParseUint" s0)
  end.

Definition ParseUint (s : string) (bitSize : Z) : outcome Z :=
  if isEmpty s then Err (syntaxError "ParseUint" s)
  else parseUintLoop s bitSize 0 s.

(** [ParseInt(s, 10, bitSize)] *)
Definition ParseInt (s0 : string) (bitSize : Z) : outcome Z :=
  match s0 with
  | EmptyString => Err (syntaxError "ParseInt" s0)
  | String c r =>
      let '(neg, s) :=
        if code c =? 43 then (false, r)
        else if code c =? 45 then (true, r)
        else (false, s0) in
      let cutoff := 2 ^ (bitSize - 1) in
      let check (un : Z) :=
        if negb neg && (un >=? cutoff) then Err (rangeError "ParseInt" s0)
        else if neg && (un >? cutoff) then Err (rangeError "ParseInt" s0)
        else Ok (if neg then - un else un) in
      match ParseUint s bitSize with
      | Ok un => check un
      | Err (NumError _ _ ErrRange) => check (2 ^ bitSize - 1)
      | Err _ => Err (syntaxError "ParseInt" s0)
      | Panic p => Panic p
      end
  end.

(** *** ParseFloat *)

Fixpoint commonPrefixLenIgnoreCase (s prefix : string) : nat :=
  match s, prefix with
  | String c s', String p prefix' =>
      let c' := if (65 <=? code c) && (code c <=? 90)
                then code c + 32 else code c in
      if c' =? code p then S (commonPrefixLenIgnoreCase s' prefix')
      else 0%nat
  | _, _ => 0%nat
  end.

(** [special]: the infinities and NaN, with the number of bytes read. *)
Definition special (s : string) : option (F64.t * nat) :=
  let inf (sign : bool) (nsign : nat) (t : string) :=
    let n := commonPrefixLenIgnoreCase t "infinity" in
    let n := if Nat.ltb 3 n && Nat.ltb n 8 then 3%nat else n in
    if Nat.eqb n 3 || Nat.eqb n 8
    then Some (S754_infinity sign, (nsign + n)%nat) else None in
  match s with
  | EmptyString => None
  | String c r =>
      if code c =? 43 then inf false 1%nat r
      else if code c =? 45 then inf true 1%nat r
      else if (code c =? 105) || (code c =? 73) then inf false 0%nat s
      else if (code c =? 110) || (code c =? 78) then
        if Nat.eqb (commonPrefixLenIgnoreCase s "nan") 3
        then Some (F64.nan, 3%nat) else None
      else None
  end.

(** [underscoreOK]: underscores only between digits, or between a base
    prefix and a digit.  [prev] is the kind of the previous byte. *)
Inductive prevKind := PrevNone | PrevDigit | PrevUnderscore | PrevOther.

Fixpoint underscoreLoop (hex : bool) (prev : prevKind) (s : string) : bool :=
  match s with
  | EmptyString =>
      match prev with PrevUnderscore => false | _ => true end
  | String c r =>
      if isDigit c || (hex && (97 <=? lower c) && (lower c <=? 102))
      then underscoreLoop hex PrevDigit r
      else if code c =? 95 then
        match prev with
        | PrevDigit => underscoreLoop hex PrevUnderscore r
        | _ => false
        end
      else
        match prev with
        | PrevUnderscore => false
        | _ => underscoreLoop hex PrevOther r
        end
  end.

Definition underscoreOK (s : string) : bool :=
  let s :=
    match s with
    | String c r => if (code c =? 45) || (code c =? 43) then r else s
    | _ => s
    end in
  match s with
  | String c (String d r) =>
      if (code c =? 48)
         && ((lower d =? 98) || (lower d =? 111) || (lower d =? 120))
      then underscoreLoop (lower d =? 120) PrevDigit r
      else underscoreLoop false PrevNone s
  | _ => underscoreLoop false PrevNone s
  end.

Record digits := mkDigits {
  mantissa : Z;
  nd : Z;
  dp : Z;
  sawdot : bool;
  sawdigits : bool;
  underscores : bool
}.

(** The mantissa loop of [readFloat].  The mantissa keeps every digit
    (the library keeps 19 and a flag that more followed, and rounds the
    exact value all the same). *)
Fixpoint readDigits (hex : bool) (st : digits) (s : string)
  : digits * string :=
  match s with
  | EmptyString => (st, s)
  | String c r =>
      if code c =? 95 then
        readDigits hex
          (mkDigits (mantissa st) (nd st) (dp st) (sawdot st)
                    (sawdigits st) true) r
      else if code c =? 46 then
        if sawdot st then (st, s)
        else
          readDigits hex
            (mkDigits (mantissa st) (nd st) (nd st) true
                      (sawdigits st) (underscores st)) r
      else if isDigit c then
        if (code c =? 48) && (nd st =? 0) then
          readDigits hex
            (mkDigits (mantissa st) (nd st) (dp st - 1) (sawdot st)
                      true (underscores st)) r
        else
          readDigits hex
            (mkDigits (mantissa st * (if hex then 16 else 10)
                       + (code c - 48))
                      (nd st + 1) (dp st) (sawdot st) true
                      (underscores st)) r
      else if hex && (97 <=? lower c) && (lower c <=? 102) then
        readDigits hex
          (mkDigits (mantissa st * 16 + (lower c - 97 + 10))
                    (nd st + 1) (dp st) (sawdot st) true
                    (underscores st)) r
      else (st, s)
  end.

(** The exponent digits: value (no longer updated from 10000 on),
    whether an underscore was seen, and the rest of the input. *)
Fixpoint readExpDigits (e : Z) (us : bool) (s : string)
  : Z * bool * string :=
  match s with
  | EmptyString => (e, us, s)
  | String c r =>
      if code c =? 95 then readExpDigits e true r
      else if isDigit c then
        readExpDigits (if e <? 10000 then e * 10 + (code c - 48) else e)
                      us r
      else (e, us, s)
  end.

Record floatParts := mkParts {
  fp_mantissa : Z;
  fp_exp : Z;
  fp_neg : bool;
  fp_hex : bool;
  fp_rest : string
}.

(** [readFloat]: [None] when the library reports [ok = false]. *)
Definition readFloat (s : string) : option floatParts :=
  match s with
  | EmptyString => None
  | String c0 r0 =>
      let '(neg, s1) :=
        if code c0 =? 43 then (false, r0)
        else if code c0 =? 45 then (true, r0)
        else (false, s) in
      let '(hex, s2) :=
        match s1 with
        | String a (String b (String c r)) =>
            if (code a =? 48) && (lower b =? 120)
            then (true, String c r) else (false, s1)
        | _ => (false, s1)
        end in
      let '(st, s3) :=
        readDigits hex (mkDigits 0 0 0 false false false) s2 in
      if negb (sawdigits st) then None
      else
        let dp0 := if sawdot st then dp st else nd st in
        let dp1 := if hex then dp0 * 4 else dp0 in
        let ndMant := if hex then nd st * 4 else nd st in
        let finish (dp2 : Z) (us : bool) (rest : string) :=
          let exp := if mantissa st =? 0 then 0 else dp2 - ndMant in
          let consumed :=
            substring 0 (String.length s - String.length rest) s in
          if us && negb (underscoreOK consumed) then None
          else Some (mkParts (mantissa st) exp neg hex rest) in
        match s3 with
        | String c r =>
            if lower c =? (if hex then 112 else 101) then
              match r with
              | EmptyString => None
              | String d r' =>
                  let '(esign, s4) :=
                    if code d =? 43 then (1, r')
                    else if code d =? 45 then (-1, r')
                    else (1, r) in
                  match s4 with
                  | String x _ =>
                      if isDigit x then
                        let '(e, us, rest) :=
                          readExpDigits 0 (underscores st) s4 in
                        finish (dp1 + e * esign) us rest
                      else None
                  | EmptyString => None
                  end
              end
            else if hex then None
            else finish dp1 (underscores st) s3
        | EmptyString =>
            if hex then None else finish dp1 (underscores st) s3
        end
  end.

(** [ParseFloat(s, 64)]: the float nearest to the number written in [s]. *)
Definition ParseFloat (s : string) : outcome F64.t :=
  match special s with
  | Some (v, n) =>
      if Nat.eqb n (String.length s) then Ok v
      else Err (syntaxError "ParseFloat" s)
  | None =>
      match readFloat s with
      | None => Err (syntaxError "ParseFloat" s)
      | Some p =>
          let f :=
            if fp_hex p
            then F64.of_binary (fp_neg p) (fp_mantissa p) (fp_exp p)
            else F64.of_decimal (fp_neg p) (fp_mantissa p) (fp_exp p) in
          if negb (isEmpty (fp_rest p)) then Err (syntaxError "ParseFloat" s)
          else
            match f with
            | S754_infinity _ => Err (rangeError "ParseFloat" s)
            | _ => Ok f
            end
      end
  end.

End Strconv.

(** ** Data model *)

(** Modelled from the spec: the declaration of the package's [TimesStat]
    and its method [Total] (the type is used throughout, its declaration is
    not among the sources).  The spec gives the fields and
    [total = user+nice+system+idle+iowait+irq+softirq+steal+guest+guestNice]. *)
Record TimesStat := mkTimesStat {
  CPU : string;
  User : F64.t;
  System : F64.t;
  Idle : F64.t;
  Nice : F64.t;
  Iowait : F64.t;
  Irq : F64.t;
  Softirq : F64.t;
  Steal : F64.t;
  Guest : F64.t;
  GuestNice : F64.t
}.

Definition Total (c : TimesStat) : F64.t :=
  F64.add (F64.add (F64.add (F64.add (F64.add (F64.add (F64.add (F64.add
    (F64.add (User c) (Nice c)) (System c)) (Idle c)) (Iowait c)) (Irq c))
    (Softirq c)) (Steal c)) (Guest c)) (GuestNice c).

(** The record of the gopsutil library, package cpu, that process sampling
    fills, with that package's [Total].  Process sampling sets the user,
    system and iowait counters only; the other summands are zero. *)
Module cpu.
Record TimesStat := mkTimesStat {
  CPU : string;
  User : F64.t;
  System : F64.t;
  Idle : F64.t;
  Nice : F64.t;
  Iowait : F64.t;
  Irq : F64.t;
  Softirq : F64.t;
  Steal : F64.t;
  Guest : F64.t;
  GuestNice : F64.t
}.

Definition Total (c : TimesStat) : F64.t :=
  F64.add (F64.add (F64.add (F64.add (F64.add (F64.add (F64.add
    (User c) (System c)) (Nice c)) (Iowait c)) (Irq c)) (Softirq c))
    (Steal c)) (Idle c).
End cpu.

Record PageFaultsStat := mkPageFaultsStat {
  MinorFaults : Z;
  MajorFaults : Z;
  ChildMinorFaults : Z;
  ChildMajorFaults : Z
}.

(** [unix.CPUSet] is an array of 64-bit words; [Count] adds their bit counts. *)
Record proc := mkProc {
  set : list Z;
  pid : Z
}.

Definition onesCount64 (b : Z) : Z :=
  Z.of_nat (List.length (filter (Z.testbit b) (map Z.of_nat (seq 0 64)))).

Definition Count (s : list Z) : Z :=
  fold_left (fun c b => c + onesCount64 b) s 0.

(** Integer conversions *)
Definition wrap64 (n : Z) : Z := n mod 2 ^ 64.
Definition toInt64 (n : Z) : Z := (n + 2 ^ 63) mod 2 ^ 64 - 2 ^ 63.
Definition toInt32 (n : Z) : Z := (n + 2 ^ 31) mod 2 ^ 32 - 2 ^ 31.
Definition toUint32 (n : Z) : Z := n mod 2 ^ 32.

(** ** The operating system and the package variables *)

Inductive fileResult :=
| FileData (content : string)
| FileMissing
| FileDenied.

(** A [context.Context]: the environment map stored under [EnvKey], if
    any, and the instant at which it is cancelled, if ever. *)
Record Context := mkContext {
  ctxEnv : option (string -> string);
  ctxDone : option Z
}.

Definition Background : Context := mkContext None None.

(** A path is the list of the elements handed to [filepath.Join], not the
    string that [Join] makes of them: the file system is keyed by such
    lists, and nothing here says which lists [Join] would make equal.
    [files t p] is what opening [p] gives at instant [t] (nanoseconds since
    the epoch); [virtualization] is what [VirtualizationWithContext]
    reports, which never fails; [sysinfoUptime] is the uptime of the
    sysinfo call, [None] when it fails; [float64ToUint64] is the platform's
    result of [uint64(f)] for an [f] outside the range of uint64. *)
Record World := mkWorld {
  osEnv : string -> string;
  files : Z -> list string -> fileResult;
  virtualization : string * string;
  sysinfoUptime : Z -> option Z;
  getpriority : Z -> Z;
  schedAffinity : option (list Z);
  float64ToUint64 : F64.t -> Z
}.

(** Package-level variables, and the clock. *)
Record State := mkState {
  clock : Z;
  ClocksPerSec : F64.t;
  lastCPUTimes : option (list TimesStat);
  lastPerCPUTimes : option (list TimesStat);
  cachedBootTime : Z
}.

Definition clockTicks : Z := 100.
Definition enableBootTimeCache : bool := false.

Definition setClock (st : State) (t : Z) : State :=
  mkState t (ClocksPerSec st) (lastCPUTimes st) (lastPerCPUTimes st)
          (cachedBootTime st).

Definition setLastCPUTimes (st : State) (v : option (list TimesStat)) : State :=
  mkState (clock st) (ClocksPerSec st) v (lastPerCPUTimes st)
          (cachedBootTime st).

Definition setLastPerCPUTimes (st : State) (v : option (list TimesStat))
  : State :=
  mkState (clock st) (ClocksPerSec st) (lastCPUTimes st) v
          (cachedBootTime st).

Definition setCachedBootTime (st : State) (t : Z) : State :=
  mkState (clock st) (ClocksPerSec st) (lastCPUTimes st)
          (lastPerCPUTimes st) t.

Definition toUint64 (w : World) (f : F64.t) : Z :=
  match F64.trunc f with
  | Some n => if (0 <=? n) && (n <? 2 ^ 64) then n else float64ToUint64 w f
  | None => float64ToUint64 w f
  end.

(** ** Path resolution *)

(** [combine] hands [value] followed by [combineWith] to [filepath.Join];
    the elements are kept as they are handed over. *)
Definition combine (value : string) (combineWith : list string)
  : list string := value :: combineWith.

Definition GetEnvWithContext (w : World) (ctx : Context)
           (key dfault : string) (combineWith : list string) : list string :=
  let value := match ctxEnv ctx with Some env => env key | None => "" end in
  let value := if Strings.isEmpty value then osEnv w key else value in
  let value := if Strings.isEmpty value then dfault else value in
  combine value combineWith.

Definition HostProcWithContext (w : World) (ctx : Context)
           (combineWith : list string) : list string :=
  GetEnvWithContext w ctx "HOST_PROC" "/proc" combineWith.

(** ** Reading lines *)

Definition newline : ascii := "010"%char.

(** The successive results of [ReadString('\n')] on a content: the lines
    that end in a newline (newline included), and the bytes after the last
    newline, which come with [io.EOF]. *)
Fixpoint splitLines (cur : string) (s : string) : list string * string :=
  match s with
  | EmptyString => ([], cur)
  | String c r =>
      if Strings.code c =? Strings.code newline then
        let '(ls, last) := splitLines EmptyString r in
        ((cur ++ String c EmptyString)%string :: ls, last)
      else splitLines (cur ++ String c EmptyString)%string r
  end.

(** The loop [for i := 0; i < n+int(offset) || n < 0; i++] over the
    successive reads.  [offset] is the [uint] argument and [n] the [int]
    one: the conversion [int(offset)] and the sum [n+int(offset)] wrap at
    64 bits. *)
Fixpoint readLinesLoop (offset n : Z) (i : Z) (lines : list string)
         (last : string) : list string :=
  if (i <? toInt64 (n + toInt64 offset)) || (n <? 0) then
    match lines with
    | [] =>
        if Strings.isEmpty last then []
        else [Strings.TrimByte last newline]
    | l :: ls =>
        if i <? toInt64 offset then readLinesLoop offset n (i + 1) ls last
        else Strings.TrimByte l newline :: readLinesLoop offset n (i + 1) ls last
    end
  else [].

(** [ReadLinesOffsetN]: the value and the error are both returned, as in
    the source (one empty line comes with an open error). *)
Definition ReadLinesOffsetN (w : World) (now : Z) (filename : list string)
           (offset n : Z) : list string * option error :=
  match files w now filename with
  | FileMissing => ([""], Some (ErrNotExist filename))
  | FileDenied => ([""], Some (ErrPermission filename))
  | FileData content =>
      let '(lines, last) := splitLines EmptyString content in
      (readLinesLoop offset n 0 lines last, None)
  end.

Definition ReadLines (w : World) (now : Z) (filename : list string)
  : list string * option error :=
  ReadLinesOffsetN w now filename 0 (-1).

Fixpoint readLineLoop (prefix : string) (lines : list string) : string :=
  match lines with
  | [] => ""
  | line :: ls =>
      if Strings.HasPrefix line prefix then line else readLineLoop prefix ls
  end.

Definition ReadLine (w : World) (now : Z) (filename : list string)
           (prefix : string) : outcome string :=
  match files w now filename with
  | FileMissing => Err (ErrNotExist filename)
  | FileDenied => Err (ErrPermission filename)
  | FileData content =>
      Ok (readLineLoop prefix (fst (splitLines EmptyString content)))
  end.

Definition ReadFile (w : World) (now : Z) (filename : list string)
  : outcome string :=
  match files w now filename with
  | FileMissing => Err (ErrNotExist filename)
  | FileDenied => Err (ErrPermission filename)
  | FileData content => Ok content
  end.

(** ** Boot time (common_linux.go) *)

Definition second : Z := 1000000000.
Definition millisecond : Z := 1000000.

Definition handleBootTimeFileReadErr (w : World) (now : Z) (err : error)
  : outcome Z :=
  match err with
  | ErrPermission _ =>
      match sysinfoUptime w now with
      | None => Err ErrSysinfo
      | Some uptime =>
          let currentTime := Z.quot now second in
          let t := toInt64 (currentTime - uptime) in
          Ok (wrap64 t)
      end
  | _ => Err err
  end.

Definition readBootTimeStat (w : World) (ctx : Context) (now : Z)
  : outcome Z :=
  let filename := HostProcWithContext w ctx ["stat"] in
  match ReadLine w now filename "btime" with
  | Err err => handleBootTimeFileReadErr w now err
  | Panic p => Panic p
  | Ok line =>
      if Strings.HasPrefix line "btime" then
        let f := Strings.Fields line in
        if negb (Nat.eqb (List.length f) 2) then Err ErrWrongBtimeFormat
        else
          f1 <- index f 1 ;;
          match Strconv.ParseInt f1 64 with
          | Ok b => Ok (wrap64 b)
          | Err err => Err err
          | Panic p => Panic p
          end
      else Err ErrNoBtime
  end.

Definition isGuestOf (kind : string) (v : string * string) : bool :=
  String.eqb (fst v) kind && String.eqb (snd v) "guest".

(** The tail of [BootTimeWithContext]: the boot time computed from the
    uptime file. *)
Definition bootTimeFromUptime (w : World) (ctx : Context) (st : State)
           (enableCache : bool) : outcome Z * State :=
  let now := clock st in
  let filename := HostProcWithContext w ctx ["uptime"] in
  match ReadLines w now filename with
  | (_, Some err) => (handleBootTimeFileReadErr w now err, st)
  | (lines, None) =>
      if negb (Nat.eqb (List.length lines) 1)
      then (Err ErrWrongUptimeFormat, st)
      else
        match
          (l0 <- index lines 0 ;;
           f0 <- index (Strings.Fields l0) 0 ;;
           Strconv.ParseFloat f0)
        with
        | Err err => (Err err, st)
        | Panic p => (Panic p, st)
        | Ok b =>
            let currentTime := F64.div (F64.of_Z now) (F64.of_Z second) in
            let t := F64.sub currentTime b in
            let st' := if enableCache
                       then setCachedBootTime st (toUint64 w t) else st in
            (Ok (toUint64 w t), st')
        end
  end.

Definition BootTimeWithContext (w : World) (ctx : Context) (st : State)
           (enableCache : bool) : outcome Z * State :=
  if enableCache && negb (cachedBootTime st =? 0)
  then (Ok (cachedBootTime st), st)
  else
    let useStatFile :=
      if isGuestOf "lxc" (virtualization w) then false
      else if isGuestOf "docker" (virtualization w) then false
      else true in
    if useStatFile then
      match readBootTimeStat w ctx (clock st) with
      | Err err => (Err err, st)
      | Panic p => (Panic p, st)
      | Ok t =>
          (* the stat-file value is stored when caching, and control
             goes on to the uptime file *)
          bootTimeFromUptime w ctx
            (if enableCache then setCachedBootTime st t else st) enableCache
      end
    else bootTimeFromUptime w ctx st enableCache.

(** ** The stat-line parser and the sampler (cpuproc_linux.go) *)

Definition parseStatLine (cps : F64.t) (line : string) : outcome TimesStat :=
  let fields := Strings.Fields line in
  if Nat.ltb (List.length fields) 8 then Err ErrStatNoCPUInfo
  else
    f0 <- index fields 0 ;;
    if negb (Strings.HasPrefix f0 "cpu") then Err ErrNotContainCPU
    else
      let cpu := if String.eqb f0 "cpu" then "cpu-total" else f0 in
      user <- (f <- index fields 1 ;; Strconv.ParseFloat f) ;;
      nice <- (f <- index fields 2 ;; Strconv.ParseFloat f) ;;
      system <- (f <- index fields 3 ;; Strconv.ParseFloat f) ;;
      idle <- (f <- index fields 4 ;; Strconv.ParseFloat f) ;;
      iowait <- (f <- index fields 5 ;; Strconv.ParseFloat f) ;;
      irq <- (f <- index fields 6 ;; Strconv.ParseFloat f) ;;
      softirq <- (f <- index fields 7 ;; Strconv.ParseFloat f) ;;
      steal <- (if Nat.ltb 8 (List.length fields)
                then (f <- index fields 8 ;; s <- Strconv.ParseFloat f ;;
                      Ok (F64.div s cps))
                else Ok F64.zero) ;;
      guest <- (if Nat.ltb 9 (List.length fields)
                then (f <- index fields 9 ;; s <- Strconv.ParseFloat f ;;
                      Ok (F64.div s cps))
                else Ok F64.zero) ;;
      guestNice <- (if Nat.ltb 10 (List.length fields)
                    then (f <- index fields 10 ;; s <- Strconv.ParseFloat f ;;
                          Ok (F64.div s cps))
                    else Ok F64.zero) ;;
      Ok (mkTimesStat cpu
            (F64.div user cps) (F64.div system cps) (F64.div idle cps)
            (F64.div nice cps) (F64.div iowait cps) (F64.div irq cps)
            (F64.div softirq cps) steal guest guestNice).

(** The per-core lines: those after the first, up to the first one that
    does not start with "cpu". *)
Fixpoint cpuLines (statlines : list string) : list string :=
  match statlines with
  | [] => []
  | line :: rest =>
      if negb (Strings.HasPrefix line "cpu") then []
      else line :: cpuLines rest
  end.

(** The parsing loop: a line that fails to parse is passed over. *)
Fixpoint parseLines (cps : F64.t) (lines : list string)
  : outcome (list TimesStat) :=
  match lines with
  | [] => Ok []
  | line :: rest =>
      match parseStatLine cps line with
      | Err _ => parseLines cps rest
      | Panic p => Panic p
      | Ok ct => ret <- parseLines cps rest ;; Ok (ct :: ret)
      end
  end.

Definition TimesWithContext (w : World) (ctx : Context) (st : State)
           (percpu : bool) : outcome (list TimesStat) :=
  let filename := HostProcWithContext w ctx ["stat"] in
  if percpu then
    match ReadLines w (clock st) filename with
    | (_, Some _) => Ok []
    | (statlines, None) =>
        if Nat.ltb (List.length statlines) 2 then Ok []
        else parseLines (ClocksPerSec st) (cpuLines (tl statlines))
    end
  else
    let lines := fst (ReadLinesOffsetN w (clock st) filename 0 1) in
    parseLines (ClocksPerSec st) lines.

Definition Times (w : World) (st : State) (percpu : bool)
  : outcome (list TimesStat) :=
  TimesWithContext w Background st percpu.

(** ** The percentage engine *)

(** [runtime.GOOS == "linux"] holds for this build. *)
Definition getAllBusy (t : TimesStat) : F64.t * F64.t :=
  let tot := Total t in
  let tot := F64.sub tot (Guest t) in
  let tot := F64.sub tot (GuestNice t) in
  let busy := F64.sub (F64.sub tot (Idle t)) (Iowait t) in
  (tot, busy).

Definition calculateBusy (t1 t2 : TimesStat) : F64.t :=
  let '(t1All, t1Busy) := getAllBusy t1 in
  let '(t2All, t2Busy) := getAllBusy t2 in
  if F64.leb t2Busy t1Busy then F64.zero
  else if F64.leb t2All t1All then F64.hundred
  else
    F64.Min F64.hundred
      (F64.Max F64.zero
         (F64.mul (F64.div (F64.sub t2Busy t1Busy) (F64.sub t2All t1All))
                  F64.hundred)).

(** The loop [for i, t := range t2 { ret[i] = calculateBusy(t1[i], t) }]
    over two sequences of one length. *)
Fixpoint busyLoop (t1 t2 : list TimesStat) : list F64.t :=
  match t1, t2 with
  | a :: t1', b :: t2' => calculateBusy a b :: busyLoop t1' t2'
  | _, _ => []
  end.

Definition calculateAllBusy (t1 t2 : list TimesStat)
  : outcome (list F64.t) :=
  if negb (Nat.eqb (List.length t1) (List.length t2))
  then Err (ErrCPUCounts (List.length t1) (List.length t2))
  else Ok (busyLoop t1 t2).

(** The package initialiser. *)
Definition init (w : World) (st : State) : State :=
  let a := match Times w st false with Ok l => Some l | _ => None end in
  let st := setLastCPUTimes st a in
  let b := match Times w st true with Ok l => Some l | _ => None end in
  setLastPerCPUTimes st b.

Definition Sleep (ctx : Context) (st : State) (interval : Z)
  : outcome unit * State :=
  match ctxDone ctx with
  | Some d =>
      if d <? clock st + interval
      then (Err ErrContext, setClock st (Z.max (clock st) d))
      else (Ok tt, setClock st (clock st + interval))
  | None => (Ok tt, setClock st (clock st + interval))
  end.

Definition percentUsedFromLastCallWithContext (w : World) (ctx : Context)
           (st : State) (percpu : bool) : outcome (list F64.t) * State :=
  match TimesWithContext w ctx st percpu with
  | Err err => (Err err, st)
  | Panic p => (Panic p, st)
  | Ok cpuTimes =>
      let lastTimes :=
        if percpu then lastPerCPUTimes st else lastCPUTimes st in
      let st' :=
        if percpu then setLastPerCPUTimes st (Some cpuTimes)
        else setLastCPUTimes st (Some cpuTimes) in
      match lastTimes with
      | None => (Err ErrLastTimesNil, st')
      | Some lastTimes => (calculateAllBusy lastTimes cpuTimes, st')
      end
  end.

Definition PercentWithContext (w : World) (ctx : Context) (st : State)
           (interval : Z) (percpu : bool) : outcome (list F64.t) * State :=
  if interval <=? 0 then percentUsedFromLastCallWithContext w ctx st percpu
  else
    match TimesWithContext w ctx st percpu with
    | Err err => (Err err, st)
    | Panic p => (Panic p, st)
    | Ok cpuTimes1 =>
        match Sleep ctx st interval with
        | (Err err, st1) => (Err err, st1)
        | (Panic p, st1) => (Panic p, st1)
        | (Ok _, st1) =>
            match TimesWithContext w ctx st1 percpu with
            | Err err => (Err err, st1)
            | Panic p => (Panic p, st1)
            | Ok cpuTimes2 => (calculateAllBusy cpuTimes1 cpuTimes2, st1)
            end
        end
    end.

Definition Percent (w : World) (st : State) (interval : Z) (percpu : bool)
  : outcome (list F64.t) * State :=
  PercentWithContext w Background st interval percpu.

Definition PercentTotal (w : World) (st : State) (interval : Z)
  : outcome F64.t * State :=
  match Percent w st interval false with
  | (Err err, st') => (Err err, st')
  | (Panic p, st') => (Panic p, st')
  | (Ok rv, st') => (index rv 0, st')
  end.

(** ** Process sampling (cpuproc_linux.go) *)

Definition NewProcess (w : World) (pid : Z) : option proc :=
  match schedAffinity w with
  | None => None
  | Some s => Some (mkProc s pid)
  end.

Definition splitProcStat (content : string) : outcome (list string) :=
  let nameStart := Strings.IndexByte content "("%char in
  let nameEnd := Strings.LastIndexByte content ")"%char in
  rest <- Strings.slice content (nameEnd + 2) (Strings.len content) ;;
  let restFields := Strings.Fields rest in
  name <- Strings.slice content (nameStart + 1) nameEnd ;;
  head <- Strings.slice content 0 nameStart ;;
  let pid := Strings.TrimSpace head in
  Ok ("" :: pid :: name :: restFields).

Record procStat := mkProcStat {
  ps_terminal : Z;
  ps_ppid : Z;
  ps_cpuTimes : cpu.TimesStat;
  ps_createTime : Z;
  ps_rtpriority : Z;
  ps_nice : Z;
  ps_faults : PageFaultsStat
}.

Definition fillFromTIDStatWithContext (w : World) (ctx : Context)
           (st : State) (p : proc) (tid : Z) : outcome procStat :=
  let statPath :=
    if tid =? -1
    then HostProcWithContext w ctx [Strconv.Itoa (pid p); "stat"]
    else HostProcWithContext w ctx
           [Strconv.Itoa (pid p); "task"; Strconv.Itoa tid; "stat"] in
  contents <- ReadFile w (clock st) statPath ;;
  fields <- splitProcStat contents ;;
  terminal <- (f <- index fields 7 ;; Strconv.ParseUint f 64) ;;
  ppid <- (f <- index fields 4 ;; Strconv.ParseInt f 32) ;;
  utime <- (f <- index fields 14 ;; Strconv.ParseFloat f) ;;
  stime <- (f <- index fields 15 ;; Strconv.ParseFloat f) ;;
  iotime <- (if Nat.ltb 42 (List.length fields)
             then (f <- index fields 42 ;;
                   match Strconv.ParseFloat f with
                   | Ok io => Ok io
                   | Err _ => Ok F64.zero
                   | Panic q => Panic q
                   end)
             else Ok F64.zero) ;;
  let cpuTimes :=
    cpu.mkTimesStat "cpu"
      (F64.div utime (F64.of_Z clockTicks))
      (F64.div stime (F64.of_Z clockTicks))
      F64.zero F64.zero
      (F64.div iotime (F64.of_Z clockTicks))
      F64.zero F64.zero F64.zero F64.zero F64.zero in
  bootTime <- (match fst (BootTimeWithContext w ctx st enableBootTimeCache) with
               | Ok b => Ok b
               | Err _ => Ok 0
               | Panic q => Panic q
               end) ;;
  t <- (f <- index fields 22 ;; Strconv.ParseUint f 64) ;;
  let ctime := wrap64 (t / clockTicks + bootTime) in
  let createTime := toInt64 (ctime * 1000) in
  rtpriority <- (f <- index fields 18 ;; Strconv.ParseInt f 32) ;;
  let rtpriority :=
    if rtpriority <? 0 then toInt64 (rtpriority * -1 - 1) else 0 in
  let nice := toInt32 (getpriority w (pid p)) in
  minFault <- (f <- index fields 10 ;; Strconv.ParseUint f 64) ;;
  cMinFault <- (f <- index fields 11 ;; Strconv.ParseUint f 64) ;;
  majFault <- (f <- index fields 12 ;; Strconv.ParseUint f 64) ;;
  cMajFault <- (f <- index fields 13 ;; Strconv.ParseUint f 64) ;;
  let faults := mkPageFaultsStat minFault majFault cMinFault cMajFault in
  Ok (mkProcStat terminal ppid cpuTimes createTime (toUint32 rtpriority)
                 nice faults).

Definition fillFromStatWithContext (w : World) (ctx : Context) (st : State)
           (p : proc) : outcome procStat :=
  fillFromTIDStatWithContext w ctx st p (-1).

Definition proc_TimesWithContext (w : World) (ctx : Context) (st : State)
           (p : proc) : outcome cpu.TimesStat :=
  s <- fillFromStatWithContext w ctx st p ;; Ok (ps_cpuTimes s).

Definition createTimeWithContext (w : World) (ctx : Context) (st : State)
           (p : proc) : outcome Z :=
  s <- fillFromStatWithContext w ctx st p ;; Ok (ps_createTime s).

(** [time.Since(created).Seconds()] for [created = time.Unix(0, nsec)]:
    the difference saturates at the bounds of a [Duration]. *)
Definition sinceSeconds (now nsec : Z) : F64.t :=
  let d := Z.max (- 2 ^ 63) (Z.min (2 ^ 63 - 1) (now - nsec)) in
  let sec := Z.quot d second in
  let nsec := Z.rem d second in
  F64.add (F64.of_Z sec) (F64.div (F64.of_Z nsec) (F64.of_Z second)).

Definition CPUPercentWithContext (w : World) (ctx : Context) (st : State)
           (p : proc) : outcome F64.t :=
  crt_time <- createTimeWithContext w ctx st p ;;
  cput <- proc_TimesWithContext w ctx st p ;;
  let totalTime := sinceSeconds (clock st) (toInt64 (crt_time * millisecond)) in
  if F64.leb totalTime F64.zero then Ok F64.zero
  else Ok (F64.div (F64.mul F64.hundred (cpu.Total cput)) totalTime).

Definition cpuPercent (w : World) (st : State) (p : proc) : outcome F64.t :=
  CPUPercentWithContext w Background st p.

Definition CPUPercent (w : World) (st : State) (p : proc) : outcome F64.t :=
  let total := Count (set p) in
  cpuPercent <- cpuPercent w st p ;;
  Ok (F64.div cpuPercent (F64.mul (F64.of_Z total) (F64.of_Z 100))).

(** ** The vocabulary of the specification *)

(** The error kinds the specification names, and the kind of each error
    value of the code. *)
Inductive kind :=
| MalformedInput
| ShapeMismatch
| NoBaseline
| Unreadable
| Cancelled.

Definition kindOf (e : error) : kind :=
  match e with
  | NumError _ _ _ => MalformedInput
  | ErrStatNoCPUInfo => MalformedInput
  | ErrNotContainCPU => MalformedInput
  | ErrWrongBtimeFormat => MalformedInput
  | ErrNoBtime => MalformedInput
  | ErrWrongUptimeFormat => MalformedInput
  | ErrCPUCounts _ _ => ShapeMismatch
  | ErrLastTimesNil => NoBaseline
  | ErrNotExist _ => Unreadable
  | ErrPermission _ => Unreadable
  | ErrSysinfo => Unreadable
  | ErrContext => Cancelled
  end.

(** The guest-adjusted total and the busy time of a snapshot, as the
    specification words them: guest and guestNice are subtracted from the
    total, and busy is that total less idle and iowait. *)
Definition allOf (t : TimesStat) : F64.t :=
  F64.sub (F64.sub (Total t) (Guest t)) (GuestNice t).

Definition busyOf (t : TimesStat) : F64.t :=
  F64.sub (F64.sub (allOf t) (Idle t)) (Iowait t).

(** A percentage lies in the closed interval from 0 to 100. *)
Definition inPercentRange (r : F64.t) : Prop :=
  F64.leb F64.zero r = true /\ F64.leb r F64.hundred = true.

(** The quotient of two floats is undefined (NaN): one of them is NaN, or
    both are infinite, or both are zero. *)
Definition undefinedRatio (a b : F64.t) : bool :=
  F64.is_nan a || F64.is_nan b || (F64.is_inf a && F64.is_inf b)
  || (F64.is_zero a && F64.is_zero b).

(** A non-empty string of decimal digits. *)
Fixpoint allDigits (s : string) : bool :=
  match s with
  | EmptyString => true
  | String c r => Strconv.isDigit c && allDigits r
  end.

Definition digitString (s : string) : bool :=
  negb (Strings.isEmpty s) && allDigits s.

Fixpoint noNewline (s : string) : bool :=
  match s with
  | EmptyString => true
  | String c r =>
      negb (Strings.code c =? Strings.code newline) && noNewline r
  end.

(** A file made of the given lines, each ended by a newline. *)
Definition nl : string := String newline EmptyString.

Fixpoint unlines (ls : list string) : string :=
  match ls with
  | [] => EmptyString
  | l :: r => (l ++ nl ++ unlines r)%string
  end.

(** ** Fixtures *)

Definition pathEqb (p q : list string) : bool :=
  if list_eq_dec string_dec p q then true else false.

Definition zeroTimes (name : string) : TimesStat :=
  mkTimesStat name F64.zero F64.zero F64.zero F64.zero F64.zero F64.zero
              F64.zero F64.zero F64.zero F64.zero.

(** A snapshot whose user counter is infinite. *)
Definition infiniteUser : TimesStat :=
  mkTimesStat "cpu-total" F64.pinf F64.zero F64.zero F64.zero F64.zero
              F64.zero F64.zero F64.zero F64.zero F64.zero.

Definition noEnv : string -> string := fun _ => "".

(** A host where nothing below the proc root can be opened. *)
Definition emptyWorld : World :=
  mkWorld noEnv (fun _ _ => FileMissing) ("", "") (fun _ => None)
          (fun _ => 0) (Some [1]) (fun _ => 0).

Definition state0 : State :=
  mkState 1700000500000000000 F64.hundred None None 0.

(** A bare-metal host that booted at 1700000000 according to its stat
    file, whose uptime file reads 100 seconds, observed at 1700000500. *)
Definition hostStat : string :=
  unlines ["cpu 100 0 50 800 10 0 0"; "cpu0 50 0 25 400 5 0 0";
           "cpu1 50 0 25 400 5 0 0"; "intr 12345 0 0";
           "btime 1700000000"].

(** A process that started with the uptime clock at 0 ticks and has used
    10000 user and 5000 system ticks. *)
Definition procStatFile : string :=
  "42 (my (odd) proc) R 1 42 42 34816 42 4194304 10 20 30 40 10000 5000 0 0 20 0 8 0 0 1000 100 18446744073709551615".

Definition hostWorld : World :=
  mkWorld noEnv
    (fun _ p =>
       if pathEqb p ["/proc"; "stat"] then FileData hostStat
       else if pathEqb p ["/proc"; "uptime"]
            then FileData (unlines ["100.00 200.00"])
       else if pathEqb p ["/proc"; "42"; "stat"] then FileData procStatFile
       else if pathEqb p ["/proc"; "43"; "stat"]
            then FileData "43 (cat) R 1 43 43 34816"
       else FileMissing)
    ("", "") (fun _ => Some 100) (fun _ => 0) (Some [3]) (fun _ => 0).

(** A handle on process 42 that may run on CPUs 0 and 1. *)
Definition twoCores : proc := mkProc [3] 42.

(** A handle on process 43, whose stat record stops after the terminal. *)
Definition truncated : proc := mkProc [3] 43.

(** A host whose counters go from zero to an infinite user time between
    two instants. *)
Definition overflowWorld : World :=
  mkWorld noEnv
    (fun t p =>
       if pathEqb p ["/proc"; "stat"] then
         if t <=? 1700000500000000000
         then FileData (unlines ["cpu 0 0 0 0 0 0 0"])
         else FileData (unlines ["cpu inf 0 0 0 0 0 0"])
       else FileMissing)
    ("", "") (fun _ => None) (fun _ => 0) (Some [1]) (fun _ => 0).

(** Ten seconds idle and nothing else; five seconds of user time and
    nothing else. *)
Definition idleTen : TimesStat :=
  mkTimesStat "cpu0" F64.zero F64.zero (F64.of_Z 10) F64.zero F64.zero
              F64.zero F64.zero F64.zero F64.zero F64.zero.

Definition userFive : TimesStat :=
  mkTimesStat "cpu0" (F64.of_Z 5) F64.zero F64.zero F64.zero F64.zero
              F64.zero F64.zero F64.zero F64.zero F64.zero.

(** A counter file of four lines: the aggregate, two cores, and intr. *)
Definition perCoreWorld : World :=
  mkWorld noEnv
    (fun _ p =>
       if pathEqb p ["/proc"; "stat"]
       then FileData (unlines ["cpu 100 0 50 800 10 0 0";
                               "cpu0 50 0 25 400 5 0 0";
                               "cpu1 50 0 25 400 5 0 0"; "intr 12345 0 0"])
       else FileMissing)
    ("", "") (fun _ => None) (fun _ => 0) (Some [3]) (fun _ => 0).

(** A host whose counter file has a well-formed core line after the
    interrupt line. *)
Definition lateCoreWorld : World :=
  mkWorld noEnv
    (fun _ p =>
       if pathEqb p ["/proc"; "stat"]
       then FileData (unlines ["cpu 100 0 50 800 10 0 0";
                               "cpu0 50 0 25 400 5 0 0";
                               "cpu1 50 0 25 400 5 0 0"; "intr 12345 0 0";
                               "cpu2 70 0 35 300 5 0 0"])
       else FileMissing)
    ("", "") (fun _ => None) (fun _ => 0) (Some [3]) (fun _ => 0).

(** The last-sample slot of a sampling mode. *)
Definition slot (percpu : bool) (st : State) : option (list TimesStat) :=
  if percpu then lastPerCPUTimes st else lastCPUTimes st.

(** The counter file cannot be opened at instant [t]. *)
Definition unreadable (w : World) (ctx : Context) (t : Z) : Prop :=
  forall content,
    files w t (HostProcWithContext w ctx ["stat"]) <> FileData content.

(** Field [i] of a process-stat record is present and parses. *)
Definition fieldParses {A} (parse : string -> outcome A)
           (fields : list string) (i : nat) : bool :=
  match (f <- index fields i ;; parse f) with
  | Ok _ => true
  | _ => false
  end.

(** The required fields of a process-stat record, in the order in which
    the code reads them: terminal, parent pid, user and system ticks,
    start time, priority, and the four fault counts. *)
Definition requiredFieldsParse (fields : list string) : bool :=
  fieldParses (fun f => Strconv.ParseUint f 64) fields 7
  && fieldParses (fun f => Strconv.ParseInt f 32) fields 4
  && fieldParses Strconv.ParseFloat fields 14
  && fieldParses Strconv.ParseFloat fields 15
  && fieldParses (fun f => Strconv.ParseUint f 64) fields 22
  && fieldParses (fun f => Strconv.ParseInt f 32) fields 18
  && fieldParses (fun f => Strconv.ParseUint f 64) fields 10
  && fieldParses (fun f => Strconv.ParseUint f 64) fields 11
  && fieldParses (fun f => Strconv.ParseUint f 64) fields 12
  && fieldParses (fun f => Strconv.ParseUint f 64) fields 13.

(** The host of [hostWorld] where the user-ticks field of process 42 is
    not a number. *)
Definition garbledWorld : World :=
  mkWorld noEnv
    (fun t p =>
       if pathEqb p ["/proc"; "42"; "stat"]
       then FileData
              "42 (cat) R 1 42 42 34816 42 4194304 10 20 30 40 x 5000 0 0 20 0 8 0 0 1000"
       else files hostWorld t p)
    ("", "") (fun _ => Some 100) (fun _ => 0) (Some [3]) (fun _ => 0).


(** ** Lookups around the boot time (common_linux.go) *)

(** [PathExists]: [os.Stat] finds the path.  In a [World] a path that is
    not found is [FileMissing]; one that is found and cannot be opened is
    [FileDenied]. *)
Definition PathExists (w : World) (now : Z) (filename : list string) : bool :=
  match files w now filename with
  | FileMissing => false
  | _ => true
  end.

Definition HostEtcWithContext (w : World) (ctx : Context)
           (combineWith : list string) : list string :=
  GetEnvWithContext w ctx "HOST_ETC" "/etc" combineWith.

Definition HostRootWithContext (w : World) (ctx : Context)
           (combineWith : list string) : list string :=
  GetEnvWithContext w ctx "HOST_ROOT" "/" combineWith.

(** [slices.Contains] on the lines of a file: one line is equal to [v]. *)
Definition containsLine (contents : list string) (v : string) : bool :=
  existsb (String.eqb v) contents.

(** [strings.Contains] *)
Fixpoint Contains (s substr : string) : bool :=
  Strings.HasPrefix s substr
  || match s with
     | EmptyString => false
     | String _ r => Contains r substr
     end.

(** [strings.Split(s, sep)] for a separator of one byte. *)
Fixpoint splitByte (sep : ascii) (cur : string) (s : string) : list string :=
  match s with
  | EmptyString => [cur]
  | String c r =>
      if Strings.code c =? Strings.code sep
      then cur :: splitByte sep EmptyString r
      else splitByte sep (cur ++ String c EmptyString)%string r
  end.

Definition quote : ascii := "034"%char.

Definition trimQuotes (s : string) : string :=
  if 2 <=? Strings.len s then
    match String.get 0 s, String.get (String.length s - 1) s with
    | Some a, Some b =>
        if (Strings.code a =? Strings.code quote)
           && (Strings.code b =? Strings.code quote)
        then substring 1 (String.length s - 2) s
        else s
    | _, _ => s
    end
  else s.

(** The body of the loop of [GetOSReleaseWithContext] over one line. *)
Definition osReleaseLine (pv : string * string) (line : string)
  : string * string :=
  match splitByte "="%char EmptyString line with
  | f0 :: f1 :: _ =>
      if String.eqb f0 "ID" then (trimQuotes f1, snd pv)
      else if String.eqb f0 "VERSION_ID" then (fst pv, trimQuotes f1)
      else pv
  | _ => pv
  end.

(** [GetOSReleaseWithContext]: platform and version; the error it returns
    is always nil. *)
Definition GetOSReleaseWithContext (w : World) (ctx : Context) (now : Z)
  : string * string :=
  match ReadLines w now (HostEtcWithContext w ctx ["os-release"]) with
  | (_, Some _) => ("", "")
  | (contents, None) =>
      let pv := fold_left osReleaseLine contents ("", "") in
      let platform := if String.eqb (fst pv) "amzn" then "amazon" else fst pv in
      (platform, snd pv)
  end.

(** *** Virtualization

    [VirtualizationWithContext] assigns its two variables, system and
    role, in ten successive blocks; each block is a function from the pair
    before it to the pair after it. *)

Definition virtXen (w : World) (ctx : Context) (now : Z)
           (sr : string * string) : string * string :=
  let filename := HostProcWithContext w ctx ["xen"] in
  if PathExists w now filename then
    let capabilities := (filename ++ ["capabilities"])%list in
    let role :=
      if PathExists w now capabilities then
        match ReadLines w now capabilities with
        | (contents, None) =>
            if containsLine contents "control_d" then "host" else "guest"
        | (_, Some _) => "guest"
        end
      else "guest" in
    ("xen", role)
  else sr.

Definition virtModules (w : World) (ctx : Context) (now : Z)
           (sr : string * string) : string * string :=
  let filename := HostProcWithContext w ctx ["modules"] in
  if PathExists w now filename then
    match ReadLines w now filename with
    | (contents, None) =>
        if containsLine contents "kvm" then ("kvm", "host")
        else if containsLine contents "hv_util" then ("hyperv", "guest")
        else if containsLine contents "vboxdrv" then ("vbox", "host")
        else if containsLine contents "vboxguest" then ("vbox", "guest")
        else if containsLine contents "vmware" then ("vmware", "guest")
        else sr
    | (_, Some _) => sr
    end
  else sr.

Definition virtCpuinfo (w : World) (ctx : Context) (now : Z)
           (sr : string * string) : string * string :=
  let filename := HostProcWithContext w ctx ["cpuinfo"] in
  if PathExists w now filename then
    match ReadLines w now filename with
    | (contents, None) =>
        if containsLine contents "QEMU Virtual CPU"
           || containsLine contents "Common KVM processor"
           || containsLine contents "Common 32-bit KVM processor"
        then ("kvm", "guest") else sr
    | (_, Some _) => sr
    end
  else sr.

Definition virtPci (w : World) (ctx : Context) (now : Z)
           (sr : string * string) : string * string :=
  let filename := HostProcWithContext w ctx ["bus/pci/devices"] in
  if PathExists w now filename then
    match ReadLines w now filename with
    | (contents, None) =>
        if containsLine contents "virtio-pci" then (fst sr, "guest") else sr
    | (_, Some _) => sr
    end
  else sr.

Definition virtOpenvz (w : World) (ctx : Context) (now : Z)
           (sr : string * string) : string * string :=
  let filename := HostProcWithContext w ctx [] in
  if PathExists w now (filename ++ ["bc"; "0"])%list then ("openvz", "host")
  else if PathExists w now (filename ++ ["vz"])%list then ("openvz", "guest")
  else sr.

Definition virtVserver (w : World) (ctx : Context) (now : Z)
           (sr : string * string) : string * string :=
  let status := (HostProcWithContext w ctx [] ++ ["self"; "status"])%list in
  if PathExists w now status then
    match ReadLines w now status with
    | (contents, None) =>
        if containsLine contents "s_context:" || containsLine contents "VxID:"
        then ("linux-vserver", snd sr) else sr
    | (_, Some _) => sr
    end
  else sr.

Definition virtEnviron (w : World) (ctx : Context) (now : Z)
           (sr : string * string) : string * string :=
  let environ := (HostProcWithContext w ctx [] ++ ["1"; "environ"])%list in
  if PathExists w now environ then
    match ReadFile w now environ with
    | Ok contents =>
        if Contains contents "container=lxc" then ("lxc", "guest") else sr
    | _ => sr
    end
  else sr.

Definition virtCgroup (w : World) (ctx : Context) (now : Z)
           (sr : string * string) : string * string :=
  let cgroup := (HostProcWithContext w ctx [] ++ ["self"; "cgroup"])%list in
  if PathExists w now cgroup then
    match ReadLines w now cgroup with
    | (contents, None) =>
        if containsLine contents "lxc" then ("lxc", "guest")
        else if containsLine contents "docker" then ("docker", "guest")
        else if containsLine contents "machine-rkt" then ("rkt", "guest")
        else if PathExists w now ["/usr/bin/lxc-version"] then ("lxc", "host")
        else sr
    | (_, Some _) => sr
    end
  else sr.

Definition virtOsRelease (w : World) (ctx : Context) (now : Z)
           (sr : string * string) : string * string :=
  if PathExists w now (HostEtcWithContext w ctx ["os-release"]) then
    if String.eqb (fst (GetOSReleaseWithContext w ctx now)) "coreos"
    then ("rkt", "host") else sr
  else sr.

Definition virtDockerenv (w : World) (ctx : Context) (now : Z)
           (sr : string * string) : string * string :=
  if PathExists w now (HostRootWithContext w ctx [".dockerenv"])
  then ("docker", "guest") else sr.

(** The detection proper: what the function computes when nothing is
    cached. *)
Definition detectVirtualization (w : World) (ctx : Context) (now : Z)
  : string * string :=
  virtDockerenv w ctx now
    (virtOsRelease w ctx now
       (virtCgroup w ctx now
          (virtEnviron w ctx now
             (virtVserver w ctx now
                (virtOpenvz w ctx now
                   (virtPci w ctx now
                      (virtCpuinfo w ctx now
                         (virtModules w ctx now
                            (virtXen w ctx now ("", "")))))))))).

(** The package variables [cachedVirtMap] (nil, or the map of the keys
    system and role) and [cachedVirtOnce] (whether its function has run). *)
Record virtCache := mkVirtCache {
  cachedVirtMap : option (string * string);
  cachedVirtOnce : bool
}.

Definition VirtualizationWithContext (w : World) (ctx : Context) (now : Z)
           (c : virtCache) : (string * string) * virtCache :=
  match cachedVirtMap c with
  | Some cached => (cached, c)
  | None =>
      let sr := detectVirtualization w ctx now in
      (sr, if cachedVirtOnce c then c else mkVirtCache (Some sr) true)
  end.

(** ** Further fixtures *)

(** A counter file whose last line, the btime line, has no newline. *)
Definition tailWorld : World :=
  mkWorld noEnv
    (fun _ p =>
       if pathEqb p ["/proc"; "stat"]
       then FileData (unlines ["cpu 1 2 3 4 5 6 7"; "intr 9"]
                      ++ "btime 1700000000")
       else FileMissing)
    ("", "") (fun _ => None) (fun _ => 0) (Some [1]) (fun _ => 0).

(** A host where every file exists and none may be opened; the sysinfo
    call reports 100 seconds of uptime. *)
Definition deniedWorld : World :=
  mkWorld noEnv (fun _ _ => FileDenied) ("", "") (fun _ => Some 100)
          (fun _ => 0) (Some [1]) (fun _ => 0).

(** A docker guest whose uptime file is one line of blanks. *)
Definition blankUptimeWorld : World :=
  mkWorld noEnv
    (fun _ p =>
       if pathEqb p ["/proc"; "uptime"] then FileData (unlines ["   "])
       else FileMissing)
    ("docker", "guest") (fun _ => None) (fun _ => 0) (Some [1]) (fun _ => 0).

(** The values [VirtualizationWithContext] assigns. *)
Definition virtSystems : list string :=
  [""; "xen"; "kvm"; "hyperv"; "vbox"; "vmware"; "openvz"; "linux-vserver";
   "lxc"; "docker"; "rkt"].

Definition virtRoles : list string := [""; "guest"; "host"].

Definition validVirt (sr : string * string) : Prop :=
  In (fst sr) virtSystems /\ In (snd sr) virtRoles.

(** The systems that are not containers of the lxc or docker kind. *)
Definition otherSystems : list string :=
  [""; "xen"; "kvm"; "hyperv"; "vbox"; "vmware"; "openvz"; "linux-vserver";
   "rkt"].

Definition freshVirtCache : virtCache := mkVirtCache None false.


Fixpoint noByte (b : ascii) (s : string) : bool :=
  match s with
  | EmptyString => true
  | String c r => negb (Strings.code c =? Strings.code b) && noByte b r
  end.




(** A docker container: the marker file exists at the root. *)
Definition dockerWorld : World :=
  mkWorld noEnv
    (fun _ p =>
       if pathEqb p ["/"; ".dockerenv"] then FileData EmptyString
       else if pathEqb p ["/proc"; "modules"]
            then FileData (unlines ["kvm"; "vboxdrv"])
       else FileMissing)
    ("docker", "guest") (fun _ => None) (fun _ => 0) (Some [1]) (fun _ => 0).

(** What a parse returns is a value or an error of kind MalformedInput. *)
Definition malformedOrOk {A} (x : outcome A) : Prop :=
  match x with
  | Ok _ => True
  | Err e => kindOf e = MalformedInput
  | Panic _ => False
  end.

(** A context that is cancelled at instant 1700000500000000500. *)
Definition cancelledContext : Context :=
  mkContext None (Some 1700000500000000500).

(** A float that is zero or negative (and not NaN). *)
Definition nonPositive (x : F64.t) : bool :=
  match x with
  | S754_zero _ => true
  | S754_finite s _ _ => s
  | S754_infinity s => s
  | S754_nan => false
  end.

(** The host of [hostWorld] where process 42 started 300 seconds after
    boot although the uptime file reads 100 seconds: its creation time is
    in the future of the clock. *)
Definition skewWorld : World :=
  mkWorld noEnv
    (fun t p =>
       if pathEqb p ["/proc"; "42"; "stat"]
       then FileData
              "42 (cat) R 1 42 42 34816 42 4194304 10 20 30 40 10000 5000 0 0 20 0 8 0 30000 1000"
       else files hostWorld t p)
    ("", "") (fun _ => Some 100) (fun _ => 0) (Some [3]) (fun _ => 0).

(** A handle whose affinity set is empty. *)
Definition noCores : proc := mkProc [0; 0] 42.

(** A percentage request: the world and the context it is issued in, the
    instant at which it is issued, its interval and its mode. *)
Record request := mkRequest {
  rq_world : World;
  rq_ctx : Context;
  rq_at : Z;
  rq_interval : Z;
  rq_percpu : bool
}.

(** The results of successive percentage requests: each one runs on the
    package state that the one before it left. *)
Fixpoint requests (st : State) (rs : list request)
  : list (outcome (list F64.t)) :=
  match rs with
  | [] => []
  | r :: rs' =>
      let '(res, st') :=
        PercentWithContext (rq_world r) (rq_ctx r) (setClock st (rq_at r))
                           (rq_interval r) (rq_percpu r) in
      res :: requests st' rs'
  end.

(** Both last-sample slots hold a sample. *)
Definition hasBaseline (st : State) : Prop :=
  exists a b, lastCPUTimes st = Some a /\ lastPerCPUTimes st = Some b.

(** The error with which field [i] of a process-stat record fails to
    parse, if it does. *)
Definition fieldError {A} (parse : string -> outcome A)
           (fields : list string) (i : nat) : option error :=
  match (f <- index fields i ;; parse f) with
  | Err e => Some e
  | _ => None
  end.

Fixpoint firstError (es : list (option error)) : option error :=
  match es with
  | [] => None
  | Some e :: _ => Some e
  | None :: es' => firstError es'
  end.

(** The parse error of the first required field that does not parse, the
    fields being taken in the order terminal (7), parent pid (4), user
    ticks (14), system ticks (15), start time (22), priority (18), and the
    fault counts (10, 11, 12, 13). *)
Definition firstRequiredFieldError (fields : list string) : option error :=
  firstError
    [fieldError (fun f => Strconv.ParseUint f 64) fields 7;
     fieldError (fun f => Strconv.ParseInt f 32) fields 4;
     fieldError Strconv.ParseFloat fields 14;
     fieldError Strconv.ParseFloat fields 15;
     fieldError (fun f => Strconv.ParseUint f 64) fields 22;
     fieldError (fun f => Strconv.ParseInt f 32) fields 18;
     fieldError (fun f => Strconv.ParseUint f 64) fields 10;
     fieldError (fun f => Strconv.ParseUint f 64) fields 11;
     fieldError (fun f => Strconv.ParseUint f 64) fields 12;
     fieldError (fun f => Strconv.ParseUint f 64) fields 13].

(** The block-IO ticks of a record: field 42 when the record has it and it
    is a number. *)
Definition blockIOTicks (fields : list string) : option F64.t :=
  match nth_error fields 42 with
  | Some f =>
      match Strconv.ParseFloat f with
      | Ok io => Some io
      | _ => None
      end
  | None => None
  end.

(** The host of [hostWorld] where, in the record of process 42, the parent
    pid (field 4), the terminal (field 7) and the user ticks (field 14) are
    not numbers. *)
Definition scrambledWorld : World :=
  mkWorld noEnv
    (fun t p =>
       if pathEqb p ["/proc"; "42"; "stat"]
       then FileData
              "42 (cat) R y 42 42 z 42 4194304 10 20 30 40 x 5000 0 0 20 0 8 0 0 1000"
       else files hostWorld t p)
    ("", "") (fun _ => Some 100) (fun _ => 0) (Some [3]) (fun _ => 0).

(** * Properties *)

(** ** Comparison of floats *)

Lemma SFcompare_antisym (x y : spec_float) :
  SFcompare y x = option_map CompOpp (SFcompare x y).
Proof.
  destruct x as [sx|sx| |sx mx ex], y as [sy|sy| |sy my ey]; simpl;
    try reflexivity;
    try (destruct sx; reflexivity); try (destruct sy; reflexivity);
    try (destruct sx, sy; reflexivity).
  pose proof (Pos.compare_cont_antisym mx my Eq) as H; simpl in H.
  destruct sx, sy; simpl; try reflexivity;
    rewrite (Z.compare_antisym ex ey);
    destruct (ex ?= ey); simpl; try reflexivity;
    rewrite <- H; destruct (Pos.compare_cont Eq mx my); reflexivity.
Qed.

Lemma gtb_ltb (x y : F64.t) : F64.gtb x y = F64.ltb y x.
Proof. reflexivity. Qed.

Lemma ltb_leb_false (x y : F64.t) :
  F64.ltb x y = true -> F64.leb y x = false.
Proof.
  unfold F64.ltb, F64.leb, SFltb, SFleb. rewrite (SFcompare_antisym x y).
  destruct (SFcompare x y) as [[]|]; simpl; congruence.
Qed.

Lemma ltb_false_leb (x y : F64.t) :
  F64.is_nan x = false -> F64.is_nan y = false ->
  F64.ltb x y = false -> F64.leb y x = true.
Proof.
  unfold F64.ltb, F64.leb, SFltb, SFleb. rewrite (SFcompare_antisym x y).
  intros Hx Hy.
  assert (exists c, SFcompare x y = Some c) as [c Hc]
    by (destruct x, y; try discriminate; simpl; eauto).
  rewrite Hc. destruct c; simpl; congruence.
Qed.

Lemma nan_not_inPercentRange (r : F64.t) :
  F64.is_nan r = true -> ~ inPercentRange r.
Proof.
  destruct r; try discriminate. intros _ [H _]. discriminate H.
Qed.

(** The clamp [math.Min(100, math.Max(0, x))] leaves NaN as it is and
    brings every other float into the interval. *)
Lemma clamp_range (x : F64.t) :
  let r := F64.Min F64.hundred (F64.Max F64.zero x) in
  F64.is_nan r = true \/ inPercentRange r.
Proof.
  destruct x as [s|s| |s m e].
  - right. destruct s; split; reflexivity.
  - right. destruct s; split; reflexivity.
  - left. reflexivity.
  - destruct s.
    + right. split; reflexivity.
    + right. cbv zeta.
      assert (HM : F64.Max F64.zero (S754_finite false m e)
                   = S754_finite false m e) by reflexivity.
      rewrite HM. unfold F64.Min.
      cbn [F64.is_nan orb F64.hundred F64.eqb andb].
      change (SFeqb F64.hundred F64.zero) with false. cbn [andb].
      destruct (F64.ltb F64.hundred (S754_finite false m e)) eqn:E.
      * split; reflexivity.
      * split; [reflexivity|]. apply ltb_false_leb; auto.
Qed.

Lemma clamp_nan_iff (x : F64.t) :
  F64.is_nan (F64.Min F64.hundred (F64.Max F64.zero x)) = F64.is_nan x.
Proof.
  destruct x as [s|s| |s m e]; try (destruct s; reflexivity);
    try reflexivity.
  destruct s; [reflexivity|].
  assert (HM : F64.Max F64.zero (S754_finite false m e)
               = S754_finite false m e) by reflexivity.
  rewrite HM. unfold F64.Min.
  cbn [F64.is_nan orb F64.hundred F64.eqb andb].
  change (SFeqb F64.hundred F64.zero) with false. cbn [andb].
  destruct (F64.ltb F64.hundred (S754_finite false m e)); reflexivity.
Qed.

(** ** Rounding never yields NaN *)
Lemma shr_1_nonneg (mrs : shr_record) :
  0 <= shr_m mrs -> 0 <= shr_m (shr_1 mrs).
Proof.
  destruct mrs as [m r s]. simpl.
  destruct m as [|[p|p|]|[p|p|]]; simpl; intros H; lia.
Qed.

Lemma iter_pos_shr_1_nonneg (p : positive) :
  forall mrs, 0 <= shr_m mrs -> 0 <= shr_m (iter_pos shr_1 p mrs).
Proof.
  induction p as [p IH|p IH|]; intros mrs H; simpl.
  - apply IH, IH, shr_1_nonneg, H.
  - apply IH, IH, H.
  - apply shr_1_nonneg, H.
Qed.

Lemma shr_fexp_nonneg (m e : Z) (l : location) :
  0 <= m -> 0 <= shr_m (fst (shr_fexp F64.prec F64.emax m e l)).
Proof.
  intros H. unfold shr_fexp, shr.
  assert (H0 : 0 <= shr_m (shr_record_of_loc m l))
    by (destruct l as [|[]]; exact H).
  destruct (fexp F64.prec F64.emax (Zdigits2 m + e) - e); simpl; auto.
  now apply iter_pos_shr_1_nonneg.
Qed.

Lemma round_nearest_even_nonneg (m : Z) (l : location) :
  0 <= m -> 0 <= round_nearest_even m l.
Proof.
  intros H. destruct l as [|[]]; simpl; try lia.
  destruct (Z.even m); lia.
Qed.

Lemma binary_round_aux_not_nan (s : bool) (m e : Z) (l : location) :
  0 <= m -> F64.is_nan (binary_round_aux F64.prec F64.emax s m e l) = false.
Proof.
  intros H. unfold binary_round_aux.
  pose proof (shr_fexp_nonneg m e l H) as H1.
  destruct (shr_fexp F64.prec F64.emax m e l) as [mrs' e']. simpl in H1.
  pose proof (shr_fexp_nonneg _ e' loc_Exact
                (round_nearest_even_nonneg _ (loc_of_shr_record mrs') H1))
    as H2.
  destruct (shr_fexp F64.prec F64.emax _ e' loc_Exact) as [mrs'' e''].
  simpl in H2. destruct (shr_m mrs''); try lia; [reflexivity|].
  destruct (e'' <=? _); reflexivity.
Qed.

Lemma div_nan (x y : F64.t) :
  F64.is_nan (F64.div x y)
  = undefinedRatio x y.
Proof.
  destruct x as [sx|sx| |sx mx ex], y as [sy|sy| |sy my ey];
    try reflexivity.
  unfold F64.div, SFdiv, SFdiv_core_binary.
  match goal with
  | |- context [Z.div_eucl ?a ?b] =>
      pose proof (Z.div_pos a b) as Hq;
      assert (Ha : 0 <= a);
      [|unfold Z.div in Hq; destruct (Z.div_eucl a b) as [q r]]
  end.
  - destruct (_ - _ - _); try lia. rewrite Z.shiftl_mul_pow2 by lia.
    apply Z.mul_nonneg_nonneg; [lia|]. apply Z.pow_nonneg. lia.
  - rewrite binary_round_aux_not_nan; [reflexivity|]. apply Hq; [exact Ha|lia].
Qed.

Lemma mul_hundred_nan (x : F64.t) :
  F64.is_nan (F64.mul x F64.hundred) = F64.is_nan x.
Proof.
  destruct x as [s|s| |s m e]; try reflexivity.
  unfold F64.mul, F64.hundred, SFmul.
  apply binary_round_aux_not_nan. lia.
Qed.

(** ** The percentage engine *)

Lemma getAllBusy_spec (t : TimesStat) : getAllBusy t = (allOf t, busyOf t).
Proof. unfold getAllBusy, busyOf, allOf. reflexivity. Qed.

Lemma calculateBusy_unfold (t1 t2 : TimesStat) :
  calculateBusy t1 t2 =
  if F64.leb (busyOf t2) (busyOf t1) then F64.zero
  else if F64.leb (allOf t2) (allOf t1) then F64.hundred
  else F64.Min F64.hundred
         (F64.Max F64.zero
            (F64.mul (F64.div (F64.sub (busyOf t2) (busyOf t1))
                              (F64.sub (allOf t2) (allOf t1)))
                     F64.hundred)).
Proof. unfold calculateBusy. rewrite !getAllBusy_spec. reflexivity. Qed.

Lemma calculateBusy_range (t1 t2 : TimesStat) :
  F64.is_nan (calculateBusy t1 t2) = true
  \/ inPercentRange (calculateBusy t1 t2).
Proof.
  rewrite calculateBusy_unfold.
  destruct (F64.leb (busyOf t2) (busyOf t1)).
  - right. split; reflexivity.
  - destruct (F64.leb (allOf t2) (allOf t1)).
    + right. split; reflexivity.
    + apply clamp_range.
Qed.

Lemma busyLoop_range (t1 t2 : list TimesStat) :
  Forall (fun r => F64.is_nan r = true \/ inPercentRange r) (busyLoop t1 t2).
Proof.
  revert t2. induction t1 as [|a t1 IH]; intros [|b t2]; simpl;
    constructor; auto using calculateBusy_range.
Qed.

Lemma busyLoop_length (t1 t2 : list TimesStat) :
  List.length t1 = List.length t2 ->
  List.length (busyLoop t1 t2) = List.length t2.
Proof.
  revert t2. induction t1 as [|a t1 IH]; intros [|b t2]; simpl;
    intros H; try discriminate; auto.
Qed.

(** C3 (as amended).  For every pair of snapshots [calculateBusy] is either
    NaN or lies in the closed interval from 0 to 100.  It is NaN exactly
    when neither early return is taken and the ratio of the busy difference
    to the total difference is undefined (a difference is NaN, or both are
    infinite, or both are zero).  Every percentage that [calculateAllBusy]
    returns is of that kind, so none is negative or above 100. *)
Theorem calculateBusy_clamped :
  forall t1 t2 : TimesStat,
    (F64.is_nan (calculateBusy t1 t2) = true
     \/ inPercentRange (calculateBusy t1 t2))
    /\ (F64.is_nan (calculateBusy t1 t2) = true <->
        F64.leb (busyOf t2) (busyOf t1) = false
        /\ F64.leb (allOf t2) (allOf t1) = false
        /\ undefinedRatio (F64.sub (busyOf t2) (busyOf t1))
                          (F64.sub (allOf t2) (allOf t1)) = true)
    /\ (forall (s1 s2 : list TimesStat) (rv : list F64.t),
          calculateAllBusy s1 s2 = Ok rv ->
          Forall (fun r => F64.is_nan r = true \/ inPercentRange r) rv).
Proof.
  intros t1 t2. split; [apply calculateBusy_range|]. split.
  - rewrite calculateBusy_unfold.
    destruct (F64.leb (busyOf t2) (busyOf t1)).
    { split; [discriminate|]. intros (H & _). discriminate H. }
    destruct (F64.leb (allOf t2) (allOf t1)).
    { split; [discriminate|]. intros (_ & H & _). discriminate H. }
    rewrite clamp_nan_iff, mul_hundred_nan, div_nan. tauto.
  - intros s1 s2 rv. unfold calculateAllBusy.
    destruct (negb _); [discriminate|].
    intros H; inversion H; subst. apply busyLoop_range.
Qed.

Lemma calculateBusy_clamped_witness :
  calculateAllBusy [zeroTimes "cpu-total"] [infiniteUser] = Ok [F64.nan]
  /\ Forall (fun r => F64.is_nan r = true \/ inPercentRange r) [F64.nan].
Proof.
  split; [reflexivity|].
  exact (proj2 (proj2 (calculateBusy_clamped (zeroTimes "a") (zeroTimes "a")))
           [zeroTimes "cpu-total"] [infiniteUser] [F64.nan] eq_refl).
Defined.

(** C3 (as stated) fails: from an all-zero snapshot to one whose user
    counter is infinite, [calculateBusy] is NaN, which is not in the
    interval. *)
Lemma calculateBusy_not_always_in_range :
  ~ (forall t1 t2 : TimesStat, inPercentRange (calculateBusy t1 t2)).
Proof.
  intros H. specialize (H (zeroTimes "cpu-total") infiniteUser).
  destruct H as [H _]. vm_compute in H. discriminate H.
Qed.

(** The infinite counter is what the parser reads from the text "inf",
    and [PercentTotal] hands the NaN to its caller. *)
Lemma infinite_counter_reachable :
  parseStatLine F64.hundred "cpu inf 0 0 0 0 0 0" = Ok infiniteUser
  /\ fst (PercentTotal overflowWorld state0 1000) = Ok F64.nan.
Proof. split; vm_compute; reflexivity. Qed.

(** C4.  With the guest-adjusted total and busy time: when busy did not
    grow the result is exactly 0, and when busy grew but the total did
    not, exactly 100. *)
Theorem calculateBusy_regression_and_saturation :
  forall t1 t2 : TimesStat,
    (F64.leb (busyOf t2) (busyOf t1) = true ->
     calculateBusy t1 t2 = F64.zero)
    /\ (F64.gtb (busyOf t2) (busyOf t1) = true ->
        F64.leb (allOf t2) (allOf t1) = true ->
        calculateBusy t1 t2 = F64.hundred).
Proof.
  intros t1 t2. split.
  - intros H. rewrite calculateBusy_unfold, H. reflexivity.
  - intros Hgt Hle. rewrite gtb_ltb in Hgt. apply ltb_leb_false in Hgt.
    rewrite calculateBusy_unfold, Hgt, Hle. reflexivity.
Qed.

Lemma calculateBusy_regression_and_saturation_witness :
  (F64.leb (busyOf idleTen) (busyOf userFive) = true
   /\ calculateBusy userFive idleTen = F64.zero)
  /\ (F64.gtb (busyOf userFive) (busyOf idleTen) = true
      /\ F64.leb (allOf userFive) (allOf idleTen) = true
      /\ calculateBusy idleTen userFive = F64.hundred).
Proof.
  split.
  - split; [reflexivity|].
    exact (proj1 (calculateBusy_regression_and_saturation userFive idleTen)
             eq_refl).
  - split; [reflexivity|]. split; [reflexivity|].
    exact (proj2 (calculateBusy_regression_and_saturation idleTen userFive)
             eq_refl eq_refl).
Defined.

(** C5.  Two snapshot sequences of unequal length are never diffed: the
    call fails with the count error, of kind ShapeMismatch, and returns no
    percentage (so none for a truncated prefix either). *)
Theorem calculateAllBusy_shape_mismatch :
  forall t1 t2 : list TimesStat,
    List.length t1 <> List.length t2 ->
    calculateAllBusy t1 t2
    = Err (ErrCPUCounts (List.length t1) (List.length t2))
    /\ kindOf (ErrCPUCounts (List.length t1) (List.length t2)) = ShapeMismatch
    /\ (forall rv, calculateAllBusy t1 t2 <> Ok rv).
Proof.
  intros t1 t2 Hne. unfold calculateAllBusy.
  apply Nat.eqb_neq in Hne. rewrite Hne. simpl.
  split; [reflexivity|]. split; [reflexivity|]. intros rv H. discriminate H.
Qed.

Lemma calculateAllBusy_shape_mismatch_witness :
  calculateAllBusy [idleTen; userFive] [userFive] = Err (ErrCPUCounts 2 1).
Proof.
  refine (proj1 (calculateAllBusy_shape_mismatch
                   [idleTen; userFive] [userFive] _)).
  simpl. lia.
Defined.

(** When the lengths agree there is one percentage per pair. *)
Lemma calculateAllBusy_same_length (t1 t2 : list TimesStat) :
  List.length t1 = List.length t2 ->
  exists rv, calculateAllBusy t1 t2 = Ok rv
             /\ List.length rv = List.length t2.
Proof.
  intros H. unfold calculateAllBusy.
  rewrite (proj2 (Nat.eqb_eq _ _) H). simpl.
  eexists; split; [reflexivity|]. now apply busyLoop_length.
Qed.

(** ** Outcomes *)

Definition noPanic {A} (x : outcome A) : Prop :=
  match x with Panic _ => False | _ => True end.

Lemma bind_Ok_inv {A B} (x : outcome A) (f : A -> outcome B) (b : B) :
  bind x f = Ok b -> exists a, x = Ok a /\ f a = Ok b.
Proof. destruct x; simpl; intros H; try discriminate; eauto. Qed.

Lemma noPanic_bind {A B} (x : outcome A) (f : A -> outcome B) :
  noPanic x -> (forall a, noPanic (f a)) -> noPanic (bind x f).
Proof. destruct x; simpl; auto. Qed.

Lemma index_Ok {A} (l : list A) (i : nat) :
  (i < List.length l)%nat -> exists a, index l i = Ok a.
Proof.
  intros H. unfold index.
  destruct (nth_error l i) eqn:E; eauto.
  apply nth_error_None in E. lia.
Qed.

Ltac invert_binds :=
  repeat match goal with
         | H : bind _ _ = Ok _ |- _ =>
             apply bind_Ok_inv in H; destruct H as (? & ? & H)
         end.

(** ** Number conversions never panic, and fail only with a [NumError] *)

Definition numFailure {A} (x : outcome A) : Prop :=
  match x with
  | Ok _ => True
  | Err (NumError _ _ _) => True
  | _ => False
  end.

Lemma ParseFloat_numFailure (s : string) : numFailure (Strconv.ParseFloat s).
Proof.
  unfold Strconv.ParseFloat.
  destruct (Strconv.special s) as [[v n]|].
  - destruct (Nat.eqb n (String.length s)); exact I.
  - destruct (Strconv.readFloat s) as [p|]; [|exact I].
    destruct (negb _); [exact I|].
    destruct (if Strconv.fp_hex p then _ else _); exact I.
Qed.

Lemma parseUintLoop_numFailure (s0 : string) (bitSize : Z) (s : string) :
  forall n, numFailure (Strconv.parseUintLoop s0 bitSize n s).
Proof.
  induction s as [|c r IH]; intros n; simpl; [exact I|].
  destruct (Strconv.isDigit c); [|exact I].
  destruct (n >=? _); [exact I|].
  destruct (_ || _); [exact I|]. apply IH.
Qed.

Lemma ParseUint_numFailure (s : string) (bitSize : Z) :
  numFailure (Strconv.ParseUint s bitSize).
Proof.
  unfold Strconv.ParseUint. destruct (Strings.isEmpty s); [exact I|].
  apply parseUintLoop_numFailure.
Qed.

Lemma ParseInt_numFailure (s : string) (bitSize : Z) :
  numFailure (Strconv.ParseInt s bitSize).
Proof.
  unfold Strconv.ParseInt. destruct s as [|c r]; [exact I|].
  destruct (if Strings.code c =? 43 then _ else _) as [neg s].
  pose proof (ParseUint_numFailure s bitSize) as H.
  assert (Hc : forall un,
             numFailure
               (if negb neg && (un >=? 2 ^ (bitSize - 1))
                then Err (Strconv.rangeError "ParseInt" (String c r))
                else if neg && (un >? 2 ^ (bitSize - 1))
                     then Err (Strconv.rangeError "ParseInt" (String c r))
                     else Ok (if neg then - un else un) : outcome Z)).
  { intros un. destruct (negb neg && _); [exact I|].
    destruct (neg && _); exact I. }
  destruct (Strconv.ParseUint s bitSize) as [un|e|p]; simpl in H.
  - apply Hc.
  - destruct e; try contradiction. destruct k; [exact I|apply Hc].
  - contradiction.
Qed.

Lemma numFailure_noPanic {A} (x : outcome A) : numFailure x -> noPanic x.
Proof. destruct x as [a|e|p]; simpl; auto. Qed.

(** ** The stat-line parser *)

Lemma parseField_noPanic (fields : list string) (i : nat) :
  (i < List.length fields)%nat ->
  noPanic (f <- index fields i ;; Strconv.ParseFloat f).
Proof.
  intros H. destruct (index_Ok fields i H) as [a ->]. simpl.
  apply numFailure_noPanic, ParseFloat_numFailure.
Qed.

Lemma parseOptional_noPanic (cps : F64.t) (fields : list string) (i : nat) :
  noPanic (if Nat.ltb i (List.length fields)
           then (f <- index fields i ;; s <- Strconv.ParseFloat f ;;
                 Ok (F64.div s cps))
           else Ok F64.zero).
Proof.
  destruct (Nat.ltb i (List.length fields)) eqn:E; [|exact I].
  apply Nat.ltb_lt in E. destruct (index_Ok fields i E) as [a ->]. simpl.
  pose proof (ParseFloat_numFailure a) as H.
  destruct (Strconv.ParseFloat a); simpl in *; auto.
Qed.

(** The indexing in [parseStatLine] is guarded by the length test: the
    parser returns a record or an error, it never panics. *)
Lemma parseStatLine_noPanic (cps : F64.t) (line : string) :
  noPanic (parseStatLine cps line).
Proof.
  unfold parseStatLine.
  destruct (Nat.ltb (List.length (Strings.Fields line)) 8) eqn:E; [exact I|].
  apply Nat.ltb_ge in E.
  destruct (index_Ok (Strings.Fields line) 0) as [f0 ->]; [lia|]. simpl.
  destruct (negb _); [exact I|].
  repeat (apply noPanic_bind;
          [ first [ apply parseField_noPanic; lia
                  | apply parseOptional_noPanic ]
          | intros ? ]).
  exact I.
Qed.

Lemma parseStatLine_label (cps : F64.t) (line : string) (ct : TimesStat) :
  parseStatLine cps line = Ok ct ->
  exists f0 rest,
    Strings.Fields line = f0 :: rest
    /\ Strings.HasPrefix f0 "cpu" = true
    /\ CPU ct = if String.eqb f0 "cpu" then "cpu-total" else f0.
Proof.
  unfold parseStatLine.
  destruct (Nat.ltb (List.length (Strings.Fields line)) 8); [discriminate|].
  destruct (Strings.Fields line) as [|f0 rest]; [discriminate|].
  simpl index. simpl bind at 1.
  destruct (Strings.HasPrefix f0 "cpu") eqn:Hp; [|discriminate].
  simpl negb. cbv iota. intros H. invert_binds.
  inversion H; subst; simpl. eauto.
Qed.

Lemma parseLines_Ok (cps : F64.t) (lines : list string) :
  exists ret, parseLines cps lines = Ok ret.
Proof.
  induction lines as [|line rest [ret IH]]; simpl; [eauto|].
  pose proof (parseStatLine_noPanic cps line) as H.
  destruct (parseStatLine cps line); simpl in H; try contradiction;
    rewrite IH; simpl; eauto.
Qed.

(** Aggregate sampling always returns a sequence, empty at worst. *)
Lemma TimesWithContext_Ok (w : World) (ctx : Context) (st : State)
      (percpu : bool) :
  exists ret, TimesWithContext w ctx st percpu = Ok ret.
Proof.
  unfold TimesWithContext. destruct percpu.
  - destruct (ReadLines w (clock st) _) as [statlines [err|]]; [eauto|].
    destruct (Nat.ltb _ 2); [eauto|]. apply parseLines_Ok.
  - apply parseLines_Ok.
Qed.

(** C7.  With 100 ticks per second the aggregate line
    "cpu 100 0 50 800 10 0 0" parses to user 1.0, nice 0, system 0.5,
    idle 8.0, iowait 0.1, irq 0, softirq 0 under the identifier
    "cpu-total" (the three optional counters are 0); and a line whose first
    field is "cpu" followed by digits keeps that field as its identifier. *)
Theorem parseStatLine_aggregate_line :
  parseStatLine (F64.of_Z 100) "cpu 100 0 50 800 10 0 0"
  = Ok (mkTimesStat "cpu-total"
          (F64.of_decimal false 10 (-1))   (* user 1.0 *)
          (F64.of_decimal false 5 (-1))    (* system 0.5 *)
          (F64.of_decimal false 80 (-1))   (* idle 8.0 *)
          F64.zero                         (* nice *)
          (F64.of_decimal false 1 (-1))    (* iowait 0.1 *)
          F64.zero F64.zero F64.zero F64.zero F64.zero)
  /\ (forall (cps : F64.t) (line N : string) (rest : list string)
             (ct : TimesStat),
         digitString N = true ->
         Strings.Fields line = ("cpu" ++ N)%string :: rest ->
         parseStatLine cps line = Ok ct ->
         CPU ct = ("cpu" ++ N)%string).
Proof.
  split; [vm_compute; reflexivity|].
  intros cps line N rest ct HN HF HP.
  destruct (parseStatLine_label cps line ct HP) as (f0 & rest' & HF' & _ & HC).
  rewrite HF in HF'. inversion HF'; subst f0 rest'.
  rewrite HC. destruct N as [|c N]; [discriminate HN|]. reflexivity.
Qed.

Lemma parseStatLine_aggregate_line_witness :
  exists ct, parseStatLine F64.hundred "cpu0 50 0 25 400 5 0 0" = Ok ct
             /\ CPU ct = "cpu0".
Proof.
  eexists. split; [vm_compute; reflexivity|].
  refine (proj2 parseStatLine_aggregate_line F64.hundred
            "cpu0 50 0 25 400 5 0 0" "0"
            ["50"; "0"; "25"; "400"; "5"; "0"; "0"] _ _ _ _);
    vm_compute; reflexivity.
Defined.

(** ** Lines of a file *)

Lemma append_assoc (a b c : string) :
  ((a ++ b) ++ c = a ++ (b ++ c))%string.
Proof. induction a as [|x a IH]; simpl; [reflexivity|now rewrite IH]. Qed.

Lemma rev_append (s1 s2 acc : string) :
  Strings.rev acc (s1 ++ s2) = Strings.rev (Strings.rev acc s1) s2.
Proof.
  revert acc. induction s1 as [|c s1 IH]; intros acc; simpl; auto.
Qed.

Lemma rev_rev (s acc : string) :
  Strings.rev EmptyString (Strings.rev acc s) = Strings.rev s acc.
Proof.
  revert acc. induction s as [|c s IH]; intros acc; simpl; [reflexivity|].
  rewrite IH. reflexivity.
Qed.

Lemma noNewline_rev (s acc : string) :
  noNewline (Strings.rev acc s) = noNewline acc && noNewline s.
Proof.
  revert acc. induction s as [|c s IH]; intros acc; simpl.
  - now rewrite andb_true_r.
  - rewrite IH. simpl.
    destruct (Strings.code c =? Strings.code newline); simpl;
      destruct (noNewline acc); simpl; auto.
Qed.

Lemma trimLeftByte_noNewline (s : string) :
  noNewline s = true -> Strings.trimLeftByte newline s = s.
Proof.
  destruct s as [|c s]; simpl; [reflexivity|].
  destruct (Strings.code c =? Strings.code newline); [discriminate|reflexivity].
Qed.

(** Trimming a line read up to its newline leaves the line. *)
Lemma rev_snoc (s : string) (c : ascii) :
  Strings.rev EmptyString (s ++ String c EmptyString)
  = String c (Strings.rev EmptyString s).
Proof. rewrite rev_append. reflexivity. Qed.

Lemma TrimByte_line (l : string) :
  noNewline l = true -> Strings.TrimByte (l ++ nl) newline = l.
Proof.
  intros H. unfold Strings.TrimByte.
  assert (H1 : Strings.trimLeftByte newline (l ++ nl)
               = if Strings.isEmpty l then EmptyString else (l ++ nl)%string).
  { destruct l as [|c l]; [reflexivity|]. simpl in *.
    destruct (Strings.code c =? Strings.code newline);
      [discriminate|reflexivity]. }
  rewrite H1. destruct l as [|c l]; [reflexivity|].
  change (Strings.isEmpty (String c l)) with false. cbv iota.
  unfold nl. rewrite rev_snoc.
  change (Strings.trimLeftByte newline
            (String newline (Strings.rev EmptyString (String c l))))
    with (Strings.trimLeftByte newline (Strings.rev EmptyString (String c l))).
  rewrite trimLeftByte_noNewline.
  - apply rev_rev.
  - rewrite noNewline_rev. exact H.
Qed.

Lemma splitLines_line (l rest : string) :
  noNewline l = true ->
  forall cur,
    splitLines cur (l ++ nl ++ rest)
    = ((cur ++ l ++ nl)%string :: fst (splitLines EmptyString rest),
       snd (splitLines EmptyString rest)).
Proof.
  induction l as [|c l IH]; intros H cur.
  - simpl. destruct (splitLines EmptyString rest). reflexivity.
  - simpl in H. apply andb_true_iff in H as [Hc Hl].
    simpl. destruct (Strings.code c =? Strings.code newline);
             [discriminate|].
    rewrite (IH Hl). rewrite append_assoc. reflexivity.
Qed.

Lemma splitLines_unlines (ls : list string) :
  Forall (fun l => noNewline l = true) ls ->
  splitLines EmptyString (unlines ls)
  = (map (fun l => (l ++ nl)%string) ls, EmptyString).
Proof.
  induction 1 as [|l ls Hl _ IH]; simpl; [reflexivity|].
  rewrite (splitLines_line l (unlines ls) Hl), IH. reflexivity.
Qed.

Lemma readLinesLoop_all (lines : list string) :
  forall i, 0 <= i ->
    readLinesLoop 0 (-1) i lines EmptyString
    = map (fun l => Strings.TrimByte l newline) lines.
Proof.
  induction lines as [|l ls IH]; intros i Hi; cbn [readLinesLoop map].
  - change (-1 <? 0) with true. rewrite orb_true_r. reflexivity.
  - change (-1 <? 0) with true. rewrite orb_true_r.
    change (toInt64 0) with 0.
    replace (i <? 0) with false by (symmetry; apply Z.ltb_ge; lia).
    rewrite IH by lia. reflexivity.
Qed.

(** [ReadLines] of a file made of newline-terminated lines gives the lines. *)
Lemma ReadLines_unlines (w : World) (now : Z) (filename : list string)
      (ls : list string) :
  files w now filename = FileData (unlines ls) ->
  Forall (fun l => noNewline l = true) ls ->
  ReadLines w now filename = (ls, None).
Proof.
  intros Hf Hls. unfold ReadLines, ReadLinesOffsetN. rewrite Hf.
  rewrite (splitLines_unlines ls Hls), readLinesLoop_all by lia.
  f_equal. rewrite map_map. clear Hf.
  induction Hls as [|l ls Hl _ IH]; simpl; [reflexivity|].
  rewrite (TrimByte_line l Hl), IH. reflexivity.
Qed.

Lemma splitLines_last (last : string) :
  noNewline last = true ->
  forall cur, splitLines cur last = ([], (cur ++ last)%string).
Proof.
  induction last as [|c last IH]; intros H cur; simpl.
  - f_equal. revert cur. induction cur as [|x cur IHc]; simpl; congruence.
  - simpl in H. apply andb_true_iff in H as [Hc Hl].
    destruct (Strings.code c =? Strings.code newline); [discriminate|].
    rewrite (IH Hl). f_equal. rewrite append_assoc. reflexivity.
Qed.

Lemma splitLines_unlines_last (ls : list string) (last : string) :
  Forall (fun l => noNewline l = true) ls ->
  noNewline last = true ->
  splitLines EmptyString (unlines ls ++ last)
  = (map (fun l => (l ++ nl)%string) ls, last).
Proof.
  intros Hls Hlast. induction Hls as [|l ls Hl _ IH].
  - simpl. now rewrite splitLines_last.
  - simpl. rewrite !append_assoc.
    rewrite (splitLines_line l (unlines ls ++ last) Hl), IH. reflexivity.
Qed.

Lemma TrimByte_noNewline (s : string) :
  noNewline s = true -> Strings.TrimByte s newline = s.
Proof.
  intros H. unfold Strings.TrimByte.
  rewrite (trimLeftByte_noNewline s H).
  rewrite trimLeftByte_noNewline by (rewrite noNewline_rev; exact H).
  apply rev_rev.
Qed.

Lemma readLinesLoop_whole (lines : list string) (last : string) :
  forall i, 0 <= i ->
    readLinesLoop 0 (-1) i lines last
    = (map (fun l => Strings.TrimByte l newline) lines
       ++ if Strings.isEmpty last then []
          else [Strings.TrimByte last newline])%list.
Proof.
  induction lines as [|l ls IH]; intros i Hi; cbn [readLinesLoop map app].
  - change (-1 <? 0) with true. rewrite orb_true_r. reflexivity.
  - change (-1 <? 0) with true. rewrite orb_true_r.
    change (toInt64 0) with 0.
    replace (i <? 0) with false by (symmetry; apply Z.ltb_ge; lia).
    rewrite IH by lia. reflexivity.
Qed.

(** [ReadLines] of any text: its newline-terminated lines, and then what
    follows the last newline if that is not empty. *)
Lemma ReadLines_text (w : World) (now : Z) (filename : list string)
      (ls : list string) (last : string) :
  files w now filename = FileData (unlines ls ++ last) ->
  Forall (fun l => noNewline l = true) ls ->
  noNewline last = true ->
  ReadLines w now filename
  = ((ls ++ if Strings.isEmpty last then [] else [last])%list, None).
Proof.
  intros Hf Hls Hlast. unfold ReadLines, ReadLinesOffsetN. rewrite Hf.
  rewrite (splitLines_unlines_last ls last Hls Hlast).
  rewrite readLinesLoop_whole by lia.
  rewrite (TrimByte_noNewline last Hlast). f_equal. f_equal.
  rewrite map_map. clear Hf.
  induction Hls as [|l ls Hl _ IH]; simpl; [reflexivity|].
  rewrite (TrimByte_line l Hl), IH. reflexivity.
Qed.

(** Every text is a sequence of newline-terminated lines followed by a
    rest without newline. *)
Lemma text_lines (s : string) :
  exists ls last,
    s = (unlines ls ++ last)%string
    /\ Forall (fun l => noNewline l = true) ls
    /\ noNewline last = true.
Proof.
  induction s as [|c s (ls & last & E & Hls & Hlast)].
  - exists [], EmptyString. repeat split; constructor.
  - destruct (Strings.code c =? Strings.code newline) eqn:Ec.
    + exists (EmptyString :: ls), last. split; [|split].
      * apply Z.eqb_eq in Ec. unfold Strings.code in Ec.
        apply N2Z.inj in Ec.
        assert (c = newline) as ->
            by (rewrite <- (ascii_N_embedding c),
                  <- (ascii_N_embedding newline); f_equal; exact Ec).
        rewrite E. reflexivity.
      * constructor; [reflexivity|exact Hls].
      * exact Hlast.
    + destruct ls as [|l ls'].
      * exists [], (String c last). split; [|split].
        -- rewrite E. reflexivity.
        -- constructor.
        -- simpl. rewrite Ec. exact Hlast.
      * exists (String c l :: ls'), last. split; [|split].
        -- rewrite E. reflexivity.
        -- inversion Hls; subst. constructor; [|assumption].
           simpl. rewrite Ec. assumption.
        -- exact Hlast.
Qed.

(** ** The sampler *)

Lemma Fields_first_word (a b c d : ascii) (r : string) :
  Strings.spaceWidth (String a EmptyString) = 0%nat ->
  Strings.spaceWidth (String b EmptyString) = 0%nat ->
  Strings.spaceWidth (String c EmptyString) = 0%nat ->
  Strings.spaceWidth (String d EmptyString) = 0%nat ->
  ((Strings.code a <? 128) && (Strings.code b <? 128)
   && (Strings.code c <? 128) && (Strings.code d <? 128)) = true ->
  Strings.Fields (String a (String b (String c (String d (String " " r)))))
  = String a (String b (String c (String d EmptyString))) :: Strings.Fields r.
Proof.
  intros Ha Hb Hc Hd Hascii.
  repeat (apply andb_true_iff in Hascii as [Hascii ?]).
  assert (W : forall x t, (Strings.code x <? 128) = true ->
                          Strings.spaceWidth (String x EmptyString) = 0%nat ->
                          Strings.spaceWidth (String x t) = 0%nat).
  { intros x t Hx. unfold Strings.spaceWidth.
    apply Z.ltb_lt in Hx.
    destruct (_ || _); [auto|].
    replace (Strings.code x =? 194) with false by (symmetry; apply Z.eqb_neq; lia).
    replace (Strings.code x =? 225) with false by (symmetry; apply Z.eqb_neq; lia).
    replace (Strings.code x =? 226) with false by (symmetry; apply Z.eqb_neq; lia).
    replace (Strings.code x =? 227) with false by (symmetry; apply Z.eqb_neq; lia).
    reflexivity. }
  unfold Strings.Fields.
  cbn [Strings.fieldsFrom].
  rewrite (W a _) by assumption. cbn [Strings.fieldsFrom].
  rewrite (W b _) by assumption. cbn [Strings.fieldsFrom].
  rewrite (W c _) by assumption. cbn [Strings.fieldsFrom].
  rewrite (W d _) by assumption. reflexivity.
Qed.

(** The scan of the lines after the first keeps the lines up to the first
    one that does not start with "cpu", whatever follows it. *)
Lemma cpuLines_stop (cores : list string) (stop : string)
      (after : list string) :
  Forall (fun l => Strings.HasPrefix l "cpu" = true) cores ->
  Strings.HasPrefix stop "cpu" = false ->
  cpuLines (cores ++ stop :: after) = cores.
Proof.
  intros Hc Hs. induction Hc as [|l ls Hl _ IH]; cbn [app cpuLines].
  - rewrite Hs. reflexivity.
  - rewrite Hl, IH. reflexivity.
Qed.

(** Per-core sampling of a file read as [first :: cores ++ stop :: after],
    where the lines [cores] start with "cpu" and [stop] does not: only
    [cores] are parsed; [first] and [after] play no part, whatever they
    hold. *)
Lemma TimesWithContext_per_core_scan (w : World) (ctx : Context) (st : State)
      (first : string) (cores : list string) (stop : string)
      (after : list string) :
  ReadLines w (clock st) (HostProcWithContext w ctx ["stat"])
  = ((first :: cores ++ stop :: after)%list, None) ->
  Forall (fun l => Strings.HasPrefix l "cpu" = true) cores ->
  Strings.HasPrefix stop "cpu" = false ->
  TimesWithContext w ctx st true = parseLines (ClocksPerSec st) cores.
Proof.
  intros Hr Hc Hs. unfold TimesWithContext. rewrite Hr.
  replace (Nat.ltb (List.length (first :: cores ++ stop :: after)) 2)
    with false
    by (symmetry; apply Nat.ltb_ge; cbn [List.length];
        rewrite length_app; cbn [List.length]; lia).
  cbn [tl]. rewrite (cpuLines_stop cores stop after Hc Hs). reflexivity.
Qed.

(** C8.  For a counter file that starts with an aggregate line, a cpu0
    line and a cpu1 line, followed by text that starts with "intr 12345",
    where the two per-core lines are well formed, per-core sampling returns
    exactly the cpu0 and cpu1 records, in that order.  The first line is
    passed over whatever it holds after "cpu", and the intr line ends the
    scan: [rest] is any text at all, the end of the intr line with or
    without a newline and whatever lines follow it, well-formed core lines
    included, and it adds nothing. *)
Theorem TimesWithContext_per_core_stop :
  forall (w : World) (ctx : Context) (st : State)
         (r0 r1 r2 rest : string) (c0 c1 : TimesStat),
    files w (clock st) (HostProcWithContext w ctx ["stat"])
    = FileData (unlines [("cpu" ++ r0)%string; ("cpu0 " ++ r1)%string;
                         ("cpu1 " ++ r2)%string]
                ++ "intr 12345" ++ rest) ->
    noNewline r0 = true -> noNewline r1 = true -> noNewline r2 = true ->
    parseStatLine (ClocksPerSec st) ("cpu0 " ++ r1) = Ok c0 ->
    parseStatLine (ClocksPerSec st) ("cpu1 " ++ r2) = Ok c1 ->
    TimesWithContext w ctx st true = Ok [c0; c1]
    /\ CPU c0 = "cpu0" /\ CPU c1 = "cpu1".
Proof.
  intros w ctx st r0 r1 r2 rest c0 c1 Hf H0 H1 H2 P0 P1.
  split.
  - assert (exists stop after,
               ReadLines w (clock st) (HostProcWithContext w ctx ["stat"])
               = ([("cpu" ++ r0)%string; ("cpu0 " ++ r1)%string;
                   ("cpu1 " ++ r2)%string] ++ stop :: after, None)%list
               /\ Strings.HasPrefix stop "cpu" = false)
      as (stop & after & Hr & Hs).
    { destruct (text_lines rest) as (ls & last & -> & Hls & Hlast).
      destruct ls as [|x xs].
      - exists ("intr 12345" ++ last)%string, [].
        split; [|reflexivity].
        apply (ReadLines_text _ _ _ _ _ Hf).
        + repeat (constructor; [simpl; assumption|]). constructor.
        + simpl. exact Hlast.
      - inversion Hls as [|? ? Hx Hxs]; subst.
        exists ("intr 12345" ++ x)%string,
               (xs ++ if Strings.isEmpty last then [] else [last])%list.
        split; [|reflexivity].
        assert (E : (unlines [("cpu" ++ r0)%string; ("cpu0 " ++ r1)%string;
                              ("cpu1 " ++ r2)%string]
                     ++ "intr 12345" ++ unlines (x :: xs) ++ last)%string
                    = (unlines (("cpu" ++ r0)%string :: ("cpu0 " ++ r1)%string
                                :: ("cpu1 " ++ r2)%string
                                :: ("intr 12345" ++ x)%string :: xs)
                       ++ last)%string).
        { cbn [unlines]. rewrite !append_assoc. reflexivity. }
        rewrite E in Hf.
        rewrite (ReadLines_text _ _ _ _ _ Hf).
        + reflexivity.
        + repeat (constructor; [simpl; assumption|]). exact Hxs.
        + exact Hlast. }
    rewrite (TimesWithContext_per_core_scan w ctx st ("cpu" ++ r0)
               [("cpu0 " ++ r1)%string; ("cpu1 " ++ r2)%string]
               stop after Hr).
    + cbn [parseLines]. rewrite P0. cbn [parseLines]. rewrite P1.
      reflexivity.
    + repeat constructor.
    + exact Hs.
  - split.
    + destruct (parseStatLine_label _ _ _ P0) as (f0 & rest' & HF & _ & HC).
      change ("cpu0 " ++ r1)%string
        with (String "c" (String "p" (String "u" (String "0" (String " " r1)))))
        in HF.
      rewrite Fields_first_word in HF by reflexivity.
      inversion HF; subst. exact HC.
    + destruct (parseStatLine_label _ _ _ P1) as (f0 & rest' & HF & _ & HC).
      change ("cpu1 " ++ r2)%string
        with (String "c" (String "p" (String "u" (String "1" (String " " r2)))))
        in HF.
      rewrite Fields_first_word in HF by reflexivity.
      inversion HF; subst. exact HC.
Qed.

(** The instance has a well-formed cpu2 line after the intr line, and an
    aggregate line that parses: neither is in the result. *)
Lemma TimesWithContext_per_core_stop_witness :
  exists c0 c1,
    TimesWithContext lateCoreWorld Background state0 true = Ok [c0; c1]
    /\ CPU c0 = "cpu0" /\ CPU c1 = "cpu1".
Proof.
  eexists. eexists.
  refine (TimesWithContext_per_core_stop lateCoreWorld Background
            (mkState 1700000500000000000 F64.hundred None None 0)
            " 100 0 50 800 10 0 0" "50 0 25 400 5 0 0" "50 0 25 400 5 0 0"
            (" 0 0" ++ nl ++ "cpu2 70 0 35 300 5 0 0" ++ nl)
            _ _ _ _ _ _ _ _);
    vm_compute; reflexivity.
Defined.

(** An unreadable counter file gives the empty aggregate sample. *)
Lemma TimesWithContext_unreadable (w : World) (ctx : Context) (st : State) :
  unreadable w ctx (clock st) ->
  TimesWithContext w ctx st false = Ok [].
Proof.
  intros H. unfold TimesWithContext, ReadLinesOffsetN.
  destruct (files w (clock st) (HostProcWithContext w ctx ["stat"])) eqn:E;
    [exfalso; exact (H _ E)| |]; reflexivity.
Qed.

(** C9.  [PercentTotal] takes element 0 of what [Percent] returns without
    looking at its length: it returns the first percentage of a non-empty
    sequence and hands on an error, but when the counter file cannot be
    opened at either end of a positive interval both samples are empty,
    [Percent] returns the empty sequence without error, and the access
    panics. *)
Theorem PercentTotal_unchecked_index :
  (forall w st interval p ps st',
      Percent w st interval false = (Ok (p :: ps), st') ->
      PercentTotal w st interval = (Ok p, st'))
  /\ (forall w st interval e st',
         Percent w st interval false = (Err e, st') ->
         PercentTotal w st interval = (Err e, st'))
  /\ (forall w st interval,
         0 < interval ->
         unreadable w Background (clock st) ->
         unreadable w Background (clock st + interval) ->
         Percent w st interval false
         = (Ok [], setClock st (clock st + interval))
         /\ PercentTotal w st interval
            = (Panic (IndexOutOfRange 0 0),
               setClock st (clock st + interval))).
Proof.
  split; [|split].
  - intros w st interval p ps st' H. unfold PercentTotal. rewrite H.
    reflexivity.
  - intros w st interval e st' H. unfold PercentTotal. rewrite H.
    reflexivity.
  - intros w st interval Hi H1 H2.
    assert (HP : Percent w st interval false
                 = (Ok [], setClock st (clock st + interval))).
    { unfold Percent, PercentWithContext.
      replace (interval <=? 0) with false by (symmetry; apply Z.leb_gt; lia).
      rewrite (TimesWithContext_unreadable w Background st H1).
      unfold Sleep. cbn [ctxDone Background].
      rewrite (TimesWithContext_unreadable w Background
                 (setClock st (clock st + interval)) H2).
      reflexivity. }
    split; [exact HP|]. unfold PercentTotal. rewrite HP. reflexivity.
Qed.

Lemma PercentTotal_unchecked_index_witness :
  PercentTotal hostWorld state0 1000
  = (Ok F64.zero, setClock state0 (clock state0 + 1000))
  /\ PercentTotal hostWorld state0 0
     = (Err ErrLastTimesNil,
        snd (PercentWithContext hostWorld Background state0 0 false))
  /\ PercentTotal emptyWorld state0 1000
     = (Panic (IndexOutOfRange 0 0), setClock state0 (clock state0 + 1000)).
Proof.
  split; [|split].
  - refine (proj1 PercentTotal_unchecked_index hostWorld state0 1000
              F64.zero [] _ _).
    vm_compute. reflexivity.
  - refine (proj1 (proj2 PercentTotal_unchecked_index) hostWorld state0 0
              ErrLastTimesNil _ _).
    vm_compute. reflexivity.
  - refine (proj2 (proj2 (proj2 PercentTotal_unchecked_index)
                     emptyWorld state0 1000 _ _ _)).
    + lia.
    + intros content H. discriminate H.
    + intros content H. discriminate H.
Defined.

(** C10.  In since-last-call mode the slot of the requested mode holds the
    fresh sample when the call returns, whatever the call returns (the
    no-baseline error included), so the next since-last-call request for
    that mode does not fail with the no-baseline error. *)
Theorem since_last_call_overwrites_first :
  forall w ctx st interval percpu r st1,
    interval <= 0 ->
    PercentWithContext w ctx st interval percpu = (r, st1) ->
    (exists sample,
        TimesWithContext w ctx st percpu = Ok sample
        /\ slot percpu st1 = Some sample)
    /\ (forall w' ctx' t interval',
           interval' <= 0 ->
           fst (PercentWithContext w' ctx' (setClock st1 t) interval' percpu)
           <> Err ErrLastTimesNil).
Proof.
  intros w ctx st interval percpu r st1 Hi H.
  unfold PercentWithContext in H.
  replace (interval <=? 0) with true in H by (symmetry; apply Z.leb_le; lia).
  unfold percentUsedFromLastCallWithContext in H.
  destruct (TimesWithContext_Ok w ctx st percpu) as [sample Hs].
  rewrite Hs in H.
  assert (Hslot : slot percpu st1 = Some sample).
  { destruct percpu; cbn [slot] in *;
      match type of H with
      | match ?o with _ => _ end = _ =>
          destruct o; inversion H; subst; reflexivity
      end. }
  split; [eauto|].
  intros w' ctx' t interval' Hi'. unfold PercentWithContext.
  replace (interval' <=? 0) with true by (symmetry; apply Z.leb_le; lia).
  unfold percentUsedFromLastCallWithContext.
  destruct (TimesWithContext_Ok w' ctx' (setClock st1 t) percpu) as [s' Hs'].
  rewrite Hs'.
  assert (Hslot' : (if percpu then lastPerCPUTimes (setClock st1 t)
                    else lastCPUTimes (setClock st1 t)) = Some sample).
  { destruct percpu; exact Hslot. }
  rewrite Hslot'. cbn [fst]. unfold calculateAllBusy.
  destruct (negb _); discriminate.
Qed.

Lemma since_last_call_overwrites_first_witness :
  fst (PercentWithContext hostWorld Background state0 0 false)
  = Err ErrLastTimesNil
  /\ fst (PercentWithContext hostWorld Background
            (setClock
               (snd (PercentWithContext hostWorld Background state0 0 false))
               1700000501000000000) 0 false)
     <> Err ErrLastTimesNil.
Proof.
  split; [vm_compute; reflexivity|].
  refine (proj2 (since_last_call_overwrites_first hostWorld Background state0
                   0 false _ _ _ eq_refl)
            hostWorld Background 1700000501000000000 0 _); lia.
Defined.

(** ** The process handle *)

(** The raw lifetime percentage: 100 times the CPU seconds of the process
    over the wall-clock seconds since it started, and 0 when that time is
    not positive. *)
Lemma cpuPercent_formula (w : World) (st : State) (p : proc) (s : procStat) :
  fillFromStatWithContext w Background st p = Ok s ->
  cpuPercent w st p =
  let totalTime :=
    sinceSeconds (clock st) (toInt64 (ps_createTime s * millisecond)) in
  if F64.leb totalTime F64.zero then Ok F64.zero
  else Ok (F64.div (F64.mul F64.hundred (cpu.Total (ps_cpuTimes s)))
                   totalTime).
Proof.
  intros H. unfold cpuPercent, CPUPercentWithContext, createTimeWithContext,
              proc_TimesWithContext.
  rewrite H. reflexivity.
Qed.

(** C1 (as amended).  [CPUPercent] returns the raw lifetime percentage
    divided by the number of CPUs of the affinity set times 100, a fraction
    of the allowed cores and no longer a percentage: pinned to 2 cores
    with 150% raw usage it reports 0.75. *)
Theorem CPUPercent_divides_by_count_times_100 :
  (forall w st p R,
      cpuPercent w st p = Ok R ->
      CPUPercent w st p
      = Ok (F64.div R (F64.mul (F64.of_Z (Count (set p))) (F64.of_Z 100))))
  /\ (forall w st p e,
         cpuPercent w st p = Err e -> CPUPercent w st p = Err e)
  /\ (Count (set twoCores) = 2
      /\ cpuPercent hostWorld state0 twoCores = Ok (F64.of_Z 150)
      /\ CPUPercent hostWorld state0 twoCores
         = Ok (F64.of_decimal false 75 (-2))).
Proof.
  split; [|split].
  - intros w st p R H. unfold CPUPercent. rewrite H. reflexivity.
  - intros w st p e H. unfold CPUPercent. rewrite H. reflexivity.
  - split; [reflexivity|]. split; vm_compute; reflexivity.
Qed.

Lemma CPUPercent_divides_by_count_times_100_witness :
  CPUPercent hostWorld state0 twoCores
  = Ok (F64.div (F64.of_Z 150)
          (F64.mul (F64.of_Z (Count (set twoCores))) (F64.of_Z 100))).
Proof.
  refine (proj1 CPUPercent_divides_by_count_times_100
            hostWorld state0 twoCores (F64.of_Z 150) _).
  vm_compute. reflexivity.
Defined.

(** C1 (as stated) fails: with 2 CPUs in the affinity set and 150% raw
    usage the handle does not report 150 / 2. *)
Lemma CPUPercent_is_not_raw_over_count :
  ~ (forall w st p R,
        1 <= Count (set p) ->
        cpuPercent w st p = Ok R ->
        CPUPercent w st p = Ok (F64.div R (F64.of_Z (Count (set p))))).
Proof.
  intros H.
  specialize (H hostWorld state0 twoCores (F64.of_Z 150)).
  assert (H1 : 1 <= Count (set twoCores)) by (vm_compute; discriminate).
  assert (H2 : cpuPercent hostWorld state0 twoCores = Ok (F64.of_Z 150))
    by (vm_compute; reflexivity).
  specialize (H H1 H2). vm_compute in H. discriminate H.
Qed.

(** ** Boot time *)

(** Whenever the stat file is consulted and read, its value is not what is
    returned: the result is the one computed from the uptime file. *)
Lemma BootTimeWithContext_falls_through (w : World) (ctx : Context)
      (st : State) (t : Z) :
  isGuestOf "lxc" (virtualization w) = false ->
  isGuestOf "docker" (virtualization w) = false ->
  readBootTimeStat w ctx (clock st) = Ok t ->
  BootTimeWithContext w ctx st false = bootTimeFromUptime w ctx st false.
Proof.
  intros H1 H2 H3. unfold BootTimeWithContext.
  cbn [andb]. rewrite H1, H2, H3. reflexivity.
Qed.

(** C2 (the code departs from it).  On a host that is neither an lxc nor a
    docker guest, whose stat file gives btime 1700000000 and whose uptime
    file reads 100 seconds at 1700000500, the boot-time lookup returns
    1700000400, the value derived from the uptime file. *)
Theorem BootTimeWithContext_returns_uptime_value :
  isGuestOf "lxc" (virtualization hostWorld) = false
  /\ isGuestOf "docker" (virtualization hostWorld) = false
  /\ readBootTimeStat hostWorld Background (clock state0) = Ok 1700000000
  /\ fst (BootTimeWithContext hostWorld Background state0 false)
     = Ok 1700000400
  /\ BootTimeWithContext hostWorld Background state0 true
     = (Ok 1700000400, setCachedBootTime state0 1700000400).
Proof. repeat split; vm_compute; reflexivity. Qed.

(** ** Process sampling *)

Lemma optionalField_Ok (fields : list string) :
  exists io,
    (if Nat.ltb 42 (List.length fields)
     then (f <- index fields 42 ;;
           match Strconv.ParseFloat f with
           | Ok io => Ok io
           | Err _ => Ok F64.zero
           | Panic q => Panic q
           end)
     else Ok F64.zero) = Ok io.
Proof.
  destruct (Nat.ltb 42 (List.length fields)) eqn:E; [|eauto].
  apply Nat.ltb_lt in E. destruct (index_Ok fields 42 E) as [a ->].
  cbn [bind]. pose proof (ParseFloat_numFailure a) as H.
  destruct (Strconv.ParseFloat a); simpl in H; try contradiction; eauto.
Qed.

(** One parse of the chain: either it succeeds and the chain goes on, or
    its [NumError] is the result. *)
Ltac parse_step H :=
  let N := fresh "N" in
  pose proof H as N;
  match type of N with
  | numFailure ?x =>
      destruct x as [?|[]|?]; cbn [numFailure] in N; try contradiction;
      cbn [bind andb]; [clear N|solve [eauto]]
  end.

(** When every required field is present, process sampling returns the
    record if they all parse and the parse error of the first one that
    does not (no partial record), provided the boot-time lookup does not
    panic. *)
Lemma fillFromTIDStat_all_or_nothing (w : World) (ctx : Context) (st : State)
      (p : proc) (tid : Z) (contents : string) (fields : list string) :
  ReadFile w (clock st)
    (if tid =? -1
     then HostProcWithContext w ctx [Strconv.Itoa (pid p); "stat"]
     else HostProcWithContext w ctx
            [Strconv.Itoa (pid p); "task"; Strconv.Itoa tid; "stat"])
  = Ok contents ->
  splitProcStat contents = Ok fields ->
  (22 < List.length fields)%nat ->
  noPanic (fst (BootTimeWithContext w ctx st enableBootTimeCache)) ->
  if requiredFieldsParse fields
  then exists s, fillFromTIDStatWithContext w ctx st p tid = Ok s
  else exists fn num k,
      fillFromTIDStatWithContext w ctx st p tid = Err (NumError fn num k).
Proof.
  intros HR HS HL HB. unfold fillFromTIDStatWithContext.
  rewrite HR. cbn [bind]. rewrite HS. cbn [bind].
  destruct (optionalField_Ok fields) as [io ->].
  assert (exists b,
             match fst (BootTimeWithContext w ctx st enableBootTimeCache) with
             | Ok b => Ok b
             | Err _ => Ok 0
             | Panic q => Panic q
             end = (Ok b : outcome Z)) as [b ->].
  { destruct (fst (BootTimeWithContext w ctx st enableBootTimeCache));
      simpl in HB; try contradiction; eauto. }
  unfold requiredFieldsParse, fieldParses.
  destruct (index_Ok fields 7) as [a7 ->]; [lia|].
  destruct (index_Ok fields 4) as [a4 ->]; [lia|].
  destruct (index_Ok fields 14) as [a14 ->]; [lia|].
  destruct (index_Ok fields 15) as [a15 ->]; [lia|].
  destruct (index_Ok fields 22) as [a22 ->]; [lia|].
  destruct (index_Ok fields 18) as [a18 ->]; [lia|].
  destruct (index_Ok fields 10) as [a10 ->]; [lia|].
  destruct (index_Ok fields 11) as [a11 ->]; [lia|].
  destruct (index_Ok fields 12) as [a12 ->]; [lia|].
  destruct (index_Ok fields 13) as [a13 ->]; [lia|].
  cbn [bind].
  parse_step (ParseUint_numFailure a7 64).
  parse_step (ParseInt_numFailure a4 32).
  parse_step (ParseFloat_numFailure a14).
  parse_step (ParseFloat_numFailure a15).
  parse_step (ParseUint_numFailure a22 64).
  parse_step (ParseInt_numFailure a18 32).
  parse_step (ParseUint_numFailure a10 64).
  parse_step (ParseUint_numFailure a11 64).
  parse_step (ParseUint_numFailure a12 64).
  parse_step (ParseUint_numFailure a13 64).
  eauto.
Qed.

(** A record whose name holds spaces and parentheses is split at the first
    opening and the last closing parenthesis. *)
Example splitProcStat_odd_name :
  exists rest,
    splitProcStat procStatFile
    = Ok ("" :: "42" :: "my (odd) proc" :: "R" :: "1" :: rest)
    /\ List.length rest = 21%nat.
Proof. eexists. split; vm_compute; reflexivity. Qed.

(** A complete record with an unparseable user-ticks field: the whole call
    fails with the syntax error, of kind MalformedInput. *)
Example fillFromStat_unparseable_utime :
  fillFromStatWithContext garbledWorld Background state0 twoCores
  = Err (NumError "ParseFloat" "x" ErrSyntax)
  /\ kindOf (NumError "ParseFloat" "x" ErrSyntax) = MalformedInput.
Proof. split; vm_compute; reflexivity. Qed.

(** C6 (the code departs from it).  A process-stat record that stops after
    the terminal field has no field 14: sampling does not return an error,
    the index expression panics.  The same holds for a record without
    parentheses and for an empty record, where the slicing panics. *)
Theorem fillFromStat_missing_field_panics :
  fillFromStatWithContext hostWorld Background state0 truncated
  = Panic (IndexOutOfRange 14 8)
  /\ splitProcStat "43 cat R 1 43 43 34816" = Panic (SliceOutOfRange 0 (-1) 22)
  /\ splitProcStat "" = Panic (SliceOutOfRange 1 0 0).
Proof. repeat split; vm_compute; reflexivity. Qed.

(** * Further properties *)

(** ** Reading lines *)

Lemma toInt64_small (x : Z) : - 2 ^ 63 <= x < 2 ^ 63 -> toInt64 x = x.
Proof.
  intros H. unfold toInt64. rewrite Z.mod_small; lia.
Qed.

(** The loop of [ReadLinesOffsetN] over whole lines followed by [last]:
    the lines from [int(offset)] on, at most up to index [n+int(offset)]
    (both as 64-bit integers), and then [last] if the loop gets that far. *)
Lemma readLinesLoop_window (offset n : Z) (last : string) (ls : list string) :
  Forall (fun l => noNewline l = true) ls ->
  noNewline last = true ->
  forall off b, off = toInt64 offset -> b = toInt64 (n + off) ->
  forall i, 0 <= i ->
    readLinesLoop offset n i (map (fun l => (l ++ nl)%string) ls) last
    = if n <? 0
      then (skipn (Z.to_nat (off - i)) ls
            ++ if Strings.isEmpty last then [] else [last])%list
      else (skipn (Z.to_nat (off - i))
                  (firstn (Z.to_nat (b - i)) ls)
            ++ if (Z.of_nat (List.length ls) <? b - i)
                  && negb (Strings.isEmpty last)
               then [last] else [])%list.
Proof.
  intros Hls Hlast off b Hoff Hb.
  induction Hls as [|l ls Hl _ IH]; intros i Hi.
  - cbn [map readLinesLoop List.length]. rewrite <- Hoff, <- Hb.
    rewrite skipn_nil, firstn_nil, skipn_nil. cbn [app].
    rewrite (TrimByte_noNewline last Hlast).
    destruct (n <? 0) eqn:En.
    + rewrite orb_true_r. reflexivity.
    + rewrite orb_false_r. change (Z.of_nat 0) with 0.
      replace (0 <? b - i) with (i <? b)
        by (destruct (Z.ltb_spec i b), (Z.ltb_spec 0 (b - i));
            try reflexivity; lia).
      destruct (i <? b); destruct (Strings.isEmpty last); reflexivity.
  - cbn [map readLinesLoop]. rewrite <- Hoff, <- Hb.
    rewrite (IH (i + 1)) by lia. rewrite (TrimByte_line l Hl).
    destruct (n <? 0) eqn:En.
    + rewrite orb_true_r.
      destruct (Z.ltb_spec i off) as [Hlt|Hge].
      * replace (Z.to_nat (off - i)) with (S (Z.to_nat (off - (i + 1))))
          by lia. reflexivity.
      * replace (Z.to_nat (off - i)) with 0%nat by lia.
        replace (Z.to_nat (off - (i + 1))) with 0%nat by lia. reflexivity.
    + rewrite orb_false_r. apply Z.ltb_ge in En.
      destruct (Z.ltb_spec i b) as [Hin|Hout].
      * replace (Z.to_nat (b - i))
          with (S (Z.to_nat (b - (i + 1)))) by lia.
        cbn [firstn List.length].
        replace (Z.of_nat (S (List.length ls)) <? b - i)
          with (Z.of_nat (List.length ls) <? b - (i + 1))
          by (destruct (Z.ltb_spec (Z.of_nat (List.length ls))
                                   (b - (i + 1))),
                (Z.ltb_spec (Z.of_nat (S (List.length ls))) (b - i));
              try reflexivity; lia).
        destruct (Z.ltb_spec i off) as [Hlt|Hge].
        -- replace (Z.to_nat (off - i))
             with (S (Z.to_nat (off - (i + 1)))) by lia. reflexivity.
        -- replace (Z.to_nat (off - i)) with 0%nat by lia.
           replace (Z.to_nat (off - (i + 1))) with 0%nat by lia.
           reflexivity.
      * replace (Z.to_nat (b - i)) with 0%nat by lia.
        cbn [firstn]. rewrite skipn_nil.
        replace (Z.of_nat (List.length (l :: ls)) <? b - i)
          with false by (symmetry; apply Z.ltb_ge; lia).
        reflexivity.
Qed.

(** X1.  [ReadLinesOffsetN(filename, offset, n)] takes a [uint] offset and
    an [int] count [n].  When [offset] is below [2^63] and the sum
    [n + offset] stays below [2^63], so that neither [int(offset)] nor
    [n+int(offset)] wraps, then on a file made of newline-terminated lines
    it returns the lines from index [offset] on: all of them when [n] is
    negative, the first [n] of them otherwise; it reports no error. *)
Theorem ReadLinesOffsetN_window :
  forall (w : World) (now : Z) (filename ls : list string) (offset n : Z),
    files w now filename = FileData (unlines ls) ->
    Forall (fun l => noNewline l = true) ls ->
    0 <= offset < 2 ^ 63 ->
    - 2 ^ 63 <= n ->
    n + offset < 2 ^ 63 ->
    ReadLinesOffsetN w now filename offset n
    = (if n <? 0 then skipn (Z.to_nat offset) ls
       else firstn (Z.to_nat n) (skipn (Z.to_nat offset) ls), None).
Proof.
  intros w now filename ls offset n Hf Hls Ho Hn0 Hs.
  unfold ReadLinesOffsetN. rewrite Hf, (splitLines_unlines ls Hls).
  rewrite (readLinesLoop_window offset n EmptyString ls Hls eq_refl
             _ _ eq_refl eq_refl 0) by lia.
  rewrite (toInt64_small offset) by lia.
  rewrite !Z.sub_0_r. cbn [Strings.isEmpty negb]. rewrite andb_false_r.
  rewrite !app_nil_r. f_equal.
  destruct (Z.ltb_spec n 0) as [Hn|Hn]; [reflexivity|].
  rewrite (toInt64_small (n + offset)) by lia.
  rewrite firstn_skipn_comm. f_equal. f_equal. lia.
Qed.

Lemma ReadLinesOffsetN_window_witness :
  ReadLinesOffsetN perCoreWorld 0 ["/proc"; "stat"] 1 2
  = (["cpu0 50 0 25 400 5 0 0"; "cpu1 50 0 25 400 5 0 0"], None).
Proof.
  refine (ReadLinesOffsetN_window perCoreWorld 0 ["/proc"; "stat"]
            ["cpu 100 0 50 800 10 0 0"; "cpu0 50 0 25 400 5 0 0";
             "cpu1 50 0 25 400 5 0 0"; "intr 12345 0 0"] 1 2 _ _ _ _ _).
  - reflexivity.
  - repeat constructor.
  - split; [discriminate|reflexivity].
  - discriminate.
  - reflexivity.
Defined.

(** X2.  A last line without a newline is returned too, and it is
    returned even when [offset] skips more lines than the file has: when
    the whole file is asked for (an [int] count [n < 0]) and the [uint]
    [offset] is below [2^63] (so that [int(offset)] is [offset]), the
    result is the lines from [offset] on followed by that last line. *)
Theorem ReadLinesOffsetN_unterminated_line :
  forall (w : World) (now : Z) (filename ls : list string) (last : string)
         (offset n : Z),
    files w now filename = FileData (unlines ls ++ last) ->
    Forall (fun l => noNewline l = true) ls ->
    noNewline last = true ->
    Strings.isEmpty last = false ->
    0 <= offset < 2 ^ 63 -> - 2 ^ 63 <= n < 0 ->
    ReadLinesOffsetN w now filename offset n
    = ((skipn (Z.to_nat offset) ls ++ [last])%list, None).
Proof.
  intros w now filename ls last offset n Hf Hls Hlast Hne Ho Hn.
  unfold ReadLinesOffsetN.
  rewrite Hf, (splitLines_unlines_last ls last Hls Hlast).
  rewrite (readLinesLoop_window offset n last ls Hls Hlast
             _ _ eq_refl eq_refl 0) by lia.
  rewrite (toInt64_small offset) by lia.
  rewrite Z.sub_0_r, Hne.
  replace (n <? 0) with true by (symmetry; apply Z.ltb_lt; lia).
  reflexivity.
Qed.

Lemma ReadLinesOffsetN_unterminated_line_witness :
  ReadLinesOffsetN tailWorld 0 ["/proc"; "stat"] 7 (-1)
  = (["btime 1700000000"], None).
Proof.
  refine (ReadLinesOffsetN_unterminated_line tailWorld 0 ["/proc"; "stat"]
            ["cpu 1 2 3 4 5 6 7"; "intr 9"] "btime 1700000000" 7 (-1)
            _ _ _ _ _ _); try reflexivity.
  - repeat constructor.
  - split; [discriminate|reflexivity].
  - split; [discriminate|reflexivity].
Defined.

(** Outside that range the 64-bit arithmetic of the loop shows: a count
    that makes [n+int(offset)] wrap to a negative number reads nothing, and
    an offset of [2^63] or more converts to a negative [int] and skips
    nothing. *)
Example ReadLinesOffsetN_sum_wraps :
  ReadLinesOffsetN perCoreWorld 0 ["/proc"; "stat"] 1 (2 ^ 63 - 1)
  = ([], None).
Proof. vm_compute. reflexivity. Qed.

Example ReadLinesOffsetN_offset_wraps :
  ReadLinesOffsetN perCoreWorld 0 ["/proc"; "stat"] (2 ^ 63) (-1)
  = (["cpu 100 0 50 800 10 0 0"; "cpu0 50 0 25 400 5 0 0";
      "cpu1 50 0 25 400 5 0 0"; "intr 12345 0 0"], None).
Proof. vm_compute. reflexivity. Qed.

Lemma HasPrefix_line (prefix : string) :
  noNewline prefix = true ->
  forall l, noNewline l = true ->
    Strings.HasPrefix (l ++ nl) prefix = Strings.HasPrefix l prefix.
Proof.
  induction prefix as [|p prefix IH]; intros Hp l Hl.
  - destruct l; reflexivity.
  - simpl in Hp. apply andb_true_iff in Hp as [Hp1 Hp2].
    destruct l as [|c l].
    + apply negb_true_iff in Hp1.
      change (Strings.HasPrefix (EmptyString ++ nl) (String p prefix))
        with ((Strings.code newline =? Strings.code p)
              && Strings.HasPrefix EmptyString prefix).
      rewrite Z.eqb_sym, Hp1. reflexivity.
    + simpl in Hl. apply andb_true_iff in Hl as [_ Hl].
      simpl. rewrite (IH Hp2 l Hl). reflexivity.
Qed.

Lemma readLineLoop_find (prefix : string) (ls : list string) :
  noNewline prefix = true ->
  Forall (fun l => noNewline l = true) ls ->
  readLineLoop prefix (map (fun l => (l ++ nl)%string) ls)
  = match find (fun l => Strings.HasPrefix l prefix) ls with
    | Some l => (l ++ nl)%string
    | None => ""
    end.
Proof.
  intros Hp Hls. induction Hls as [|l ls Hl _ IH]; simpl; [reflexivity|].
  rewrite (HasPrefix_line prefix Hp l Hl), IH.
  destruct (Strings.HasPrefix l prefix); reflexivity.
Qed.

(** X3.  [ReadLine] returns the first newline-terminated line that starts
    with the prefix, newline included, and the empty string without error
    when there is none; a last line without a newline is never returned. *)
Theorem ReadLine_first_match :
  forall (w : World) (now : Z) (filename ls : list string)
         (last prefix : string),
    files w now filename = FileData (unlines ls ++ last) ->
    Forall (fun l => noNewline l = true) ls ->
    noNewline last = true ->
    noNewline prefix = true ->
    ReadLine w now filename prefix
    = Ok (match find (fun l => Strings.HasPrefix l prefix) ls with
          | Some l => (l ++ nl)%string
          | None => ""
          end).
Proof.
  intros w now filename ls last prefix Hf Hls Hlast Hp.
  unfold ReadLine.
  rewrite Hf, (splitLines_unlines_last ls last Hls Hlast). cbn [fst].
  now rewrite readLineLoop_find.
Qed.

Lemma ReadLine_first_match_witness :
  ReadLine tailWorld 0 ["/proc"; "stat"] "intr" = Ok ("intr 9" ++ nl)%string
  /\ ReadLine tailWorld 0 ["/proc"; "stat"] "btime" = Ok "".
Proof.
  split.
  - refine (ReadLine_first_match tailWorld 0 ["/proc"; "stat"]
              ["cpu 1 2 3 4 5 6 7"; "intr 9"] "btime 1700000000" "intr"
              _ _ _ _); try reflexivity.
    repeat constructor.
  - refine (ReadLine_first_match tailWorld 0 ["/proc"; "stat"]
              ["cpu 1 2 3 4 5 6 7"; "intr 9"] "btime 1700000000" "btime"
              _ _ _ _); try reflexivity.
    repeat constructor.
Defined.

(** ** Boot time *)

Lemma spaceWidth_le (s : string) :
  (Strings.spaceWidth s <= String.length s)%nat.
Proof.
  destruct s as [|c [|d [|e r]]]; cbn [Strings.spaceWidth String.length];
    repeat match goal with
           | |- context [if ?b then _ else _] => destruct b
           end; lia.
Qed.

(** A newline after the string does not complete a white-space rune. *)
Lemma spaceWidth_line (c : ascii) (r : string) :
  Strings.spaceWidth (String c (r ++ nl)) = Strings.spaceWidth (String c r).
Proof.
  destruct r as [|d [|e r]]; cbn [Strings.spaceWidth append nl];
    repeat match goal with
           | |- context [if ?b then _ else _] =>
               lazymatch b with
               | context [newline] => fail
               | _ => destruct b
               end
           end; try reflexivity;
    repeat match goal with
           | |- context [Strings.code d =? ?k] =>
               destruct (Strings.code d =? k)
           end; reflexivity.
Qed.

Lemma fieldsFrom_line (l : string) :
  forall skip cur,
    (skip <= String.length l)%nat ->
    Strings.fieldsFrom skip cur (l ++ nl) = Strings.fieldsFrom skip cur l.
Proof.
  induction l as [|c r IH]; intros skip cur Hs.
  - simpl in Hs. replace skip with 0%nat by lia.
    cbn. apply app_nil_r.
  - cbn [append Strings.fieldsFrom]. destruct skip as [|k].
    + rewrite spaceWidth_line.
      pose proof (spaceWidth_le (String c r)) as Hw.
      destruct (Strings.spaceWidth (String c r)) as [|k].
      * apply IH. lia.
      * rewrite IH; [reflexivity|]. simpl in Hw. lia.
    + apply IH. simpl in Hs. lia.
Qed.

Lemma Fields_line (l : string) : Strings.Fields (l ++ nl) = Strings.Fields l.
Proof. apply fieldsFrom_line. lia. Qed.

(** X4.  [readBootTimeStat] looks at the first newline-terminated line of
    the stat file that starts with "btime": without one it fails with
    "could not find btime" (a last line without a newline does not count);
    if that line has not exactly two fields it fails with "wrong btime
    format"; otherwise the result is the second field read as a signed
    64-bit decimal and converted to uint64. *)
Theorem readBootTimeStat_first_btime_line :
  forall (w : World) (ctx : Context) (now : Z) (ls : list string)
         (last : string),
    files w now (HostProcWithContext w ctx ["stat"])
    = FileData (unlines ls ++ last) ->
    Forall (fun l => noNewline l = true) ls ->
    noNewline last = true ->
    readBootTimeStat w ctx now
    = match find (fun l => Strings.HasPrefix l "btime") ls with
      | None => Err ErrNoBtime
      | Some l =>
          match Strings.Fields l with
          | [_; f1] => b <- Strconv.ParseInt f1 64 ;; Ok (wrap64 b)
          | _ => Err ErrWrongBtimeFormat
          end
      end.
Proof.
  intros w ctx now ls last Hf Hls Hlast. unfold readBootTimeStat.
  rewrite (ReadLine_first_match w now _ ls last "btime" Hf Hls Hlast eq_refl).
  destruct (find (fun l => Strings.HasPrefix l "btime") ls) as [l|] eqn:E;
    [|reflexivity].
  apply find_some in E as [Hin Hp].
  assert (Hl : noNewline l = true)
    by (rewrite Forall_forall in Hls; exact (Hls l Hin)).
  rewrite (HasPrefix_line "btime" eq_refl l Hl), Hp, Fields_line.
  destruct (Strings.Fields l) as [|a [|b [|c r]]]; [reflexivity|reflexivity| |reflexivity].
  cbn [List.length Nat.eqb negb index nth_error bind].
  destruct (Strconv.ParseInt b 64); reflexivity.
Qed.

Lemma readBootTimeStat_first_btime_line_witness :
  readBootTimeStat hostWorld Background 0 = Ok 1700000000.
Proof.
  rewrite (readBootTimeStat_first_btime_line hostWorld Background 0
             ["cpu 100 0 50 800 10 0 0"; "cpu0 50 0 25 400 5 0 0";
              "cpu1 50 0 25 400 5 0 0"; "intr 12345 0 0";
              "btime 1700000000"] EmptyString eq_refl
             ltac:(repeat constructor) eq_refl).
  reflexivity.
Defined.

Lemma bootTimeFromUptime_denied (w : World) (ctx : Context) (st : State)
      (enableCache : bool) (up : Z) :
  files w (clock st) (HostProcWithContext w ctx ["uptime"]) = FileDenied ->
  sysinfoUptime w (clock st) = Some up ->
  bootTimeFromUptime w ctx st enableCache
  = (Ok (wrap64 (toInt64 (Z.quot (clock st) second - up))), st).
Proof.
  intros Hf Hs. unfold bootTimeFromUptime, ReadLines, ReadLinesOffsetN.
  rewrite Hf. unfold handleBootTimeFileReadErr. rewrite Hs. reflexivity.
Qed.

(** X5.  When neither the stat file nor the uptime file may be opened
    (permission denied) and nothing is cached, the boot time is taken from
    the sysinfo call: the current time in whole seconds less the uptime. *)
Theorem BootTimeWithContext_permission_fallback :
  forall (w : World) (ctx : Context) (st : State) (enableCache : bool)
         (up : Z),
    enableCache && negb (cachedBootTime st =? 0) = false ->
    files w (clock st) (HostProcWithContext w ctx ["stat"]) = FileDenied ->
    files w (clock st) (HostProcWithContext w ctx ["uptime"]) = FileDenied ->
    sysinfoUptime w (clock st) = Some up ->
    fst (BootTimeWithContext w ctx st enableCache)
    = Ok (wrap64 (toInt64 (Z.quot (clock st) second - up))).
Proof.
  intros w ctx st enableCache up Hc Hstat Hup Hs.
  unfold BootTimeWithContext. rewrite Hc.
  assert (HR : readBootTimeStat w ctx (clock st)
               = Ok (wrap64 (toInt64 (Z.quot (clock st) second - up)))).
  { unfold readBootTimeStat, ReadLine. rewrite Hstat.
    unfold handleBootTimeFileReadErr. rewrite Hs. reflexivity. }
  rewrite HR.
  destruct (isGuestOf "lxc" (virtualization w));
    [now rewrite (bootTimeFromUptime_denied w ctx st enableCache up)|].
  destruct (isGuestOf "docker" (virtualization w));
    [now rewrite (bootTimeFromUptime_denied w ctx st enableCache up)|].
  destruct enableCache.
  - now rewrite (bootTimeFromUptime_denied w ctx _ true up).
  - now rewrite (bootTimeFromUptime_denied w ctx st false up).
Qed.

Lemma BootTimeWithContext_permission_fallback_witness :
  fst (BootTimeWithContext deniedWorld Background state0 true)
  = Ok 1700000400.
Proof.
  rewrite (BootTimeWithContext_permission_fallback deniedWorld Background
             state0 true 100 eq_refl eq_refl eq_refl eq_refl).
  reflexivity.
Defined.

Lemma bootTimeFromUptime_cached (w : World) (ctx : Context) (st st' : State)
      (t : Z) :
  files w (clock st) (HostProcWithContext w ctx ["uptime"]) <> FileDenied ->
  bootTimeFromUptime w ctx st true = (Ok t, st') ->
  cachedBootTime st' = t.
Proof.
  intros Hf. unfold bootTimeFromUptime, ReadLines, ReadLinesOffsetN.
  destruct (files w (clock st) (HostProcWithContext w ctx ["uptime"]))
    as [content| |]; [| |contradiction].
  - destruct (splitLines EmptyString content) as [lines last].
    destruct (negb _); [discriminate|].
    destruct (l0 <- index _ 0 ;; f0 <- index (Strings.Fields l0) 0 ;;
              Strconv.ParseFloat f0); try discriminate.
    intros H. inversion H; subst. reflexivity.
  - discriminate.
Qed.

(** X6.  With caching on, a boot time that is returned while the uptime
    file is not closed to the caller is stored, and as long as it is not 0
    every later lookup with caching on returns it, whatever the files and
    the clock have become, and leaves the state as it is. *)
Theorem BootTimeWithContext_cache_sticks :
  forall (w : World) (ctx : Context) (st st' : State) (t : Z),
    BootTimeWithContext w ctx st true = (Ok t, st') ->
    files w (clock st) (HostProcWithContext w ctx ["uptime"]) <> FileDenied ->
    t <> 0 ->
    cachedBootTime st' = t
    /\ forall (w' : World) (ctx' : Context) (now' : Z),
        BootTimeWithContext w' ctx' (setClock st' now') true
        = (Ok t, setClock st' now').
Proof.
  intros w ctx st st' t H Hf Ht.
  assert (Hc : cachedBootTime st' = t).
  { unfold BootTimeWithContext in H. cbn [andb] in H.
    destruct (negb (cachedBootTime st =? 0)).
    - inversion H; subst. reflexivity.
    - destruct (isGuestOf "lxc" (virtualization w));
        [exact (bootTimeFromUptime_cached w ctx st st' t Hf H)|].
      destruct (isGuestOf "docker" (virtualization w));
        [exact (bootTimeFromUptime_cached w ctx st st' t Hf H)|].
      destruct (readBootTimeStat w ctx (clock st)) as [t0| |];
        try discriminate.
      exact (bootTimeFromUptime_cached w ctx (setCachedBootTime st t0) st'
               t Hf H). }
  split; [exact Hc|]. intros w' ctx' now'.
  unfold BootTimeWithContext. cbn [andb setClock cachedBootTime].
  rewrite Hc.
  replace (t =? 0) with false by (symmetry; apply Z.eqb_neq; exact Ht).
  reflexivity.
Qed.

Lemma BootTimeWithContext_cache_sticks_witness :
  BootTimeWithContext emptyWorld Background
    (setClock (setCachedBootTime state0 1700000400) 0) true
  = (Ok 1700000400, setClock (setCachedBootTime state0 1700000400) 0).
Proof.
  refine (proj2 (BootTimeWithContext_cache_sticks hostWorld Background state0
                   (setCachedBootTime state0 1700000400) 1700000400 _ _ _)
            emptyWorld Background 0).
  - vm_compute. reflexivity.
  - discriminate.
  - discriminate.
Defined.

(** X7.  An uptime file that is a single line without any field (empty or
    white space only) makes the lookup panic on the index of its first
    field, once control reaches the uptime file: for an lxc or docker
    guest, and for any other host whose stat file was read. *)
Theorem BootTimeWithContext_blank_uptime_panics :
  forall (w : World) (ctx : Context) (st : State) (l : string),
    files w (clock st) (HostProcWithContext w ctx ["uptime"])
    = FileData (unlines [l]) ->
    noNewline l = true ->
    Strings.Fields l = [] ->
    (isGuestOf "lxc" (virtualization w) = true
     \/ isGuestOf "docker" (virtualization w) = true
     \/ exists t, readBootTimeStat w ctx (clock st) = Ok t) ->
    fst (BootTimeWithContext w ctx st false) = Panic (IndexOutOfRange 0 0).
Proof.
  intros w ctx st l Hf Hl HF Hreach.
  assert (HU : bootTimeFromUptime w ctx st false
               = (Panic (IndexOutOfRange 0 0), st)).
  { unfold bootTimeFromUptime.
    rewrite (ReadLines_unlines w (clock st) _ [l] Hf)
      by (repeat constructor; exact Hl).
    cbn [List.length Nat.eqb negb index nth_error bind]. rewrite HF.
    reflexivity. }
  unfold BootTimeWithContext. cbn [andb].
  destruct (isGuestOf "lxc" (virtualization w)) eqn:E1;
    [rewrite HU; reflexivity|].
  destruct (isGuestOf "docker" (virtualization w)) eqn:E2;
    [rewrite HU; reflexivity|].
  destruct Hreach as [H|[H|[t H]]]; try discriminate.
  rewrite H, HU. reflexivity.
Qed.

Lemma BootTimeWithContext_blank_uptime_panics_witness :
  fst (BootTimeWithContext blankUptimeWorld Background state0 false)
  = Panic (IndexOutOfRange 0 0).
Proof.
  refine (BootTimeWithContext_blank_uptime_panics blankUptimeWorld Background
            state0 "   " eq_refl eq_refl eq_refl _).
  right. left. reflexivity.
Defined.

(** ** The os-release file *)

Lemma get_last (s : string) (c : ascii) :
  String.get (String.length s) (s ++ String c EmptyString) = Some c.
Proof. induction s as [|x s IH]; simpl; auto. Qed.

Lemma substring_prefix (s t : string) :
  substring 0 (String.length s) (s ++ t) = s.
Proof.
  induction s as [|x s IH]; simpl.
  - destruct t; reflexivity.
  - now rewrite IH.
Qed.

Lemma length_append (s t : string) :
  String.length (s ++ t) = (String.length s + String.length t)%nat.
Proof. induction s as [|x s IH]; simpl; auto. Qed.

(** X9.  [trimQuotes] undoes a pair of surrounding double quotes, and
    leaves alone a string that does not start with one. *)
Theorem trimQuotes_unquotes :
  (forall s : string,
      trimQuotes (String quote (s ++ String quote EmptyString)) = s)
  /\ (forall (c : ascii) (s : string),
         Strings.code c <> Strings.code quote ->
         trimQuotes (String c s) = String c s)
  /\ trimQuotes (String quote EmptyString) = String quote EmptyString.
Proof.
  split; [|split].
  - intros s. unfold trimQuotes, Strings.len.
    cbn [String.length String.get]. rewrite length_append.
    cbn [String.length].
    replace (2 <=? Z.of_nat (S (String.length s + 1))) with true
      by (symmetry; apply Z.leb_le; lia).
    replace (S (String.length s + 1) - 1)%nat with (S (String.length s))
      by lia.
    cbn [String.get].
    replace (String.length s + 1 - 0)%nat with (String.length s + 1)%nat
      by lia.
    replace (S (String.length s + 1) - 2)%nat with (String.length s) by lia.
    cbn [Nat.sub].
    rewrite get_last. rewrite Z.eqb_refl. cbn [andb substring].
    apply substring_prefix.
  - intros c s Hc. unfold trimQuotes.
    destruct (2 <=? Strings.len (String c s)); [|reflexivity].
    change (String.get 0 (String c s)) with (Some c).
    destruct (String.get (String.length (String c s) - 1) (String c s));
      [|reflexivity].
    replace (Strings.code c =? Strings.code quote) with false
      by (symmetry; apply Z.eqb_neq; exact Hc).
    reflexivity.
  - reflexivity.
Qed.

Lemma trimQuotes_unquotes_witness :
  trimQuotes "coreos" = "coreos".
Proof.
  refine (proj1 (proj2 trimQuotes_unquotes) "c"%char "oreos" _).
  vm_compute. discriminate.
Defined.







(** ** Virtualization *)

(** X11.  The first virtualization lookup stores what it detects, and
    every later lookup returns that pair without looking at the files
    again, whatever they have become. *)
Theorem VirtualizationWithContext_cached_forever :
  forall (w : World) (ctx : Context) (now : Z),
    let '(sr, c) := VirtualizationWithContext w ctx now freshVirtCache in
    sr = detectVirtualization w ctx now
    /\ cachedVirtMap c = Some sr
    /\ forall (w' : World) (ctx' : Context) (now' : Z),
        VirtualizationWithContext w' ctx' now' c = (sr, c).
Proof.
  intros w ctx now. unfold VirtualizationWithContext, freshVirtCache.
  cbn [cachedVirtMap cachedVirtOnce].
  split; [reflexivity|]. split; [reflexivity|].
  intros w' ctx' now'. reflexivity.
Qed.

Ltac virt_cases :=
  repeat match goal with
         | |- context [match ReadLines ?w ?n ?f with _ => _ end] =>
             destruct (ReadLines w n f) as [? [?|]]
         | |- context [match ReadFile ?w ?n ?f with _ => _ end] =>
             destruct (ReadFile w n f)
         | |- context [if ?b then _ else _] => destruct b
         end.

Ltac virt_valid :=
  split; cbn [fst snd]; first [assumption | (simpl; auto 20)].

Lemma virtXen_valid w ctx now sr :
  validVirt sr -> validVirt (virtXen w ctx now sr).
Proof. intros [Hs Hr]. unfold virtXen. virt_cases; virt_valid. Qed.

Lemma virtModules_valid w ctx now sr :
  validVirt sr -> validVirt (virtModules w ctx now sr).
Proof. intros [Hs Hr]. unfold virtModules. virt_cases; virt_valid. Qed.

Lemma virtCpuinfo_valid w ctx now sr :
  validVirt sr -> validVirt (virtCpuinfo w ctx now sr).
Proof. intros [Hs Hr]. unfold virtCpuinfo. virt_cases; virt_valid. Qed.

Lemma virtPci_valid w ctx now sr :
  validVirt sr -> validVirt (virtPci w ctx now sr).
Proof. intros [Hs Hr]. unfold virtPci. virt_cases; virt_valid. Qed.

Lemma virtOpenvz_valid w ctx now sr :
  validVirt sr -> validVirt (virtOpenvz w ctx now sr).
Proof. intros [Hs Hr]. unfold virtOpenvz. virt_cases; virt_valid. Qed.

Lemma virtVserver_valid w ctx now sr :
  validVirt sr -> validVirt (virtVserver w ctx now sr).
Proof. intros [Hs Hr]. unfold virtVserver. virt_cases; virt_valid. Qed.

Lemma virtEnviron_valid w ctx now sr :
  validVirt sr -> validVirt (virtEnviron w ctx now sr).
Proof. intros [Hs Hr]. unfold virtEnviron. virt_cases; virt_valid. Qed.

Lemma virtCgroup_valid w ctx now sr :
  validVirt sr -> validVirt (virtCgroup w ctx now sr).
Proof. intros [Hs Hr]. unfold virtCgroup. virt_cases; virt_valid. Qed.

Lemma virtOsRelease_valid w ctx now sr :
  validVirt sr -> validVirt (virtOsRelease w ctx now sr).
Proof. intros [Hs Hr]. unfold virtOsRelease. virt_cases; virt_valid. Qed.

Lemma virtDockerenv_valid w ctx now sr :
  validVirt sr -> validVirt (virtDockerenv w ctx now sr).
Proof. intros [Hs Hr]. unfold virtDockerenv. virt_cases; virt_valid. Qed.

(** X12.  Whatever the files hold, a first lookup reports a role that is
    empty, "guest" or "host", and a system that is empty or one of the ten
    names the function knows. *)
Theorem VirtualizationWithContext_range :
  forall (w : World) (ctx : Context) (now : Z),
    In (fst (fst (VirtualizationWithContext w ctx now freshVirtCache)))
       virtSystems
    /\ In (snd (fst (VirtualizationWithContext w ctx now freshVirtCache)))
          virtRoles.
Proof.
  intros w ctx now. change (validVirt (detectVirtualization w ctx now)).
  unfold detectVirtualization.
  apply virtDockerenv_valid, virtOsRelease_valid, virtCgroup_valid,
    virtEnviron_valid, virtVserver_valid, virtOpenvz_valid, virtPci_valid,
    virtCpuinfo_valid, virtModules_valid, virtXen_valid.
  split; simpl; auto.
Qed.

Ltac virt_other :=
  cbn [fst]; first [assumption | (simpl; auto 20)].

Lemma virtXen_other w ctx now sr :
  In (fst sr) otherSystems -> In (fst (virtXen w ctx now sr)) otherSystems.
Proof. intros Hs. unfold virtXen. virt_cases; virt_other. Qed.

Lemma virtModules_other w ctx now sr :
  In (fst sr) otherSystems -> In (fst (virtModules w ctx now sr)) otherSystems.
Proof. intros Hs. unfold virtModules. virt_cases; virt_other. Qed.

Lemma virtCpuinfo_other w ctx now sr :
  In (fst sr) otherSystems -> In (fst (virtCpuinfo w ctx now sr)) otherSystems.
Proof. intros Hs. unfold virtCpuinfo. virt_cases; virt_other. Qed.

Lemma virtPci_other w ctx now sr :
  In (fst sr) otherSystems -> In (fst (virtPci w ctx now sr)) otherSystems.
Proof. intros Hs. unfold virtPci. virt_cases; virt_other. Qed.

Lemma virtOpenvz_other w ctx now sr :
  In (fst sr) otherSystems -> In (fst (virtOpenvz w ctx now sr)) otherSystems.
Proof. intros Hs. unfold virtOpenvz. virt_cases; virt_other. Qed.

Lemma virtVserver_other w ctx now sr :
  In (fst sr) otherSystems -> In (fst (virtVserver w ctx now sr)) otherSystems.
Proof. intros Hs. unfold virtVserver. virt_cases; virt_other. Qed.

Lemma virtOsRelease_other w ctx now sr :
  In (fst sr) otherSystems ->
  In (fst (virtOsRelease w ctx now sr)) otherSystems.
Proof. intros Hs. unfold virtOsRelease. virt_cases; virt_other. Qed.

(** X13.  The marker file .dockerenv at the root decides alone: when it
    exists a first lookup reports a docker guest whatever else is found.
    And when neither it nor the environ file of process 1 nor the cgroup
    file of the process exists, the lookup reports neither lxc nor docker,
    so the host is not taken for such a guest. *)
Theorem VirtualizationWithContext_containers :
  forall (w : World) (ctx : Context) (now : Z),
    (PathExists w now (HostRootWithContext w ctx [".dockerenv"]) = true ->
     fst (VirtualizationWithContext w ctx now freshVirtCache)
     = ("docker", "guest"))
    /\ (PathExists w now (HostRootWithContext w ctx [".dockerenv"]) = false ->
        PathExists w now (HostProcWithContext w ctx [] ++ ["1"; "environ"])
        = false ->
        PathExists w now (HostProcWithContext w ctx [] ++ ["self"; "cgroup"])
        = false ->
        isGuestOf "lxc"
          (fst (VirtualizationWithContext w ctx now freshVirtCache)) = false
        /\ isGuestOf "docker"
             (fst (VirtualizationWithContext w ctx now freshVirtCache))
           = false).
Proof.
  intros w ctx now.
  change (fst (VirtualizationWithContext w ctx now freshVirtCache))
    with (detectVirtualization w ctx now).
  unfold detectVirtualization. split.
  - intros H. unfold virtDockerenv at 1. rewrite H. reflexivity.
  - intros H1 H2 H3.
    unfold virtDockerenv at 1. unfold virtDockerenv at 1. rewrite H1.
    set (sr := virtVserver w ctx now _).
    assert (Hsr : In (fst sr) otherSystems).
    { apply virtVserver_other, virtOpenvz_other, virtPci_other,
        virtCpuinfo_other, virtModules_other, virtXen_other.
      simpl. auto. }
    unfold virtCgroup at 1. unfold virtCgroup at 1. rewrite H3.
    unfold virtEnviron at 1. unfold virtEnviron at 1. rewrite H2.
    apply (virtOsRelease_other w ctx now) in Hsr.
    unfold isGuestOf.
    destruct (virtOsRelease w ctx now sr) as [s r]. cbn [fst snd] in *.
    simpl in Hsr.
    repeat (destruct Hsr as [Hsr|Hsr]; [subst s; split; reflexivity|]).
    contradiction.
Qed.

Lemma VirtualizationWithContext_containers_witness :
  fst (VirtualizationWithContext dockerWorld Background 0 freshVirtCache)
  = ("docker", "guest")
  /\ isGuestOf "docker"
       (fst (VirtualizationWithContext hostWorld Background 0 freshVirtCache))
     = false.
Proof.
  split.
  - exact (proj1 (VirtualizationWithContext_containers dockerWorld
                    Background 0) eq_refl).
  - exact (proj2 (proj2 (VirtualizationWithContext_containers hostWorld
                           Background 0) eq_refl eq_refl eq_refl)).
Defined.

(** ** The percentage engine, continued *)

(** X14.  Interval mode never touches the last-sample cache: after a call
    with a positive interval only the clock of the state has changed.
    Without cancellation the clock has advanced by the interval; a context
    cancelled before the interval is over makes the call fail with the
    context's error. *)
Theorem PercentWithContext_interval_keeps_cache :
  forall (w : World) (ctx : Context) (st : State) (interval : Z)
         (percpu : bool),
    0 < interval ->
    (exists t, snd (PercentWithContext w ctx st interval percpu)
               = setClock st t)
    /\ (ctxDone ctx = None ->
        snd (PercentWithContext w ctx st interval percpu)
        = setClock st (clock st + interval))
    /\ (forall d, ctxDone ctx = Some d -> d < clock st + interval ->
                  fst (PercentWithContext w ctx st interval percpu)
                  = Err ErrContext).
Proof.
  intros w ctx st interval percpu Hi. unfold PercentWithContext.
  replace (interval <=? 0) with false by (symmetry; apply Z.leb_gt; lia).
  destruct (TimesWithContext_Ok w ctx st percpu) as [s1 ->].
  unfold Sleep. destruct (ctxDone ctx) as [d|].
  - destruct (Z.ltb_spec d (clock st + interval)) as [Hd|Hd].
    + cbn [fst snd]. split; [eauto|]. split; [discriminate|reflexivity].
    + destruct (TimesWithContext_Ok w ctx
                  (setClock st (clock st + interval)) percpu) as [s2 ->].
      cbn [fst snd]. split; [eauto|]. split; [discriminate|].
      intros d' Hd' Hlt. inversion Hd'; subst. lia.
  - destruct (TimesWithContext_Ok w ctx
                (setClock st (clock st + interval)) percpu) as [s2 ->].
    cbn [fst snd]. split; [eauto|]. split; [reflexivity|discriminate].
Qed.

Lemma PercentWithContext_interval_keeps_cache_witness :
  snd (PercentWithContext hostWorld Background state0 1000 true)
  = setClock state0 (clock state0 + 1000)
  /\ fst (PercentWithContext hostWorld cancelledContext state0 1000 false)
     = Err ErrContext.
Proof.
  split.
  - refine (proj1 (proj2 (PercentWithContext_interval_keeps_cache hostWorld
                            Background state0 1000 true _)) eq_refl). lia.
  - refine (proj2 (proj2 (PercentWithContext_interval_keeps_cache hostWorld
                            cancelledContext state0 1000 false _))
              1700000500000000500 eq_refl _).
    + lia.
    + vm_compute. reflexivity.
Defined.

Lemma leb_refl (x : F64.t) : F64.is_nan x = false -> F64.leb x x = true.
Proof.
  unfold F64.leb, SFleb.
  destruct x as [s|s| |s m e]; try discriminate; intros _; simpl;
    try (destruct s; reflexivity).
  rewrite Z.compare_refl, Pos.compare_cont_refl. destruct s; reflexivity.
Qed.

Lemma calculateBusy_same (t : TimesStat) :
  F64.is_nan (busyOf t) = false -> calculateBusy t t = F64.zero.
Proof.
  intros H. rewrite calculateBusy_unfold, (leb_refl _ H). reflexivity.
Qed.

Lemma busyLoop_same (s : list TimesStat) :
  Forall (fun t => F64.is_nan (busyOf t) = false) s ->
  busyLoop s s = map (fun _ => F64.zero) s.
Proof.
  induction 1 as [|t s Ht _ IH]; simpl; [reflexivity|].
  rewrite (calculateBusy_same t Ht), IH. reflexivity.
Qed.

(** X15.  In since-last-call mode, when the sample read now is the one
    the slot holds (the counters have not moved) and no busy time in it is
    NaN, the call returns 0 for every element. *)
Theorem since_last_call_static_counters :
  forall (w : World) (ctx : Context) (st : State) (interval : Z)
         (percpu : bool) (sample : list TimesStat),
    interval <= 0 ->
    slot percpu st = Some sample ->
    TimesWithContext w ctx st percpu = Ok sample ->
    Forall (fun t => F64.is_nan (busyOf t) = false) sample ->
    fst (PercentWithContext w ctx st interval percpu)
    = Ok (map (fun _ => F64.zero) sample).
Proof.
  intros w ctx st interval percpu sample Hi Hslot Hs Hn.
  unfold PercentWithContext.
  replace (interval <=? 0) with true by (symmetry; apply Z.leb_le; lia).
  unfold percentUsedFromLastCallWithContext. rewrite Hs.
  unfold slot in Hslot. rewrite Hslot. cbn [fst].
  unfold calculateAllBusy. rewrite Nat.eqb_refl. cbn [negb].
  now rewrite busyLoop_same.
Qed.

Lemma since_last_call_static_counters_witness :
  fst (PercentWithContext perCoreWorld Background
         (init perCoreWorld state0) 0 true)
  = Ok [F64.zero; F64.zero].
Proof.
  refine (since_last_call_static_counters perCoreWorld Background
            (init perCoreWorld state0) 0 true
            [mkTimesStat "cpu0"
               (F64.of_decimal false 5 (-1)) (F64.of_decimal false 25 (-2))
               (F64.of_Z 4) F64.zero (F64.of_decimal false 5 (-2))
               F64.zero F64.zero F64.zero F64.zero F64.zero;
             mkTimesStat "cpu1"
               (F64.of_decimal false 5 (-1)) (F64.of_decimal false 25 (-2))
               (F64.of_Z 4) F64.zero (F64.of_decimal false 5 (-2))
               F64.zero F64.zero F64.zero F64.zero F64.zero] _ _ _ _).
  - lia.
  - vm_compute. reflexivity.
  - vm_compute. reflexivity.
  - repeat constructor.
Defined.

(** X16.  The percentages are paired by position: element [i] of the
    result is [calculateBusy] of the elements [i] of the two sequences,
    and the result is as long as they are. *)
Theorem calculateAllBusy_by_position :
  forall (t1 t2 : list TimesStat) (rv : list F64.t),
    calculateAllBusy t1 t2 = Ok rv ->
    List.length rv = List.length t2
    /\ forall (i : nat) (a b : TimesStat),
        nth_error t1 i = Some a -> nth_error t2 i = Some b ->
        nth_error rv i = Some (calculateBusy a b).
Proof.
  intros t1 t2 rv. unfold calculateAllBusy.
  destruct (Nat.eqb (List.length t1) (List.length t2)) eqn:E;
    [|discriminate].
  apply Nat.eqb_eq in E. cbn [negb]. intros H. inversion H; subst; clear H.
  split; [now apply busyLoop_length|].
  clear E. revert t2. induction t1 as [|x t1 IH]; intros t2 i a b H1 H2.
  - destruct i; discriminate.
  - destruct t2 as [|y t2]; [destruct i; discriminate|].
    destruct i as [|i]; simpl in *.
    + inversion H1; inversion H2; subst. reflexivity.
    + eapply IH; eassumption.
Qed.

Lemma calculateAllBusy_by_position_witness :
  nth_error
    (match calculateAllBusy [userFive; idleTen] [idleTen; userFive] with
     | Ok rv => rv
     | _ => []
     end) 1
  = Some (calculateBusy idleTen userFive).
Proof.
  refine (proj2 (calculateAllBusy_by_position [userFive; idleTen]
                   [idleTen; userFive] _ eq_refl) 1%nat idleTen userFive
            eq_refl eq_refl).
Defined.

(** ** The sampler, continued *)

Lemma parseStatLine_label_prefix (cps : F64.t) (line : string)
      (ct : TimesStat) :
  parseStatLine cps line = Ok ct -> Strings.HasPrefix (CPU ct) "cpu" = true.
Proof.
  intros H. destruct (parseStatLine_label cps line ct H)
    as (f0 & rest & _ & Hp & HC).
  rewrite HC. destruct (String.eqb f0 "cpu"); [reflexivity|exact Hp].
Qed.

Lemma parseLines_invariants (cps : F64.t) (lines : list string)
      (ret : list TimesStat) :
  parseLines cps lines = Ok ret ->
  (List.length ret <= List.length lines)%nat
  /\ Forall (fun ct => Strings.HasPrefix (CPU ct) "cpu" = true) ret.
Proof.
  revert ret. induction lines as [|line rest IH]; intros ret H; simpl in H.
  - inversion H; subst. split; [simpl; lia|constructor].
  - destruct (parseStatLine cps line) as [ct|e|p] eqn:E.
    + destruct (parseLines cps rest) as [r| |]; try discriminate.
      simpl in H. inversion H; subst.
      destruct (IH r eq_refl) as [Hl Hf]. split; [simpl; lia|].
      constructor; [exact (parseStatLine_label_prefix _ _ _ E)|exact Hf].
    + destruct (IH ret H) as [Hl Hf]. split; [simpl; lia|exact Hf].
    + discriminate.
Qed.

Lemma readFirstLine_length (w : World) (now : Z) (filename : list string) :
  (List.length (fst (ReadLinesOffsetN w now filename 0 1)) <= 1)%nat.
Proof.
  unfold ReadLinesOffsetN. destruct (files w now filename) as [content| |];
    [|simpl; lia|simpl; lia].
  destruct (splitLines EmptyString content) as [lines last]. cbn [fst].
  destruct lines as [|l ls]; cbn [readLinesLoop].
  - change ((0 <? toInt64 (1 + toInt64 0)) || (1 <? 0)) with true. cbv iota.
    destruct (Strings.isEmpty last); simpl; lia.
  - change ((0 <? toInt64 (1 + toInt64 0)) || (1 <? 0)) with true. cbv iota.
    change (0 <? toInt64 0) with false. cbv iota.
    destruct ls; cbn [readLinesLoop];
      change ((0 + 1 <? toInt64 (1 + toInt64 0)) || (1 <? 0)) with false;
      simpl; lia.
Qed.

(** X17.  Aggregate and per-core sampling never fail and never panic,
    whatever the counter file holds or whether it can be read: they return
    a sequence, possibly empty, in which every identifier starts with
    "cpu"; the aggregate sample has at most one element. *)
Theorem TimesWithContext_always_a_sequence :
  forall (w : World) (ctx : Context) (st : State) (percpu : bool),
    exists ret,
      TimesWithContext w ctx st percpu = Ok ret
      /\ Forall (fun ct => Strings.HasPrefix (CPU ct) "cpu" = true) ret
      /\ (percpu = false -> (List.length ret <= 1)%nat).
Proof.
  intros w ctx st percpu.
  destruct (TimesWithContext_Ok w ctx st percpu) as [ret H].
  exists ret. split; [exact H|].
  unfold TimesWithContext in H. destruct percpu.
  - split; [|discriminate].
    destruct (ReadLines w (clock st) _) as [statlines [e|]].
    + inversion H; subst. constructor.
    + destruct (Nat.ltb _ 2).
      * inversion H; subst. constructor.
      * exact (proj2 (parseLines_invariants _ _ _ H)).
  - destruct (parseLines_invariants _ _ _ H) as [Hl Hf].
    split; [exact Hf|]. intros _.
    pose proof (readFirstLine_length w (clock st)
                  (HostProcWithContext w ctx ["stat"])). lia.
Qed.

Lemma malformedOrOk_bind {A B} (x : outcome A) (f : A -> outcome B) :
  malformedOrOk x -> (forall a, malformedOrOk (f a)) ->
  malformedOrOk (bind x f).
Proof. destruct x; simpl; auto. Qed.

Lemma numFailure_malformedOrOk {A} (x : outcome A) :
  numFailure x -> malformedOrOk x.
Proof. destruct x as [a|[]|p]; simpl; auto; contradiction. Qed.

Lemma parseField_malformedOrOk (fields : list string) (i : nat) :
  (i < List.length fields)%nat ->
  malformedOrOk (f <- index fields i ;; Strconv.ParseFloat f).
Proof.
  intros H. destruct (index_Ok fields i H) as [a ->]. simpl.
  apply numFailure_malformedOrOk, ParseFloat_numFailure.
Qed.

Lemma parseOptional_malformedOrOk (cps : F64.t) (fields : list string)
      (i : nat) :
  malformedOrOk (if Nat.ltb i (List.length fields)
                 then (f <- index fields i ;; s <- Strconv.ParseFloat f ;;
                       Ok (F64.div s cps))
                 else Ok F64.zero).
Proof.
  destruct (Nat.ltb i (List.length fields)) eqn:E; [|exact I].
  apply Nat.ltb_lt in E. destruct (index_Ok fields i E) as [a ->]. simpl.
  pose proof (ParseFloat_numFailure a) as H.
  destruct (Strconv.ParseFloat a) as [v|[]|p]; simpl in *; auto;
    contradiction.
Qed.

(** X18.  [parseStatLine] returns a record or an error of kind
    MalformedInput and never panics; a line of fewer than eight fields
    fails with "stat does not contain cpu info", and one of at least eight
    whose first field does not start with "cpu" with "not contain cpu". *)
Theorem parseStatLine_malformed_input :
  forall (cps : F64.t) (line : string),
    malformedOrOk (parseStatLine cps line)
    /\ ((List.length (Strings.Fields line) < 8)%nat ->
        parseStatLine cps line = Err ErrStatNoCPUInfo)
    /\ (forall f0 rest,
           Strings.Fields line = f0 :: rest ->
           (8 <= List.length (f0 :: rest))%nat ->
           Strings.HasPrefix f0 "cpu" = false ->
           parseStatLine cps line = Err ErrNotContainCPU).
Proof.
  intros cps line. split; [|split].
  - unfold parseStatLine.
    destruct (Nat.ltb (List.length (Strings.Fields line)) 8) eqn:E;
      [reflexivity|].
    apply Nat.ltb_ge in E.
    destruct (index_Ok (Strings.Fields line) 0) as [f0 ->]; [lia|]. simpl.
    destruct (negb _); [reflexivity|].
    repeat (apply malformedOrOk_bind;
            [ first [ apply parseField_malformedOrOk; lia
                    | apply parseOptional_malformedOrOk ]
            | intros ? ]).
    exact I.
  - intros H. unfold parseStatLine.
    apply Nat.ltb_lt in H. rewrite H. reflexivity.
  - intros f0 rest HF HL Hp. unfold parseStatLine. rewrite HF.
    replace (Nat.ltb (List.length (f0 :: rest)) 8) with false
      by (symmetry; apply Nat.ltb_ge; exact HL).
    cbn [index nth_error bind]. rewrite Hp. reflexivity.
Qed.

Lemma parseStatLine_malformed_input_witness :
  parseStatLine F64.hundred "cpu 1 2 3" = Err ErrStatNoCPUInfo
  /\ parseStatLine F64.hundred "intr 1 2 3 4 5 6 7" = Err ErrNotContainCPU.
Proof.
  split.
  - refine (proj1 (proj2 (parseStatLine_malformed_input F64.hundred
                            "cpu 1 2 3")) _).
    vm_compute. lia.
  - refine (proj2 (proj2 (parseStatLine_malformed_input F64.hundred
                            "intr 1 2 3 4 5 6 7"))
              "intr" ["1"; "2"; "3"; "4"; "5"; "6"; "7"] eq_refl _ eq_refl).
    simpl. lia.
Defined.

(** X19.  The three optional counters are 0 when the line has exactly the
    eight required fields: their absence is not an error. *)
Theorem parseStatLine_optional_counters :
  forall (cps : F64.t) (line : string) (ct : TimesStat),
    List.length (Strings.Fields line) = 8%nat ->
    parseStatLine cps line = Ok ct ->
    Steal ct = F64.zero /\ Guest ct = F64.zero /\ GuestNice ct = F64.zero.
Proof.
  intros cps line ct HL. unfold parseStatLine. rewrite HL.
  cbn [Nat.ltb Nat.leb].
  destruct (index (Strings.Fields line) 0) as [f0| |]; try discriminate.
  cbn [bind]. destruct (negb _); [discriminate|].
  intros H. invert_binds.
  repeat match goal with
         | H : Ok _ = Ok _ |- _ => inversion H; subst; clear H
         end.
  cbn [Steal Guest GuestNice]. auto.
Qed.

Lemma parseStatLine_optional_counters_witness :
  exists ct, parseStatLine F64.hundred "cpu 100 0 50 800 10 0 0" = Ok ct
             /\ Steal ct = F64.zero.
Proof.
  eexists. split; [vm_compute; reflexivity|].
  refine (proj1 (parseStatLine_optional_counters F64.hundred
                   "cpu 100 0 50 800 10 0 0" _ _ _));
    vm_compute; reflexivity.
Defined.

Lemma init_hasBaseline (w : World) (st : State) : hasBaseline (init w st).
Proof.
  unfold hasBaseline, init, Times.
  destruct (TimesWithContext_Ok w Background st false) as [a ->].
  destruct (TimesWithContext_Ok w Background
              (setLastCPUTimes st (Some a)) true) as [b ->].
  exists a, b. split; reflexivity.
Qed.

(** A percentage request on a state with a baseline does not fail for want
    of one, and the state it leaves has a baseline again. *)
Lemma PercentWithContext_baseline (w : World) (ctx : Context) (st : State)
      (interval : Z) (percpu : bool) :
  hasBaseline st ->
  fst (PercentWithContext w ctx st interval percpu) <> Err ErrLastTimesNil
  /\ hasBaseline (snd (PercentWithContext w ctx st interval percpu)).
Proof.
  intros (a & b & Ha & Hb). unfold PercentWithContext.
  destruct (interval <=? 0).
  - unfold percentUsedFromLastCallWithContext.
    destruct (TimesWithContext_Ok w ctx st percpu) as [s ->].
    destruct percpu; rewrite ?Ha, ?Hb; cbn [fst snd]; split;
      try (unfold calculateAllBusy; destruct (negb _); discriminate).
    + exists a, s. split; [exact Ha|reflexivity].
    + exists s, b. split; [reflexivity|exact Hb].
  - destruct (TimesWithContext_Ok w ctx st percpu) as [s1 ->].
    assert (HS : hasBaseline (snd (Sleep ctx st interval))).
    { unfold Sleep. destruct (ctxDone ctx) as [d|];
        [destruct (d <? _)|]; cbn [snd]; exists a, b; split; assumption. }
    assert (HE : forall e, fst (Sleep ctx st interval) = Err e ->
                           e <> ErrLastTimesNil).
    { unfold Sleep. intros e. destruct (ctxDone ctx) as [d|];
        [destruct (d <? _)|]; cbn [fst]; intros H; inversion H;
        discriminate. }
    destruct (Sleep ctx st interval) as [[u|e|p] st1]; cbn [fst snd] in *.
    + destruct (TimesWithContext_Ok w ctx st1 percpu) as [s2 ->].
      cbn [fst snd]. split; [|exact HS].
      unfold calculateAllBusy. destruct (negb _); discriminate.
    + split; [|exact HS]. intros H. inversion H.
      exact (HE e eq_refl ltac:(assumption)).
    + split; [discriminate|exact HS].
Qed.

Lemma requests_baseline (rs : list request) :
  forall st, hasBaseline st ->
    Forall (fun res => res <> Err ErrLastTimesNil) (requests st rs).
Proof.
  induction rs as [|r rs IH]; intros st Hb; cbn [requests];
    [constructor|].
  assert (Hc : hasBaseline (setClock st (rq_at r))).
  { destruct Hb as (a & b & Ha & Hb). exists a, b. split; assumption. }
  pose proof (PercentWithContext_baseline (rq_world r) (rq_ctx r)
                (setClock st (rq_at r)) (rq_interval r) (rq_percpu r) Hc)
    as [Hres Hst].
  destruct (PercentWithContext (rq_world r) (rq_ctx r)
              (setClock st (rq_at r)) (rq_interval r) (rq_percpu r))
    as [res st'].
  cbn [fst snd] in *. constructor; [exact Hres|exact (IH st' Hst)].
Qed.

(** X20.  After the package initialiser both slots hold a sample, and no
    later percentage request fails for want of a baseline: in every
    sequence of requests made from then on, each one running on the state
    left by the one before it, in any world and context, at any instant,
    in either mode and for any interval, no request returns the
    nil-baseline error. *)
Theorem init_provides_baseline :
  forall (w : World) (st : State),
    hasBaseline (init w st)
    /\ forall rs : list request,
        Forall (fun res => res <> Err ErrLastTimesNil)
               (requests (init w st) rs).
Proof.
  intros w st. split; [apply init_hasBaseline|].
  intros rs. apply requests_baseline, init_hasBaseline.
Qed.

(** ** Process sampling, continued *)

Lemma indexFrom_first (a r : string) (b : ascii) :
  noByte b a = true ->
  forall i, Strings.indexFrom i (a ++ String b r) b = i + Strings.len a.
Proof.
  unfold Strings.len.
  induction a as [|c a IH]; intros H i; simpl.
  - rewrite Z.eqb_refl. lia.
  - simpl in H. apply andb_true_iff in H as [Hc Ha].
    destruct (Strings.code c =? Strings.code b); [discriminate|].
    rewrite (IH Ha). lia.
Qed.

Lemma lastIndexFrom_noByte (s : string) (b : ascii) :
  noByte b s = true ->
  forall i found, Strings.lastIndexFrom i found s b = found.
Proof.
  induction s as [|c s IH]; intros H i found; simpl; [reflexivity|].
  simpl in H. apply andb_true_iff in H as [Hc Hs].
  destruct (Strings.code c =? Strings.code b); [discriminate|].
  now apply IH.
Qed.

Lemma lastIndexFrom_last (x t : string) (b : ascii) :
  noByte b t = true ->
  forall i found,
    Strings.lastIndexFrom i found (x ++ String b t) b = i + Strings.len x.
Proof.
  unfold Strings.len. intros Ht.
  induction x as [|c x IH]; intros i found; simpl.
  - rewrite Z.eqb_refl, (lastIndexFrom_noByte t b Ht). lia.
  - rewrite IH. lia.
Qed.

Lemma substring_middle (x y z : string) :
  substring (String.length x) (String.length y) (x ++ y ++ z) = y.
Proof.
  induction x as [|c x IH]; simpl; [apply substring_prefix|exact IH].
Qed.

Lemma substring_suffix (x y : string) :
  substring (String.length x) (String.length y) (x ++ y) = y.
Proof.
  pose proof (substring_middle x y EmptyString) as H.
  replace (y ++ EmptyString)%string with y in H; [exact H|].
  clear H. induction y as [|c y IH]; simpl; congruence.
Qed.

Lemma len_append (s t : string) :
  Strings.len (s ++ t) = Strings.len s + Strings.len t.
Proof. unfold Strings.len. rewrite length_append. lia. Qed.

Lemma len_String (c : ascii) (s : string) :
  Strings.len (String c s) = 1 + Strings.len s.
Proof. unfold Strings.len. cbn [String.length]. lia. Qed.

Lemma len_nonneg (s : string) : 0 <= Strings.len s.
Proof. unfold Strings.len. lia. Qed.

Lemma append_nil_r (s : string) : (s ++ EmptyString)%string = s.
Proof. induction s as [|c s IH]; simpl; congruence. Qed.

Ltac len_norm :=
  repeat first [rewrite len_append | rewrite len_String];
  change (Strings.len EmptyString) with 0.

(** The slice that takes [y] out of [x ++ y ++ z]. *)
Lemma slice_middle (x y z : string) (lo hi : Z) :
  lo = Strings.len x -> hi = Strings.len x + Strings.len y ->
  Strings.slice (x ++ y ++ z) lo hi = Ok y.
Proof.
  intros -> ->. unfold Strings.slice.
  pose proof (len_nonneg x). pose proof (len_nonneg y).
  pose proof (len_nonneg z).
  replace ((0 <=? Strings.len x)
           && (Strings.len x <=? Strings.len x + Strings.len y)
           && (Strings.len x + Strings.len y <=? Strings.len (x ++ y ++ z)))
    with true
    by (symmetry; rewrite !len_append, !andb_true_iff, !Z.leb_le; lia).
  f_equal.
  replace (Z.to_nat (Strings.len x)) with (String.length x)
    by (unfold Strings.len; lia).
  replace (Z.to_nat (Strings.len x + Strings.len y - Strings.len x))
    with (String.length y) by (unfold Strings.len; lia).
  apply substring_middle.
Qed.

(** X21.  [splitProcStat] cuts a record at its first opening and its last
    closing parenthesis: the name is everything between them, parentheses
    and blanks included; the byte after the closing parenthesis is dropped
    unread, and the rest is split into fields.  A record that ends with
    the closing parenthesis panics. *)
Theorem splitProcStat_name_between_parentheses :
  forall (a name t : string) (c : ascii),
    noByte "("%char a = true ->
    noByte ")"%char (String c t) = true ->
    splitProcStat (a ++ "(" ++ name ++ ")" ++ String c t)
    = Ok ("" :: Strings.TrimSpace a :: name :: Strings.Fields t)
    /\ exists p, splitProcStat (a ++ "(" ++ name ++ ")") = Panic p.
Proof.
  intros a name t c Ha Ht.
  pose proof (len_nonneg a). pose proof (len_nonneg name).
  pose proof (len_nonneg t).
  split.
  - unfold splitProcStat.
    set (content := (a ++ "(" ++ name ++ ")" ++ String c t)%string).
    assert (HI : Strings.IndexByte content "(" = Strings.len a).
    { unfold Strings.IndexByte, content.
      change (a ++ "(" ++ name ++ ")" ++ String c t)%string
        with (a ++ String "(" (name ++ String ")" (String c t)))%string.
      rewrite (indexFrom_first a _ "(" Ha). lia. }
    assert (HL : Strings.LastIndexByte content ")"
                 = Strings.len a + 1 + Strings.len name).
    { unfold Strings.LastIndexByte, content.
      replace (a ++ "(" ++ name ++ ")" ++ String c t)%string
        with ((a ++ String "(" name) ++ String ")" (String c t))%string
        by (rewrite append_assoc; reflexivity).
      rewrite (lastIndexFrom_last _ (String c t) ")" Ht).
      len_norm. lia. }
    assert (Hlen : Strings.len content
                   = Strings.len a + 1 + Strings.len name + 2
                     + Strings.len t).
    { unfold content.
      change (a ++ "(" ++ name ++ ")" ++ String c t)%string
        with (a ++ String "(" (name ++ String ")" (String c t)))%string.
      len_norm. lia. }
    rewrite HI, HL.
    assert (E1 : Strings.slice content
                   (Strings.len a + 1 + Strings.len name + 2)
                   (Strings.len content) = Ok t).
    { replace content
        with ((a ++ String "(" (name ++ String ")" (String c EmptyString)))
              ++ t ++ EmptyString)%string
        by (unfold content; rewrite append_nil_r, !append_assoc;
            simpl; rewrite !append_assoc; reflexivity).
      apply slice_middle; len_norm; lia. }
    assert (E2 : Strings.slice content (Strings.len a + 1)
                   (Strings.len a + 1 + Strings.len name) = Ok name).
    { replace content
        with ((a ++ String "(" EmptyString) ++ name
              ++ String ")" (String c t))%string
        by (unfold content; rewrite !append_assoc; reflexivity).
      apply slice_middle; len_norm; lia. }
    assert (E3 : Strings.slice content 0 (Strings.len a) = Ok a).
    { change content
        with (EmptyString ++ a ++ "(" ++ name ++ ")" ++ String c t)%string.
      apply slice_middle; len_norm; lia. }
    rewrite E1. cbn [bind]. rewrite E2. cbn [bind]. rewrite E3.
    reflexivity.
  - unfold splitProcStat.
    set (content := (a ++ "(" ++ name ++ ")")%string).
    assert (HL : Strings.LastIndexByte content ")"
                 = Strings.len a + 1 + Strings.len name).
    { unfold Strings.LastIndexByte, content.
      replace (a ++ "(" ++ name ++ ")")%string
        with ((a ++ String "(" name) ++ String ")" EmptyString)%string
        by (rewrite append_assoc; reflexivity).
      rewrite (lastIndexFrom_last _ EmptyString ")" eq_refl).
      len_norm. lia. }
    assert (Hlen : Strings.len content
                   = Strings.len a + 1 + Strings.len name + 1).
    { unfold content.
      change (a ++ "(" ++ name ++ ")")%string
        with (a ++ String "(" (name ++ String ")" EmptyString))%string.
      len_norm. lia. }
    rewrite HL. unfold Strings.slice at 1.
    replace ((0 <=? Strings.len a + 1 + Strings.len name + 2)
             && (Strings.len a + 1 + Strings.len name + 2
                 <=? Strings.len content)
             && (Strings.len content <=? Strings.len content)) with false
      by (symmetry; rewrite Hlen, !andb_false_iff, !Z.leb_gt; lia).
    cbn [bind]. eauto.
Qed.

Lemma splitProcStat_name_between_parentheses_witness :
  splitProcStat "7 (a) b) (c) S 1 2"
  = Ok [""; "7"; "a) b) (c"; "S"; "1"; "2"].
Proof.
  refine (proj1 (splitProcStat_name_between_parentheses "7 " "a) b) (c"
                   "S 1 2" " " eq_refl eq_refl)).
Defined.

(** ** Signs of rounded floats *)

Lemma binary_round_aux_sign (s : bool) (m e : Z) (l : location) :
  0 <= m ->
  match binary_round_aux F64.prec F64.emax s m e l with
  | S754_zero s' | S754_infinity s' | S754_finite s' _ _ => s' = s
  | S754_nan => False
  end.
Proof.
  intros H. unfold binary_round_aux.
  pose proof (shr_fexp_nonneg m e l H) as H1.
  destruct (shr_fexp F64.prec F64.emax m e l) as [mrs' e']. simpl in H1.
  pose proof (shr_fexp_nonneg _ e' loc_Exact
                (round_nearest_even_nonneg _ (loc_of_shr_record mrs') H1))
    as H2.
  destruct (shr_fexp F64.prec F64.emax _ e' loc_Exact) as [mrs'' e''].
  simpl in H2. destruct (shr_m mrs''); try lia; [reflexivity|].
  destruct (e'' <=? _); reflexivity.
Qed.

Lemma binary_round_aux_nonPositive (m e : Z) (l : location) :
  0 <= m ->
  nonPositive (binary_round_aux F64.prec F64.emax true m e l) = true.
Proof.
  intros H. pose proof (binary_round_aux_sign true m e l H) as Hs.
  destruct (binary_round_aux F64.prec F64.emax true m e l);
    simpl; auto; contradiction.
Qed.

Lemma binary_round_nonPositive (m : positive) (e : Z) :
  nonPositive (binary_round F64.prec F64.emax true m e) = true.
Proof.
  unfold binary_round. destruct (shl_align m e _) as [mz ez].
  apply binary_round_aux_nonPositive. lia.
Qed.

Lemma of_Z_nonPositive (z : Z) : z <= 0 -> nonPositive (F64.of_Z z) = true.
Proof.
  intros H. unfold F64.of_Z, binary_normalize.
  destruct z as [|p|p]; [reflexivity|lia|].
  apply binary_round_nonPositive.
Qed.

Lemma div_second_nonPositive (x : F64.t) :
  nonPositive x = true ->
  nonPositive (F64.div x (F64.of_Z second)) = true.
Proof.
  intros Hx.
  assert (Hs : F64.of_Z second = S754_finite false 8388608000000000 (-23))
    by (vm_compute; reflexivity).
  rewrite Hs.
  destruct x as [s|s| |s m e]; simpl in Hx; try discriminate;
    try reflexivity; subst s; try reflexivity.
  unfold F64.div, SFdiv, SFdiv_core_binary.
  match goal with
  | |- context [Z.div_eucl ?a ?b] =>
      pose proof (Z.div_pos a b) as Hq;
      assert (Ha : 0 <= a);
      [|unfold Z.div in Hq; destruct (Z.div_eucl a b) as [q r]]
  end.
  - destruct (_ - _ - _); try lia. rewrite Z.shiftl_mul_pow2 by lia.
    apply Z.mul_nonneg_nonneg; [lia|]. apply Z.pow_nonneg. lia.
  - apply binary_round_aux_nonPositive. apply Hq; [exact Ha|lia].
Qed.

Lemma add_nonPositive (x y : F64.t) :
  nonPositive x = true -> nonPositive y = true ->
  nonPositive (F64.add x y) = true.
Proof.
  intros Hx Hy.
  destruct x as [sx|sx| |sx mx ex], y as [sy|sy| |sy my ey];
    simpl in Hx, Hy; try discriminate; subst;
    try reflexivity; try (destruct sx; reflexivity);
    try (destruct sy; reflexivity); try (destruct sx, sy; reflexivity).
  unfold F64.add, SFadd. cbn [cond_Zopp Z.opp Z.add].
  apply binary_round_nonPositive.
Qed.

Lemma nonPositive_leb_zero (x : F64.t) :
  nonPositive x = true -> F64.leb x F64.zero = true.
Proof.
  destruct x as [s|s| |s m e]; simpl; intros H; try discriminate;
    subst; reflexivity.
Qed.

Lemma quot_nonpos (d b : Z) : d <= 0 -> 0 < b -> Z.quot d b <= 0.
Proof.
  intros Hd Hb. replace d with (- (- d)) by lia.
  rewrite Z.quot_opp_l by lia.
  pose proof (Z.quot_pos (- d) b). lia.
Qed.

Lemma sinceSeconds_nonPositive (now nsec : Z) :
  now <= nsec -> F64.leb (sinceSeconds now nsec) F64.zero = true.
Proof.
  intros H. unfold sinceSeconds.
  set (d := Z.max (- 2 ^ 63) (Z.min (2 ^ 63 - 1) (now - nsec))).
  assert (Hd : d <= 0) by (subst d; lia).
  apply nonPositive_leb_zero, add_nonPositive.
  - apply of_Z_nonPositive, quot_nonpos; [exact Hd|reflexivity].
  - apply div_second_nonPositive, of_Z_nonPositive, Z.rem_nonpos;
      [discriminate|exact Hd].
Qed.

(** X22.  A process whose creation time is not before the clock (clock
    skew, or a call at the very instant of creation) has used 0 percent:
    the raw percentage is 0 and not an error, and so is the normalised
    one. *)
Theorem CPUPercent_zero_when_not_yet_created :
  forall (w : World) (st : State) (p : proc) (s : procStat),
    fillFromStatWithContext w Background st p = Ok s ->
    clock st <= toInt64 (ps_createTime s * millisecond) ->
    cpuPercent w st p = Ok F64.zero
    /\ CPUPercent w st p
       = Ok (F64.div F64.zero
               (F64.mul (F64.of_Z (Count (set p))) (F64.of_Z 100))).
Proof.
  intros w st p s Hs Hc.
  assert (H0 : cpuPercent w st p = Ok F64.zero).
  { rewrite (cpuPercent_formula w st p s Hs). cbv zeta.
    rewrite (sinceSeconds_nonPositive _ _ Hc). reflexivity. }
  split; [exact H0|]. unfold CPUPercent. rewrite H0. reflexivity.
Qed.

Lemma CPUPercent_zero_when_not_yet_created_witness :
  cpuPercent skewWorld state0 twoCores = Ok F64.zero.
Proof.
  assert (H : exists s, fillFromStatWithContext skewWorld Background
                          state0 twoCores = Ok s
                        /\ clock state0
                           <= toInt64 (ps_createTime s * millisecond)).
  { eexists. split; [vm_compute; reflexivity|].
    cbn [ps_createTime]. vm_compute. intros H. discriminate H. }
  destruct H as (s & Hs & Hc).
  exact (proj1 (CPUPercent_zero_when_not_yet_created skewWorld state0
                  twoCores s Hs Hc)).
Defined.

(** X23.  With an empty affinity set the division is by zero: the handle
    reports no error but a value that is not a finite number, an infinity
    when the raw percentage is not zero and NaN when it is. *)
Theorem CPUPercent_empty_affinity_set :
  forall (w : World) (st : State) (p : proc) (R : F64.t),
    Count (set p) = 0 ->
    cpuPercent w st p = Ok R ->
    exists x, CPUPercent w st p = Ok x
              /\ F64.is_nan x || F64.is_inf x = true
              /\ (F64.is_zero R = true -> F64.is_nan x = true).
Proof.
  intros w st p R Hc HR. unfold CPUPercent. rewrite HR, Hc. cbn [bind].
  eexists. split; [reflexivity|].
  assert (E : F64.mul (F64.of_Z 0) (F64.of_Z 100) = S754_zero false)
    by (vm_compute; reflexivity).
  rewrite E. destruct R as [s|s| |s m e]; split; try reflexivity;
    discriminate.
Qed.

Lemma CPUPercent_empty_affinity_set_witness :
  exists x, CPUPercent hostWorld state0 noCores = Ok x
            /\ F64.is_nan x || F64.is_inf x = true.
Proof.
  destruct (CPUPercent_empty_affinity_set hostWorld state0 noCores
              (F64.of_Z 150)) as (x & H1 & H2 & _).
  - reflexivity.
  - vm_compute. reflexivity.
  - exists x. split; assumption.
Defined.

(** ** Integers stay within their Go types *)

Lemma parseUintLoop_range (s0 : string) (bitSize : Z) (s : string) :
  forall n v,
    0 <= n ->
    n <= 2 ^ bitSize - 1 ->
    Strconv.parseUintLoop s0 bitSize n s = Ok v ->
    0 <= v <= 2 ^ bitSize - 1.
Proof.
  induction s as [|c r IH]; intros n v Hn Hb H; simpl in H.
  - inversion H; subst. lia.
  - destruct (Strconv.isDigit c); [|discriminate].
    destruct (n >=? _); [discriminate|].
    destruct (_ || _) eqn:E; [discriminate|].
    apply orb_false_iff in E as [_ E].
    apply (IH _ v) in H; [exact H| |].
    + apply Z.mod_pos_bound. reflexivity.
    + rewrite Z.gtb_ltb in E. apply Z.ltb_ge in E. exact E.
Qed.

Lemma ParseUint_range (s : string) (bitSize v : Z) :
  0 <= bitSize ->
  Strconv.ParseUint s bitSize = Ok v -> 0 <= v < 2 ^ bitSize.
Proof.
  intros Hb. unfold Strconv.ParseUint.
  destruct (Strings.isEmpty s); [discriminate|]. intros H.
  apply parseUintLoop_range in H; [lia|lia|].
  pose proof (Z.pow_pos_nonneg 2 bitSize). lia.
Qed.

Lemma ParseInt_range (s : string) (bitSize v : Z) :
  1 <= bitSize ->
  Strconv.ParseInt s bitSize = Ok v ->
  - 2 ^ (bitSize - 1) <= v < 2 ^ (bitSize - 1).
Proof.
  intros Hb. unfold Strconv.ParseInt. destruct s as [|c r]; [discriminate|].
  destruct (if Strings.code c =? 43 then _ else _) as [neg s].
  assert (Hp : 0 < 2 ^ (bitSize - 1)) by (apply Z.pow_pos_nonneg; lia).
  assert (Hc : forall un,
             0 <= un ->
             (if negb neg && (un >=? 2 ^ (bitSize - 1))
              then Err (Strconv.rangeError "ParseInt" (String c r))
              else if neg && (un >? 2 ^ (bitSize - 1))
                   then Err (Strconv.rangeError "ParseInt" (String c r))
                   else Ok (if neg then - un else un)) = Ok v ->
             - 2 ^ (bitSize - 1) <= v < 2 ^ (bitSize - 1)).
  { intros un Hun. destruct neg; cbn [negb andb].
    - destruct (Z.gtb_spec un (2 ^ (bitSize - 1))) as [Hg|Hg];
        [discriminate|].
      intros Hv; inversion Hv; subst. lia.
    - destruct (Z.geb_spec un (2 ^ (bitSize - 1))) as [Hg|Hg];
        [discriminate|].
      intros Hv; inversion Hv; subst. lia. }
  destruct (Strconv.ParseUint s bitSize) as [un|e|p] eqn:E.
  - apply Hc. apply ParseUint_range in E; lia.
  - destruct e; try discriminate. destruct k; [discriminate|].
    apply Hc. pose proof (Z.pow_pos_nonneg 2 bitSize). lia.
  - discriminate.
Qed.

Lemma toInt64_range (n : Z) : - 2 ^ 63 <= toInt64 n < 2 ^ 63.
Proof.
  unfold toInt64.
  pose proof (Z.mod_pos_bound (n + 2 ^ 63) (2 ^ 64) eq_refl). lia.
Qed.

Lemma toInt32_range (n : Z) : - 2 ^ 31 <= toInt32 n < 2 ^ 31.
Proof.
  unfold toInt32.
  pose proof (Z.mod_pos_bound (n + 2 ^ 31) (2 ^ 32) eq_refl). lia.
Qed.

Lemma rtpriority_range (v : Z) :
  - 2 ^ 31 <= v < 2 ^ 31 ->
  0 <= toUint32 (if v <? 0 then toInt64 (v * -1 - 1) else 0) < 2 ^ 31.
Proof.
  intros Hv. destruct (Z.ltb_spec v 0) as [Hn|Hn].
  - unfold toInt64, toUint32.
    rewrite (Z.mod_small (v * -1 - 1 + 2 ^ 63)) by lia.
    rewrite Z.mod_small by lia. lia.
  - unfold toUint32. rewrite Z.mod_small by lia. lia.
Qed.

(** X24.  Every integer of a process record that is returned fits the Go
    type it has in the source: terminal and the fault counts are unsigned
    64-bit, the parent pid and nice signed 32-bit, the creation time
    signed 64-bit.  The real-time priority is never negative and below
    2^31; the CPU record is labelled "cpu" and only its user, system and
    iowait counters are not the constant 0. *)
Theorem fillFromTIDStat_record_ranges :
  forall (w : World) (ctx : Context) (st : State) (p : proc) (tid : Z)
         (s : procStat),
    fillFromTIDStatWithContext w ctx st p tid = Ok s ->
    0 <= ps_terminal s < 2 ^ 64
    /\ - 2 ^ 31 <= ps_ppid s < 2 ^ 31
    /\ - 2 ^ 63 <= ps_createTime s < 2 ^ 63
    /\ 0 <= ps_rtpriority s < 2 ^ 31
    /\ - 2 ^ 31 <= ps_nice s < 2 ^ 31
    /\ 0 <= MinorFaults (ps_faults s) < 2 ^ 64
    /\ 0 <= MajorFaults (ps_faults s) < 2 ^ 64
    /\ 0 <= ChildMinorFaults (ps_faults s) < 2 ^ 64
    /\ 0 <= ChildMajorFaults (ps_faults s) < 2 ^ 64
    /\ cpu.CPU (ps_cpuTimes s) = "cpu"
    /\ cpu.Idle (ps_cpuTimes s) = F64.zero
    /\ cpu.Nice (ps_cpuTimes s) = F64.zero
    /\ cpu.Irq (ps_cpuTimes s) = F64.zero
    /\ cpu.Softirq (ps_cpuTimes s) = F64.zero
    /\ cpu.Steal (ps_cpuTimes s) = F64.zero
    /\ cpu.Guest (ps_cpuTimes s) = F64.zero
    /\ cpu.GuestNice (ps_cpuTimes s) = F64.zero.
Proof.
  intros w ctx st p tid s H. unfold fillFromTIDStatWithContext in H.
  invert_binds. inversion H; subst; clear H.
  cbn [ps_terminal ps_ppid ps_createTime ps_rtpriority ps_nice ps_faults
       ps_cpuTimes MinorFaults MajorFaults ChildMinorFaults ChildMajorFaults
       cpu.CPU cpu.Idle cpu.Nice cpu.Irq cpu.Softirq cpu.Steal cpu.Guest
       cpu.GuestNice].
  repeat match goal with
         | H : Strconv.ParseUint _ 64 = Ok _ |- _ =>
             apply ParseUint_range in H; [|lia]
         | H : Strconv.ParseInt _ 32 = Ok _ |- _ =>
             apply ParseInt_range in H; [|lia]
         end.
  change (32 - 1) with 31 in *.
  match goal with
  | |- context [toUint32 (if ?v <? 0 then _ else _)] =>
      pose proof (rtpriority_range v ltac:(assumption)) as Hrt
  end.
  repeat split; try reflexivity; try lia;
    try apply toInt64_range; try apply toInt32_range.
Qed.

Lemma fillFromTIDStat_record_ranges_witness :
  exists s, fillFromTIDStatWithContext hostWorld Background state0 twoCores
              (-1) = Ok s
            /\ 0 <= ps_rtpriority s < 2 ^ 31.
Proof.
  eexists. split; [vm_compute; reflexivity|].
  refine (proj1 (proj2 (proj2 (proj2
            (fillFromTIDStat_record_ranges hostWorld Background state0
               twoCores (-1) _ _))))).
  vm_compute. reflexivity.
Defined.

Lemma optionalField_value (fields : list string) :
  (if Nat.ltb 42 (List.length fields)
   then (f <- index fields 42 ;;
         match Strconv.ParseFloat f with
         | Ok io => Ok io
         | Err _ => Ok F64.zero
         | Panic q => Panic q
         end)
   else Ok F64.zero)
  = Ok (match blockIOTicks fields with Some io => io | None => F64.zero end).
Proof.
  unfold blockIOTicks, index.
  destruct (Nat.ltb 42 (List.length fields)) eqn:E.
  - apply Nat.ltb_lt in E.
    destruct (nth_error fields 42) as [a|] eqn:En;
      [|apply nth_error_None in En; lia].
    cbn [bind]. pose proof (ParseFloat_numFailure a) as H.
    destruct (Strconv.ParseFloat a); simpl in H; try contradiction;
      reflexivity.
  - apply Nat.ltb_ge in E.
    destruct (nth_error fields 42) as [a|] eqn:En; [|reflexivity].
    assert (nth_error fields 42 <> None) as Hn by congruence.
    apply nth_error_Some in Hn. lia.
Qed.

(** One parse of the chain: either it succeeds and the chain goes on, or
    its error is the result, and it is the first error of the list. *)
Ltac first_error_step H :=
  let N := fresh "N" in
  pose proof H as N;
  match type of N with
  | numFailure ?x =>
      destruct x as [?|?|?]; cbn [numFailure] in N;
      [clear N; cbn [bind firstError]
      |clear N; cbn [bind firstError]; reflexivity
      |contradiction]
  end.

(** X25.  Process sampling is all or nothing, and the required fields are
    parsed in the order 7, 4, 14, 15, 22, 18, 10, 11, 12, 13.  When the
    record has all its required fields and the boot-time lookup does not
    panic, the call returns exactly the parse error of the first field, in
    that order, that does not parse, and a record if there is none.  The
    block-IO field 42 is not among them: the record's IO wait is that field
    over the clock ticks when the field is there and is a number, and 0
    otherwise. *)
Theorem fillFromTIDStat_record_or_parse_error :
  forall (w : World) (ctx : Context) (st : State) (p : proc) (tid : Z)
         (contents : string) (fields : list string),
    ReadFile w (clock st)
      (if tid =? -1
       then HostProcWithContext w ctx [Strconv.Itoa (pid p); "stat"]
       else HostProcWithContext w ctx
              [Strconv.Itoa (pid p); "task"; Strconv.Itoa tid; "stat"])
    = Ok contents ->
    splitProcStat contents = Ok fields ->
    (22 < List.length fields)%nat ->
    noPanic (fst (BootTimeWithContext w ctx st enableBootTimeCache)) ->
    match firstRequiredFieldError fields with
    | Some e => fillFromTIDStatWithContext w ctx st p tid = Err e
    | None =>
        exists s,
          fillFromTIDStatWithContext w ctx st p tid = Ok s
          /\ cpu.Iowait (ps_cpuTimes s)
             = match blockIOTicks fields with
               | Some io => F64.div io (F64.of_Z clockTicks)
               | None => F64.zero
               end
    end.
Proof.
  intros w ctx st p tid contents fields HR HS HL HB.
  unfold fillFromTIDStatWithContext.
  rewrite HR. cbn [bind]. rewrite HS. cbn [bind].
  rewrite (optionalField_value fields).
  assert (exists b,
             match fst (BootTimeWithContext w ctx st enableBootTimeCache) with
             | Ok b => Ok b
             | Err _ => Ok 0
             | Panic q => Panic q
             end = (Ok b : outcome Z)) as [b ->].
  { destruct (fst (BootTimeWithContext w ctx st enableBootTimeCache));
      simpl in HB; try contradiction; eauto. }
  unfold firstRequiredFieldError, fieldError.
  destruct (index_Ok fields 7) as [a7 ->]; [lia|].
  destruct (index_Ok fields 4) as [a4 ->]; [lia|].
  destruct (index_Ok fields 14) as [a14 ->]; [lia|].
  destruct (index_Ok fields 15) as [a15 ->]; [lia|].
  destruct (index_Ok fields 22) as [a22 ->]; [lia|].
  destruct (index_Ok fields 18) as [a18 ->]; [lia|].
  destruct (index_Ok fields 10) as [a10 ->]; [lia|].
  destruct (index_Ok fields 11) as [a11 ->]; [lia|].
  destruct (index_Ok fields 12) as [a12 ->]; [lia|].
  destruct (index_Ok fields 13) as [a13 ->]; [lia|].
  cbn [bind].
  first_error_step (ParseUint_numFailure a7 64).
  first_error_step (ParseInt_numFailure a4 32).
  first_error_step (ParseFloat_numFailure a14).
  first_error_step (ParseFloat_numFailure a15).
  first_error_step (ParseUint_numFailure a22 64).
  first_error_step (ParseInt_numFailure a18 32).
  first_error_step (ParseUint_numFailure a10 64).
  first_error_step (ParseUint_numFailure a11 64).
  first_error_step (ParseUint_numFailure a12 64).
  first_error_step (ParseUint_numFailure a13 64).
  eexists. split; [reflexivity|].
  cbn [ps_cpuTimes cpu.Iowait].
  destruct (blockIOTicks fields); [reflexivity|vm_compute; reflexivity].
Qed.

(** Three instances: a complete record without field 42, whose IO wait is
    0; a record whose user ticks are not a number; and a record in which
    fields 4, 7 and 14 are all not numbers, where the error is that of
    field 7, the first one parsed. *)
Lemma fillFromTIDStat_record_or_parse_error_witness :
  (exists s, fillFromTIDStatWithContext hostWorld Background state0 twoCores
               (-1) = Ok s
             /\ cpu.Iowait (ps_cpuTimes s) = F64.zero)
  /\ fillFromTIDStatWithContext garbledWorld Background state0 twoCores (-1)
     = Err (NumError "ParseFloat" "x" ErrSyntax)
  /\ fillFromTIDStatWithContext scrambledWorld Background state0 twoCores
       (-1)
     = Err (NumError "ParseUint" "z" ErrSyntax).
Proof.
  split; [|split].
  - refine (fillFromTIDStat_record_or_parse_error hostWorld Background state0
              twoCores (-1) procStatFile
              ["" ; "42"; "my (odd) proc"; "R"; "1"; "42"; "42"; "34816";
               "42"; "4194304"; "10"; "20"; "30"; "40"; "10000"; "5000";
               "0"; "0"; "20"; "0"; "8"; "0"; "0"; "1000"; "100";
               "18446744073709551615"] _ _ _ _).
    + reflexivity.
    + vm_compute. reflexivity.
    + simpl. lia.
    + vm_compute. exact I.
  - refine (fillFromTIDStat_record_or_parse_error garbledWorld Background
              state0 twoCores (-1)
              "42 (cat) R 1 42 42 34816 42 4194304 10 20 30 40 x 5000 0 0 20 0 8 0 0 1000"
              ["" ; "42"; "cat"; "R"; "1"; "42"; "42"; "34816";
               "42"; "4194304"; "10"; "20"; "30"; "40"; "x"; "5000";
               "0"; "0"; "20"; "0"; "8"; "0"; "0"; "1000"] _ _ _ _).
    + reflexivity.
    + vm_compute. reflexivity.
    + simpl. lia.
    + vm_compute. exact I.
  - refine (fillFromTIDStat_record_or_parse_error scrambledWorld Background
              state0 twoCores (-1)
              "42 (cat) R y 42 42 z 42 4194304 10 20 30 40 x 5000 0 0 20 0 8 0 0 1000"
              ["" ; "42"; "cat"; "R"; "y"; "42"; "42"; "z";
               "42"; "4194304"; "10"; "20"; "30"; "40"; "x"; "5000";
               "0"; "0"; "20"; "0"; "8"; "0"; "0"; "1000"] _ _ _ _).
    + reflexivity.
    + vm_compute. reflexivity.
    + simpl. lia.
    + vm_compute. exact I.
Defined.
